(** * SSM patch-compliance pipeline: shallow embedding and properties

    The development embeds the patch-compliance collectors of the repository:

    - [PatchComplianceFinal]: [src/patch_compliance_final.py]
      ([fetch_account_region_data], [fetch_all_data], the [unique_patches]
      reduction of the presentation layer, and [get_account_name_by_id] of
      [src/utils_updated.py]);
    - [FinalReporter]: [src/final_corrected_patch_compliance_lambda.py]
      ([get_ec2_instances], [get_ssm_managed_instances],
      [get_patch_compliance_data], [collect_compliance_data]);
    - [ExplorerReporter]: [src/completely_corrected_patch_compliance_lambda.py]
      ([get_instance_management_summary_from_explorer] and its fallback,
      [get_patch_compliance_summary_from_compliance_api],
      [get_detailed_noncompliance_counts_from_patch_states],
      [collect_compliance_data]);
    - [PatchCompliance3]: the instance part of the [get_patch_compliance] of
      the "Patch_Compliance (3).py" section of
      [src/IAM_Users_with_Navigation.py].

    Python values are modelled as follows.  An [int] is a [Z].  A [str] is a
    [string] holding its UTF-8 bytes (the two non-ASCII glyphs used as message
    prefixes are written as their bytes); [len(s)] counts the characters, not
    the bytes, and [s[:50]] keeps the bytes of the first 50 characters.  A
    [datetime] is a record of its fields.  A
    [dict] used as a record with optional keys is a record whose
    optional keys are [option] fields ([d.get(k, dflt)] is [get_or dflt]).  A
    [dict] used as a map keeps insertion order, so it is an association list
    with unique keys ([Py.dict]).  The generation time and the percentages
    (floating point) are left out of the reports; a percentage whose
    computation can raise inside a [try] is kept as the condition under which
    it raises.

    The remote provider is data.  A paginated listing is the list of pages it
    yields followed by an optional failure: a loop over it processes the
    pages, then the handler of the enclosing [try] runs if the listing
    failed.  A call made inside a loop is answered by an oracle that takes
    the number of calls made before it, so that two calls with the same
    arguments need not agree.  The items of the responses have the keys the
    code reads with [item[key]]; keys read with [.get] are optional.

    After the embedding come the observations and the concrete provider
    behaviours the statements use, then the properties. *)

From Stdlib Require Import List String Ascii ZArith Arith Bool Lia Permutation DecimalString.
Import ListNotations.
Local Open Scope string_scope.
Local Open Scope Z_scope.
Local Open Scope list_scope.

Set Implicit Arguments.

(* ------------------------------------------------------------------ *)
(** ** Python building blocks *)

Module Py.

(** Outcome of a fallible call: the value, or the text of the exception. *)
Inductive result (A : Type) : Type :=
| Ok (a : A)
| Raise (msg : string).
Arguments Ok {A} a.
Arguments Raise {A} msg.

(** A paginated listing: the pages yielded, then the exception (if any) that
    aborts the iteration. *)
Record paged (A : Type) : Type := Paged {
  pages : list A;
  failure : option string
}.

(** [d.get(k, dflt)] on an optional key. *)
Definition get_or {A : Type} (dflt : A) (o : option A) : A :=
  match o with
  | Some a => a
  | None => dflt
  end.

(** A byte of the form [10xxxxxx] continues the character that the last
    byte of another form started. *)
Definition is_continuation (c : ascii) : bool :=
  match c with
  | Ascii _ _ _ _ _ _ b6 b7 => b7 && negb b6
  end.

(** [len(s)]: the number of characters. *)
Fixpoint chars (s : string) : nat :=
  match s with
  | EmptyString => 0%nat
  | String c rest => if is_continuation c then chars rest else S (chars rest)
  end.

(** [s[:n]]: the first [n] characters, each with its continuation bytes. *)
Fixpoint prefix (n : nat) (s : string) : string :=
  match s with
  | EmptyString => EmptyString
  | String c rest =>
      if is_continuation c then String c (prefix n rest)
      else match n with
           | O => EmptyString
           | S n' => String c (prefix n' rest)
           end
  end.

(** An insertion-ordered dictionary with string keys. *)
Definition dict (V : Type) : Type := list (string * V).

Fixpoint dict_get {V : Type} (d : dict V) (k : string) : option V :=
  match d with
  | [] => None
  | (k', v) :: d' => if String.eqb k' k then Some v else dict_get d' k
  end.

(** [k in d]. *)
Definition dict_mem {V : Type} (d : dict V) (k : string) : bool :=
  match dict_get d k with
  | Some _ => true
  | None => false
  end.

(** [d[k] = v]: an existing key keeps its position, a new key goes last. *)
Fixpoint dict_set {V : Type} (d : dict V) (k : string) (v : V) : dict V :=
  match d with
  | [] => [(k, v)]
  | (k', v') :: d' =>
      if String.eqb k' k then (k', v) :: d' else (k', v') :: dict_set d' k v
  end.

(** [d[k][field] = ...] on a key known to be present: update in place. *)
Fixpoint dict_update {V : Type} (d : dict V) (k : string) (f : V -> V) : dict V :=
  match d with
  | [] => []
  | (k', v') :: d' =>
      if String.eqb k' k then (k', f v') :: d' else (k', v') :: dict_update d' k f
  end.

Definition keys {V : Type} (d : dict V) : list string := map fst d.

(** [l[i:j]] for [0 <= i <= j]. *)
Definition slice {A : Type} (l : list A) (i j : nat) : list A :=
  firstn (j - i) (skipn i l).

(** [range(0, stop, step)] for [step > 0]: [0, step, 2*step, ...] below [stop]. *)
Definition range_step (stop step : nat) : list nat :=
  map (fun k => (k * step)%nat) (seq 0 ((stop + step - 1) / step)%nat).

(** [max(0, x)]. *)
Definition max0 (x : Z) : Z := Z.max 0 x.

(** [a / b] on two [int], for [b > 0], raises [OverflowError] when the
    quotient rounded to the nearest double is not finite, that is from
    [2**1024 - 2**970] on in absolute value. *)
Definition true_division_overflows (a b : Z) : bool :=
  (2 ^ 1024 - 2 ^ 970) * b <=? Z.abs a.

(** A [datetime]; the provider gives them in UTC. *)
Record datetime : Type := {
  year : nat;
  month : nat;
  day : nat;
  hour : nat;
  minute : nat;
  second : nat;
  microsecond : nat
}.

(** A number in decimal, and in decimal on two digits at least. *)
Definition decimal (n : nat) : string := NilEmpty.string_of_uint (Nat.to_uint n).

Definition two_digits (n : nat) : string :=
  if (n <? 10)%nat then ("0" ++ decimal n)%string else decimal n.

(** [t.strftime('%Y-%m-%d %H:%M:%S')], for a year of four digits. *)
Definition strftime (t : datetime) : string :=
  (decimal (year t) ++ "-" ++ two_digits (month t) ++ "-" ++ two_digits (day t)
   ++ " " ++ two_digits (hour t) ++ ":" ++ two_digits (minute t)
   ++ ":" ++ two_digits (second t))%string.

(** The glyphs that open the messages (UTF-8 bytes of U+274C and of
    U+26A0 U+FE0F). *)
Definition byte (n : nat) : string := String (ascii_of_nat n) EmptyString.
Definition cross_mark : string := (byte 226 ++ byte 157 ++ byte 140)%string.
Definition warning_sign : string :=
  (byte 226 ++ byte 154 ++ byte 160 ++ byte 239 ++ byte 184 ++ byte 143)%string.

End Py.

Import Py.

(* ------------------------------------------------------------------ *)
(** ** Shapes of the provider's responses *)

Module Aws.

Record Tag : Type := {
  Key : string;
  Value : string
}.

(** An item of [describe_instances]. *)
Record Instance : Type := {
  InstanceId : string;
  Platform : option string;
  Tags : list Tag;
  State_Name : string;
  LaunchTime : option datetime
}.

(** A page of [describe_instances] is a list of reservations, each a list of
    instances. *)
Definition Reservation : Type := list Instance.

(** An item of [describe_instance_information]. *)
Record InstanceInformation : Type := {
  info_InstanceId : string;
  PingStatus : option string
}.

(** An item of [list_resource_compliance_summaries]. *)
Record ResourceComplianceSummaryItem : Type := {
  ResourceId : option string;
  Status : option string
}.

(** An item of [describe_instance_patch_states]. *)
Record InstancePatchState : Type := {
  ps_InstanceId : option string;
  InstalledCount : option Z;
  InstalledOtherCount : option Z;
  InstalledPendingRebootCount : option Z;
  InstalledRejectedCount : option Z;
  MissingCount : option Z;
  FailedCount : option Z;
  UnreportedNotApplicableCount : option Z;
  NotApplicableCount : option Z
}.

(** An item of [describe_patch_groups]; [BaselineId] is the key inside
    [BaselineIdentity]. *)
Record PatchGroupMapping : Type := {
  PatchGroup : option string;
  BaselineId : option string
}.

(** The response of [describe_patch_group_state]. *)
Record PatchGroupState : Type := {
  Instances : option Z;
  InstancesWithInstalledPatches : option Z;
  InstancesWithMissingPatches : option Z;
  InstancesWithFailedPatches : option Z;
  InstancesWithNotApplicablePatches : option Z;
  InstancesWithUnreportedNotApplicablePatches : option Z
}.

(** An item of [describe_available_patches]. *)
Record Patch : Type := {
  Id : option string;
  Title : option string;
  Classification : option string;
  Severity : option string;
  ReleaseDate : option string;
  ContentUrl : option string
}.

End Aws.

(* ------------------------------------------------------------------ *)
(** ** [src/patch_compliance_final.py] *)

Module PatchComplianceFinal.

Import Aws.

(** What the EC2 client answers in one unit. *)
Record Ec2Client : Type := {
  describe_instances : paged (list Reservation)
}.

(** What the SSM client answers in one unit.  The two calls made inside
    loops take the number of earlier calls of the same operation. *)
Record SsmClient : Type := {
  describe_instance_information : paged (list InstanceInformation);
  list_resource_compliance_summaries : paged (list ResourceComplianceSummaryItem);
  describe_instance_patch_states : nat -> list string -> result (list InstancePatchState);
  describe_patch_groups : paged (list PatchGroupMapping);
  describe_patch_group_state : nat -> string -> result PatchGroupState;
  describe_available_patches : paged (list Patch)
}.

(** A value of [instance_map]; the key ['processed'] is absent until set, and
    [info.get('processed')] is then falsy. *)
Record InstanceInfo : Type := {
  name : string;
  platform : string;
  state : string;
  launch : option datetime;
  ssm_managed : bool;
  ssm_agent_status : string;
  processed : bool
}.

(** A row of [instances]; the four patch counts are keys that a row built
    from a compliance summary only gets from the patch-detail pass. *)
Record InstanceRow : Type := {
  Account_Name : string;
  Region : string;
  Instance_ID : string;
  Instance_Name : string;
  row_Platform : string;
  Compliance_Status : string;
  SSM_Agent_Status : string;
  Installed_Patches : option Z;
  Missing_Patches : option Z;
  Failed_Patches : option Z;
  Unspecified_Patches : option Z;
  Instance_State : string;
  Launch_Time : option datetime;
  Managed : bool
}.

Record GroupRow : Type := {
  grp_Account_Name : string;
  grp_Region : string;
  Patch_Group : string;
  Baseline_ID : string;
  Instances_Count : Z;
  Compliant : Z;
  Non_Compliant : Z;
  Unspecified : Z
}.

Record PatchRow : Type := {
  pat_Account_Name : string;
  pat_Region : string;
  Patch_ID : string;
  pat_Title : string;
  pat_Classification : string;
  pat_Severity : string;
  Release_Date : option string;
  Content_URL : string
}.

(** [f"<glyph> {account_name}/{region}: <what>"]. *)
Definition tagged (glyph account_name region what : string) : string :=
  (glyph ++ " " ++ account_name ++ "/" ++ region ++ ": " ++ what)%string.

(** The [except Exception as e] clause of a guarded sub-fetch:
    [errors.append(f"... {label} - {str(e)[:50]}")]. *)
Definition guard (account_name region label : string) (failure : option string)
    (errors : list string) : list string :=
  match failure with
  | None => errors
  | Some e =>
      errors ++ [tagged warning_sign account_name region (label ++ " - " ++ prefix 50 e)%string]
  end.

(** [next((t['Value'] for t in tags if t['Key'] == 'Name'), iid)]. *)
Fixpoint name_tag (tags : list Tag) (iid : string) : string :=
  match tags with
  | [] => iid
  | t :: tags' => if String.eqb (Key t) "Name" then Value t else name_tag tags' iid
  end.

(** Body of the innermost loop over [describe_instances]. *)
Definition record_instance (instance_map : dict InstanceInfo) (inst : Instance)
    : dict InstanceInfo :=
  let iid := InstanceId inst in
  dict_set instance_map iid
    {| name := name_tag (Tags inst) iid;
       platform := get_or "linux" (Platform inst);
       state := State_Name inst;
       launch := LaunchTime inst;
       ssm_managed := false;
       ssm_agent_status := "Unknown";
       processed := false |}.

(** "Get all EC2 instances": every page, every reservation, every instance. *)
Definition collect_instances (pgs : list (list Reservation)) : dict InstanceInfo :=
  fold_left (fun m page =>
    fold_left (fun m res => fold_left record_instance res m) page m) pgs [].

(** Body of the loop over [describe_instance_information]. *)
Definition record_managed (instance_map : dict InstanceInfo) (inst : InstanceInformation)
    : dict InstanceInfo :=
  let iid := info_InstanceId inst in
  if dict_mem instance_map iid then
    dict_update instance_map iid (fun i =>
      {| name := name i; platform := platform i; state := state i; launch := launch i;
         ssm_managed := true;
         ssm_agent_status := get_or "Unknown" (PingStatus inst);
         processed := processed i |})
  else instance_map.

(** "Get SSM agent status and managed instances". *)
Definition collect_managed (pgs : list (list InstanceInformation))
    (instance_map : dict InstanceInfo) : dict InstanceInfo :=
  fold_left (fun m page => fold_left record_managed page m) pgs instance_map.

Definition mark_processed (i : InstanceInfo) : InstanceInfo :=
  {| name := name i; platform := platform i; state := state i; launch := launch i;
     ssm_managed := ssm_managed i; ssm_agent_status := ssm_agent_status i;
     processed := true |}.

(** The dictionary appended to [instances] for a compliance summary of an
    instance of [instance_map]. *)
Definition summary_row (account_name region : string)
    (summary : ResourceComplianceSummaryItem) (info : InstanceInfo) : InstanceRow :=
  let iid := get_or "" (ResourceId summary) in
  let status := get_or "NON_COMPLIANT" (Status summary) in
  {| Account_Name := account_name;
     Region := region;
     Instance_ID := iid;
     Instance_Name := name info;
     row_Platform := platform info;
     Compliance_Status := status;
     SSM_Agent_Status := ssm_agent_status info;
     Installed_Patches := None;
     Missing_Patches := None;
     Failed_Patches := None;
     Unspecified_Patches := None;
     Instance_State := state info;
     Launch_Time := launch info;
     Managed := ssm_managed info |}.

(** Body of the loop over [list_resource_compliance_summaries]; the state is
    [(instance_map, instances)]. *)
Definition record_summary (account_name region : string)
    (st : dict InstanceInfo * list InstanceRow) (summary : ResourceComplianceSummaryItem)
    : dict InstanceInfo * list InstanceRow :=
  let '(instance_map, instances) := st in
  let iid := get_or "" (ResourceId summary) in
  match dict_get instance_map iid with
  | None => st
  | Some info =>
      (dict_update instance_map iid mark_processed,
       instances ++ [summary_row account_name region summary info])
  end.

(** "Get compliance summaries using list_resource_compliance_summaries". *)
Definition collect_summaries (account_name region : string)
    (pgs : list (list ResourceComplianceSummaryItem))
    (st : dict InstanceInfo * list InstanceRow) : dict InstanceInfo * list InstanceRow :=
  fold_left (fun st page => fold_left (record_summary account_name region) page st) pgs st.

(** The inner [for inst in instances: if inst['Instance ID'] == iid: ...; break]. *)
Fixpoint add_patch_details (iid : string) (st : InstancePatchState)
    (instances : list InstanceRow) : list InstanceRow :=
  match instances with
  | [] => []
  | inst :: rest =>
      if String.eqb (Instance_ID inst) iid then
        {| Account_Name := Account_Name inst;
           Region := Region inst;
           Instance_ID := Instance_ID inst;
           Instance_Name := Instance_Name inst;
           row_Platform := row_Platform inst;
           Compliance_Status := Compliance_Status inst;
           SSM_Agent_Status := SSM_Agent_Status inst;
           Installed_Patches := Some (get_or 0 (InstalledCount st));
           Missing_Patches := Some (get_or 0 (MissingCount st));
           Failed_Patches := Some (get_or 0 (FailedCount st));
           Unspecified_Patches :=
             Some (get_or 0 (NotApplicableCount st)
                   + get_or 0 (UnreportedNotApplicableCount st));
           Instance_State := Instance_State inst;
           Launch_Time := Launch_Time inst;
           Managed := Managed inst |} :: rest
      else inst :: add_patch_details iid st rest
  end.

(** [instance_map[iid].get('processed')]. *)
Definition is_processed (instance_map : dict InstanceInfo) (iid : string) : bool :=
  match dict_get instance_map iid with
  | Some info => processed info
  | None => false
  end.

(** "Get detailed patch states for processed instances": one iteration for
    one key of [instance_map]; the state is [(calls, instances)], [calls]
    being the [InstanceIds] argument of every call issued so far. *)
Definition patch_detail_step (ssm : SsmClient) (instance_map : dict InstanceInfo)
    (st : list (list string) * list InstanceRow) (iid : string)
    : list (list string) * list InstanceRow :=
  let '(calls, instances) := st in
  if is_processed instance_map iid then
    let calls' := calls ++ [[iid]] in
    match describe_instance_patch_states ssm (List.length calls) [iid] with
    | Ok (state0 :: _) => (calls', add_patch_details iid state0 instances)
    | Ok [] => (calls', instances)
    | Raise _ => (calls', instances)
    end
  else st.

Definition collect_patch_details (ssm : SsmClient) (instance_map : dict InstanceInfo)
    (instances : list InstanceRow) : list (list string) * list InstanceRow :=
  fold_left (patch_detail_step ssm instance_map) (keys instance_map) ([], instances).

(** "Add unmanaged instances". *)
Definition unmanaged_row (account_name region : string) (kv : string * InstanceInfo)
    : list InstanceRow :=
  let '(iid, info) := kv in
  if negb (processed info) && negb (ssm_managed info) then
    [ {| Account_Name := account_name;
         Region := region;
         Instance_ID := iid;
         Instance_Name := name info;
         row_Platform := platform info;
         Compliance_Status := "UNMANAGED";
         SSM_Agent_Status := "Not Installed";
         Installed_Patches := Some 0;
         Missing_Patches := Some 0;
         Failed_Patches := Some 0;
         Unspecified_Patches := Some 0;
         Instance_State := state info;
         Launch_Time := launch info;
         Managed := false |} ]
  else [].

Definition add_unmanaged (account_name region : string) (instance_map : dict InstanceInfo)
    (instances : list InstanceRow) : list InstanceRow :=
  fold_left (fun acc kv => acc ++ unmanaged_row account_name region kv) instance_map instances.

(** The dictionary appended to [groups] for a mapping and the response to
    its [describe_patch_group_state] call. *)
Definition group_row (account_name region : string) (group : PatchGroupMapping)
    (resp : PatchGroupState) : GroupRow :=
  let group_name := get_or "N/A" (PatchGroup group) in
  let baseline_id := get_or "N/A" (BaselineId group) in
  let count := get_or 0 (Instances resp) in
  let compliant := get_or 0 (InstancesWithInstalledPatches resp) in
  let non_compliant :=
    get_or 0 (InstancesWithMissingPatches resp)
    + get_or 0 (InstancesWithFailedPatches resp) in
  let unspecified :=
    get_or 0 (InstancesWithNotApplicablePatches resp)
    + get_or 0 (InstancesWithUnreportedNotApplicablePatches resp) in
  {| grp_Account_Name := account_name;
     grp_Region := region;
     Patch_Group := group_name;
     Baseline_ID := baseline_id;
     Instances_Count := count;
     Compliant := compliant;
     Non_Compliant := non_compliant;
     Unspecified := unspecified |}.

(** Body of the loop over [describe_patch_groups]; the state is
    [(n, groups)], [n] being the number of [describe_patch_group_state] calls
    issued so far.  A call that raises is swallowed by [except: pass]. *)
Definition record_group (account_name region : string) (ssm : SsmClient)
    (st : nat * list GroupRow) (group : PatchGroupMapping) : nat * list GroupRow :=
  let '(n, groups) := st in
  let group_name := get_or "N/A" (PatchGroup group) in
  match describe_patch_group_state ssm n group_name with
  | Ok resp =>
      let count := get_or 0 (Instances resp) in
      if 0 <? count then (S n, groups ++ [group_row account_name region group resp])
      else (S n, groups)
  | Raise _ => (S n, groups)
  end.

(** "Get patch groups". *)
Definition collect_groups (account_name region : string) (ssm : SsmClient)
    (pgs : list (list PatchGroupMapping)) : nat * list GroupRow :=
  fold_left (fun st page => fold_left (record_group account_name region ssm) page st)
    pgs (0%nat, []).

(** Body of the loop over [describe_available_patches]. *)
Definition patch_row (account_name region : string) (patch : Patch) : PatchRow :=
  {| pat_Account_Name := account_name;
     pat_Region := region;
     Patch_ID := get_or "N/A" (Id patch);
     pat_Title := get_or "N/A" (Title patch);
     pat_Classification := get_or "N/A" (Classification patch);
     pat_Severity := get_or "N/A" (Severity patch);
     Release_Date := ReleaseDate patch;
     Content_URL := get_or "N/A" (ContentUrl patch) |}.

(** "Get available patches". *)
Definition collect_patches (account_name region : string) (pgs : list (list Patch))
    : list PatchRow :=
  fold_left (fun acc page => fold_left (fun acc patch => acc ++ [patch_row account_name region patch]) page acc)
    pgs [].

(** The clients of a unit: [get_ssm] and [get_ec2] return [None] when the role
    cannot be assumed or the client cannot be built. *)
Record Clients : Type := {
  get_ssm : option SsmClient;
  get_ec2 : option Ec2Client
}.

(** Everything a run of the unit produces: the four lists it returns, the
    final [instance_map], and the [InstanceIds] argument of each
    [describe_instance_patch_states] call it issued. *)
Record UnitRun : Type := {
  run_instance_map : dict InstanceInfo;
  run_patch_state_calls : list (list string);
  run_instances : list InstanceRow;
  run_groups : list GroupRow;
  run_patches : list PatchRow;
  run_errors : list string
}.

Definition run_unit (account_name region : string) (c : Clients) : UnitRun :=
  match get_ssm c, get_ec2 c with
  | Some ssm, Some ec2 =>
      let errors := [] in
      (* Get all EC2 instances *)
      let instance_map := collect_instances (pages (describe_instances ec2)) in
      let errors := guard account_name region "EC2 error"
                      (failure (describe_instances ec2)) errors in
      (* Get SSM agent status and managed instances *)
      let instance_map :=
        collect_managed (pages (describe_instance_information ssm)) instance_map in
      let errors := guard account_name region "SSM instances"
                      (failure (describe_instance_information ssm)) errors in
      (* Get compliance summaries *)
      let '(instance_map, instances) :=
        collect_summaries account_name region
          (pages (list_resource_compliance_summaries ssm)) (instance_map, []) in
      let errors := guard account_name region "Compliance summaries"
                      (failure (list_resource_compliance_summaries ssm)) errors in
      (* Get detailed patch states for processed instances; the inner
         [except: pass] swallows every failure, so the outer handler adds no
         message *)
      let '(calls, instances) := collect_patch_details ssm instance_map instances in
      (* Add unmanaged instances *)
      let instances := add_unmanaged account_name region instance_map instances in
      (* Get patch groups *)
      let groups := snd (collect_groups account_name region ssm
                           (pages (describe_patch_groups ssm))) in
      let errors := guard account_name region "Patch groups"
                      (failure (describe_patch_groups ssm)) errors in
      (* Get available patches *)
      let patches := collect_patches account_name region
                       (pages (describe_available_patches ssm)) in
      let errors := guard account_name region "Patches"
                      (failure (describe_available_patches ssm)) errors in
      {| run_instance_map := instance_map;
         run_patch_state_calls := calls;
         run_instances := instances;
         run_groups := groups;
         run_patches := patches;
         run_errors := errors |}
  | _, _ =>
      {| run_instance_map := [];
         run_patch_state_calls := [];
         run_instances := [];
         run_groups := [];
         run_patches := [];
         run_errors := [tagged cross_mark account_name region "Auth failed"] |}
  end.

(** The 4-tuple [fetch_account_region_data] returns. *)
Definition UnitResult : Type :=
  (list InstanceRow * list GroupRow * list PatchRow * list string)%type.

Definition fetch_account_region_data (account_name region : string) (c : Clients)
    : UnitResult :=
  let r := run_unit account_name region c in
  (run_instances r, run_groups r, run_patches r, run_errors r).

(** The inventory of the unit: [instance_map] as the EC2 pass leaves it. *)
Definition inventory (c : Clients) : dict InstanceInfo :=
  match get_ssm c, get_ec2 c with
  | Some _, Some ec2 => collect_instances (pages (describe_instances ec2))
  | _, _ => []
  end.

(** The registry of the unit: the identifiers [describe_instance_information]
    lists before it fails, if it does. *)
Definition registry (c : Clients) : list string :=
  match get_ssm c with
  | Some ssm => map info_InstanceId (List.concat (pages (describe_instance_information ssm)))
  | None => []
  end.

(** The compliance-summary identifiers the unit receives. *)
Definition summary_ids (c : Clients) : list string :=
  match get_ssm c with
  | Some ssm =>
      map (fun s => get_or "" (ResourceId s))
        (List.concat (pages (list_resource_compliance_summaries ssm)))
  | None => []
  end.

(** *** [fetch_all_data] *)

(** An entry of the account directory ([utils.get_account_name_by_id]). *)
Record Account : Type := {
  acc_Id : string;
  acc_Name : string
}.

Fixpoint get_account_name_by_id (account_id : string) (accounts_list : list Account)
    : string :=
  match accounts_list with
  | [] => account_id
  | account :: rest =>
      if String.eqb (acc_Id account) account_id then acc_Name account
      else get_account_name_by_id account_id rest
  end.

(** What [f.result()] does: return the unit's tuple or re-raise what the
    task raised, which is either an instance of [Exception] ([Raised]) or
    another [BaseException] such as [SystemExit] ([Exited]). *)
Inductive outcome : Type :=
| Returned (r : UnitResult)
| Raised (ex : string)
| Exited (ex : string).

(** A submitted future with the [(aname, rgn)] stored for it in [futures]. *)
Record Future : Type := {
  fut_aname : string;
  fut_rgn : string;
  fut_result : outcome
}.

(** The submission loop; [task aid aname rgn] is the outcome of
    [fetch_account_region_data(aid, aname, rgn, role_name)] in the pool. *)
Definition submit (account_ids : list string) (all_accounts : list Account)
    (regions : list string) (task : string -> string -> string -> outcome) : list Future :=
  flat_map (fun aid =>
    let aname := get_account_name_by_id aid all_accounts in
    map (fun rgn => {| fut_aname := aname; fut_rgn := rgn;
                       fut_result := task aid aname rgn |}) regions) account_ids.

(** The accumulators of [fetch_all_data]. *)
Record Aggregate : Type := {
  done : nat;
  all_inst : list InstanceRow;
  all_grp : list GroupRow;
  all_pat : list PatchRow;
  all_err : list string
}.

(** Body of [for f in as_completed(futures)]: [except Exception] handles what
    [Raised] carries, and what [Exited] carries leaves the loop. *)
Definition complete (a : Aggregate) (f : Future) : result Aggregate :=
  match fut_result f with
  | Returned (i, g, p, e) =>
      Ok {| done := S (done a);
            all_inst := all_inst a ++ i;
            all_grp := all_grp a ++ g;
            all_pat := all_pat a ++ p;
            all_err := all_err a ++ e |}
  | Raised ex =>
      Ok {| done := S (done a);
            all_inst := all_inst a;
            all_grp := all_grp a;
            all_pat := all_pat a;
            all_err := all_err a
                       ++ [tagged cross_mark (fut_aname f) (fut_rgn f) (prefix 50 ex)] |}
  | Exited ex => Raise ex
  end.

(** The loop over [as_completed(futures)] from the accumulators [a]. *)
Fixpoint drain (completed : list Future) (a : Aggregate) : result Aggregate :=
  match completed with
  | [] => Ok a
  | f :: rest =>
      match complete a f with
      | Ok a' => drain rest a'
      | Raise ex => Raise ex
      end
  end.

(** [fetch_all_data], given the order [completed] in which [as_completed]
    yields the submitted futures; an exception that leaves the loop leaves
    the function. *)
Definition fetch_all_data (completed : list Future) : result Aggregate :=
  drain completed
    {| done := 0%nat; all_inst := []; all_grp := []; all_pat := []; all_err := [] |}.

(** *** Presentation layer: [pat_df.drop_duplicates(subset=['Patch ID'])] *)

(** Keep the first row of each ['Patch ID']; [seen] holds the identifiers
    already kept. *)
Fixpoint drop_duplicates_from (seen : list string) (rows : list PatchRow) : list PatchRow :=
  match rows with
  | [] => []
  | r :: rest =>
      if existsb (String.eqb (Patch_ID r)) seen then drop_duplicates_from seen rest
      else r :: drop_duplicates_from (Patch_ID r :: seen) rest
  end.

Definition unique_patches (pat : list PatchRow) : list PatchRow :=
  drop_duplicates_from [] pat.

End PatchComplianceFinal.

(* ------------------------------------------------------------------ *)
(** ** [src/final_corrected_patch_compliance_lambda.py] *)

Module FinalReporter.

Import Aws.

(** The operations of [session.client('ec2')] and [session.client('ssm')]
    the reporter uses.  [describe_instances] is the listing requested with
    the filter [instance-state-name] in [['running', 'stopped']]. *)
Record Ec2Client : Type := {
  describe_instances : paged (list Reservation)
}.

Record SsmClient : Type := {
  describe_instance_information : paged (list InstanceInformation);
  describe_instance_patch_states : nat -> list string -> result (list InstancePatchState)
}.

(** A session; [session.client(...)] may raise. *)
Record Session : Type := {
  client_ec2 : result Ec2Client;
  client_ssm : result SsmClient
}.

Definition instance_ids (pgs : list (list Reservation)) : list string :=
  fold_left (fun acc page =>
    fold_left (fun acc reservation =>
      fold_left (fun acc instance => acc ++ [InstanceId instance]) reservation acc)
      page acc) pgs [].

(** [get_ec2_instances]: any exception discards what was listed. *)
Definition get_ec2_instances (session : Session) : list string :=
  match client_ec2 session with
  | Ok ec2_client =>
      match failure (describe_instances ec2_client) with
      | None => instance_ids (pages (describe_instances ec2_client))
      | Some _ => []
      end
  | Raise _ => []
  end.

(** [instance.get('PingStatus') == 'Online']. *)
Definition is_online (instance : InstanceInformation) : bool :=
  match PingStatus instance with
  | Some s => String.eqb s "Online"
  | None => false
  end.

Definition online_ids (pgs : list (list InstanceInformation)) : list string :=
  fold_left (fun acc page =>
    fold_left (fun acc instance =>
      if is_online instance then acc ++ [info_InstanceId instance] else acc) page acc)
    pgs [].

(** [get_ssm_managed_instances]. *)
Definition get_ssm_managed_instances (session : Session) : list string :=
  match client_ssm session with
  | Ok ssm_client =>
      match failure (describe_instance_information ssm_client) with
      | None => online_ids (pages (describe_instance_information ssm_client))
      | Some _ => []
      end
  | Raise _ => []
  end.

(** The [summary] dictionary of [get_patch_compliance_data]. *)
Record Summary : Type := {
  total_managed_instances : Z;
  compliant_instances : Z;
  non_compliant_instances : Z;
  missing_count : Z;
  failed_count : Z;
  installed_pending_reboot_count : Z;
  installed_other_count : Z;
  installed_rejected_count : Z;
  not_applicable_count : Z
}.

Definition empty_summary (total : Z) : Summary :=
  {| total_managed_instances := total;
     compliant_instances := 0;
     non_compliant_instances := 0;
     missing_count := 0;
     failed_count := 0;
     installed_pending_reboot_count := 0;
     installed_other_count := 0;
     installed_rejected_count := 0;
     not_applicable_count := 0 |}.

(** Body of [for state in response.get('InstancePatchStates', [])]. *)
Definition add_state (summary : Summary) (state : InstancePatchState) : Summary :=
  let missing := max0 (get_or 0 (MissingCount state)) in
  let failed := max0 (get_or 0 (FailedCount state)) in
  let is_compliant := (missing =? 0) && (failed =? 0) in
  {| total_managed_instances := total_managed_instances summary;
     compliant_instances :=
       if is_compliant then compliant_instances summary + 1
       else compliant_instances summary;
     non_compliant_instances :=
       if is_compliant then non_compliant_instances summary
       else non_compliant_instances summary + 1;
     missing_count := missing_count summary + missing;
     failed_count := failed_count summary + failed;
     installed_pending_reboot_count :=
       installed_pending_reboot_count summary
       + max0 (get_or 0 (InstalledPendingRebootCount state));
     installed_other_count :=
       installed_other_count summary + max0 (get_or 0 (InstalledOtherCount state));
     installed_rejected_count :=
       installed_rejected_count summary + max0 (get_or 0 (InstalledRejectedCount state));
     not_applicable_count :=
       not_applicable_count summary + max0 (get_or 0 (NotApplicableCount state)) |}.

Definition batch_size : nat := 50.

(** The batches [managed_instances[i:i+batch_size]] for
    [i in range(0, len(managed_instances), batch_size)]. *)
Definition batches (managed_instances : list string) : list (list string) :=
  map (fun i => slice managed_instances i (i + batch_size))
    (range_step (List.length managed_instances) batch_size).

(** One iteration of the batch loop; the state is [(calls, summary)], [calls]
    being the [InstanceIds] argument of every call issued so far.  A batch
    whose call raises is skipped ([continue]). *)
Definition batch_step (ssm_client : SsmClient) (st : list (list string) * Summary)
    (batch : list string) : list (list string) * Summary :=
  let '(calls, summary) := st in
  match describe_instance_patch_states ssm_client (List.length calls) batch with
  | Ok states => (calls ++ [batch], fold_left add_state states summary)
  | Raise _ => (calls ++ [batch], summary)
  end.

(** [get_patch_compliance_data], with the calls it issued. *)
Definition run_patch_compliance_data (session : Session) (managed_instances : list string)
    : list (list string) * Summary :=
  match managed_instances with
  | [] => ([], empty_summary 0)
  | _ :: _ =>
      match client_ssm session with
      | Ok ssm_client =>
          fold_left (batch_step ssm_client) (batches managed_instances)
            ([], empty_summary (Z.of_nat (List.length managed_instances)))
      | Raise _ => ([], empty_summary (Z.of_nat (List.length managed_instances)))
      end
  end.

Definition get_patch_compliance_data (session : Session) (managed_instances : list string)
    : Summary :=
  snd (run_patch_compliance_data session managed_instances).

Definition patch_state_calls (session : Session) (managed_instances : list string)
    : list (list string) :=
  fst (run_patch_compliance_data session managed_instances).

(** [region_data['patch_details']]: the six patch counts. *)
Record PatchDetails : Type := {
  details_missing_count : Z;
  details_failed_count : Z;
  details_installed_pending_reboot_count : Z;
  details_installed_other_count : Z;
  details_installed_rejected_count : Z;
  details_not_applicable_count : Z
}.

(** [region_data], without the floating-point coverage percentage (a
    quotient of two list lengths). *)
Record RegionData : Type := {
  managed_instances : Z;
  region_compliant_instances : Z;
  region_non_compliant_instances : Z;
  patch_details : PatchDetails;
  total_ec2_instances : Z;
  unmanaged_ec2_instances : Z
}.

(** [all_data], without the generation time; [accounts] maps an account id
    to its name and its regions. *)
Record AllData : Type := {
  accounts : dict (string * dict RegionData);
  aws_dashboard_summary : Summary;
  ctx_total_ec2_instances : Z;
  ctx_unmanaged_ec2_instances : Z
}.

(** [self.regions]. *)
Definition regions : list string := ["us-east-1"; "us-west-2"].

(** The regions loop of one account; the state is
    [(account regions, dashboard summary, total ec2, unmanaged ec2)]. *)
Definition region_step (assume_cross_account_role : string -> string -> option Session)
    (account_id : string) (st : dict RegionData * Summary * Z * Z) (region : string)
    : dict RegionData * Summary * Z * Z :=
  let '(account_regions, org, ctx_total, ctx_unmanaged) := st in
  match assume_cross_account_role account_id region with
  | None => st
  | Some session =>
      let ec2_instances := get_ec2_instances session in
      match ec2_instances with
      | [] => st
      | _ :: _ =>
          let ssm_instances := get_ssm_managed_instances session in
          let managed_ec2_instances :=
            filter (fun inst => existsb (String.eqb inst) ec2_instances) ssm_instances in
          let patch_compliance := get_patch_compliance_data session managed_ec2_instances in
          let total_ec2 := Z.of_nat (List.length ec2_instances) in
          let managed_count := Z.of_nat (List.length managed_ec2_instances) in
          let unmanaged_count := total_ec2 - managed_count in
          let region_data :=
            {| managed_instances := managed_count;
               region_compliant_instances := compliant_instances patch_compliance;
               region_non_compliant_instances := non_compliant_instances patch_compliance;
               patch_details :=
                 {| details_missing_count := missing_count patch_compliance;
                    details_failed_count := failed_count patch_compliance;
                    details_installed_pending_reboot_count :=
                      installed_pending_reboot_count patch_compliance;
                    details_installed_other_count := installed_other_count patch_compliance;
                    details_installed_rejected_count :=
                      installed_rejected_count patch_compliance;
                    details_not_applicable_count := not_applicable_count patch_compliance |};
               total_ec2_instances := total_ec2;
               unmanaged_ec2_instances := unmanaged_count |} in
          (dict_set account_regions region region_data,
           {| total_managed_instances := total_managed_instances org + managed_count;
              compliant_instances :=
                compliant_instances org + compliant_instances patch_compliance;
              non_compliant_instances :=
                non_compliant_instances org + non_compliant_instances patch_compliance;
              missing_count := missing_count org + missing_count patch_compliance;
              failed_count := failed_count org + failed_count patch_compliance;
              installed_pending_reboot_count :=
                installed_pending_reboot_count org
                + installed_pending_reboot_count patch_compliance;
              installed_other_count :=
                installed_other_count org + installed_other_count patch_compliance;
              installed_rejected_count :=
                installed_rejected_count org + installed_rejected_count patch_compliance;
              not_applicable_count :=
                not_applicable_count org + not_applicable_count patch_compliance |},
           ctx_total + total_ec2,
           ctx_unmanaged + unmanaged_count)
      end
  end.

(** Body of [for account in accounts]; an account is kept when one of its
    regions listed an instance, that is when its regions dictionary is not
    empty. *)
Definition account_step (assume_cross_account_role : string -> string -> option Session)
    (all_data : AllData) (account : string * string) : AllData :=
  let '(account_id, account_name) := account in
  let '(account_regions, org, ctx_total, ctx_unmanaged) :=
    fold_left (region_step assume_cross_account_role account_id) regions
      ([], aws_dashboard_summary all_data,
       ctx_total_ec2_instances all_data, ctx_unmanaged_ec2_instances all_data) in
  {| accounts :=
       match account_regions with
       | [] => accounts all_data
       | _ :: _ => dict_set (accounts all_data) account_id (account_name, account_regions)
       end;
     aws_dashboard_summary := org;
     ctx_total_ec2_instances := ctx_total;
     ctx_unmanaged_ec2_instances := ctx_unmanaged |}.

(** [collect_compliance_data]; an account is its [(Id, Name)]. *)
Definition collect_compliance_data
    (assume_cross_account_role : string -> string -> option Session)
    (accts : list (string * string)) : AllData :=
  fold_left (account_step assume_cross_account_role) accts
    {| accounts := [];
       aws_dashboard_summary := empty_summary 0;
       ctx_total_ec2_instances := 0;
       ctx_unmanaged_ec2_instances := 0 |}.

End FinalReporter.

(* ------------------------------------------------------------------ *)
(** ** [src/completely_corrected_patch_compliance_lambda.py] *)

Module ExplorerReporter.

Import Aws.

(** The argument of [int(item.get('Count', 0))]: something [int] accepts,
    or something on which it raises. *)
Inductive count_value : Type :=
| IntLike (z : Z)
| NotInt (text : string).

(** An element of the [Content] list of an entity of [get_ops_summary]. *)
Record OpsItem : Type := {
  ops_PingStatus : option string;
  ops_Count : option count_value
}.

(** An entity of [get_ops_summary], reduced to
    [entity.get('Data', {}).get('AWS:EC2InstanceInformation', {}).get('Content', [])]. *)
Definition Entity : Type := list OpsItem.

(** An item of [list_compliance_summaries]; the counts are the keys reached
    through [CompliantSummary], [NonCompliantSummary] and [SeveritySummary]. *)
Record ComplianceSummaryItem : Type := {
  ComplianceType : option string;
  CompliantCount : option Z;
  NonCompliantCount : option Z;
  CriticalCount : option Z;
  HighCount : option Z;
  MediumCount : option Z;
  LowCount : option Z;
  InformationalCount : option Z;
  UnspecifiedCount : option Z
}.

Record Ec2Client : Type := {
  describe_instances : paged (list Reservation)
}.

Record SsmClient : Type := {
  get_ops_summary : result (list Entity);
  describe_instance_information : paged (list InstanceInformation);
  list_compliance_summaries : result (list ComplianceSummaryItem);
  describe_instance_patch_states : nat -> list string -> result (list InstancePatchState)
}.

Record Session : Type := {
  client_ec2 : result Ec2Client;
  client_ssm : result SsmClient
}.

(** [get_total_ec2_instances_from_ec2_api]. *)
Definition get_total_ec2_instances_from_ec2_api (session : Session) : Z :=
  match client_ec2 session with
  | Ok ec2_client =>
      match failure (describe_instances ec2_client) with
      | None =>
          fold_left (fun instance_count page =>
            fold_left (fun instance_count reservation =>
              instance_count + Z.of_nat (List.length reservation)) page instance_count)
            (pages (describe_instances ec2_client)) 0
      | Some _ => 0
      end
  | Raise _ => 0
  end.

(** The dictionary the management summaries return, without the
    floating-point percentage. *)
Record Management : Type := {
  total_ec2_instances : Z;
  managed_instances : Z;
  not_managed_instances : Z
}.

Definition is_online (instance : InstanceInformation) : bool :=
  match PingStatus instance with
  | Some s => String.eqb s "Online"
  | None => false
  end.

(** The inner [try] of the fallback: the count reached when the listing
    stops, whether it stops by exhaustion or by an exception. *)
Definition count_online (pgs : list (list InstanceInformation)) : Z :=
  fold_left (fun managed_count page =>
    fold_left (fun managed_count instance =>
      if is_online instance then managed_count + 1 else managed_count) page managed_count)
    pgs 0.

(** [get_instance_management_summary_fallback]; its percentage divides a
    number of listed items, which is far below the range of a double, so the
    division does not raise. *)
Definition get_instance_management_summary_fallback (session : Session) : Management :=
  let total := get_total_ec2_instances_from_ec2_api session in
  match client_ssm session with
  | Ok ssm_client =>
      let managed_count := count_online (pages (describe_instance_information ssm_client)) in
      {| total_ec2_instances := total;
         managed_instances := managed_count;
         not_managed_instances := max0 (total - managed_count) |}
  | Raise _ =>
      {| total_ec2_instances := 0; managed_instances := 0; not_managed_instances := 0 |}
  end.

(** [int(item.get('Count', 0))]. *)
Definition int_of_count (c : option count_value) : result Z :=
  match c with
  | None => Ok 0
  | Some (IntLike z) => Ok z
  | Some (NotInt text) => Raise text
  end.

(** Body of [for item in content]; [int] is applied to every item, whatever
    its ping status. *)
Definition add_item (acc : result Z) (item : OpsItem) : result Z :=
  match acc with
  | Raise e => Raise e
  | Ok managed_count =>
      let ping_status := get_or "" (ops_PingStatus item) in
      match int_of_count (ops_Count item) with
      | Raise e => Raise e
      | Ok count =>
          if String.eqb ping_status "Online" then Ok (managed_count + count)
          else Ok managed_count
      end
  end.

Definition count_managed (entities : list Entity) : result Z :=
  fold_left (fun acc content => fold_left add_item content acc) entities (Ok 0).

(** [get_instance_management_summary_from_explorer]. *)
Definition get_instance_management_summary_from_explorer (session : Session) : Management :=
  match client_ssm session with
  | Ok ssm_client =>
      match get_ops_summary ssm_client with
      | Ok entities =>
          match count_managed entities with
          | Ok managed_count =>
              let total := get_total_ec2_instances_from_ec2_api session in
              (* 'managed_percentage': managed_count / max(1, total) is
                 computed inside the [try], for a positive total *)
              if (0 <? total) && true_division_overflows managed_count (Z.max 1 total)
              then get_instance_management_summary_fallback session
              else
                {| total_ec2_instances := total;
                   managed_instances := managed_count;
                   not_managed_instances := max0 (total - managed_count) |}
          | Raise _ => get_instance_management_summary_fallback session
          end
      | Raise _ => get_instance_management_summary_fallback session
      end
  | Raise _ => get_instance_management_summary_fallback session
  end.

(** The dictionary [get_patch_compliance_summary_from_compliance_api] returns. *)
Record Compliance : Type := {
  compliant_instances : Z;
  non_compliant_instances : Z;
  critical_count : Z;
  high_count : Z;
  medium_count : Z;
  low_count : Z;
  informational_count : Z;
  unspecified_count : Z
}.

Definition empty_compliance : Compliance :=
  {| compliant_instances := 0; non_compliant_instances := 0; critical_count := 0;
     high_count := 0; medium_count := 0; low_count := 0; informational_count := 0;
     unspecified_count := 0 |}.

(** Body of [for item in response.get('ComplianceSummaryItems', [])]: a
    ['Patch'] item overwrites every field. *)
Definition read_item (compliance_summary : Compliance) (item : ComplianceSummaryItem)
    : Compliance :=
  match ComplianceType item with
  | Some t =>
      if String.eqb t "Patch" then
        {| compliant_instances := get_or 0 (CompliantCount item);
           non_compliant_instances := get_or 0 (NonCompliantCount item);
           critical_count := get_or 0 (CriticalCount item);
           high_count := get_or 0 (HighCount item);
           medium_count := get_or 0 (MediumCount item);
           low_count := get_or 0 (LowCount item);
           informational_count := get_or 0 (InformationalCount item);
           unspecified_count := get_or 0 (UnspecifiedCount item) |}
      else compliance_summary
  | None => compliance_summary
  end.

Definition get_patch_compliance_summary_from_compliance_api (session : Session)
    : Compliance :=
  match client_ssm session with
  | Ok ssm_client =>
      match list_compliance_summaries ssm_client with
      | Ok items => fold_left read_item items empty_compliance
      | Raise _ => empty_compliance
      end
  | Raise _ => empty_compliance
  end.

(** The dictionary of [get_empty_noncompliance_counts]. *)
Record Details : Type := {
  missing_count : Z;
  failed_count : Z;
  installed_pending_reboot_count : Z;
  installed_other_count : Z;
  installed_rejected_count : Z;
  not_applicable_count : Z
}.

Definition get_empty_noncompliance_counts : Details :=
  {| missing_count := 0; failed_count := 0; installed_pending_reboot_count := 0;
     installed_other_count := 0; installed_rejected_count := 0;
     not_applicable_count := 0 |}.

Definition online_ids (pgs : list (list InstanceInformation)) : list string :=
  fold_left (fun acc page =>
    fold_left (fun acc instance =>
      if is_online instance then acc ++ [info_InstanceId instance] else acc) page acc)
    pgs [].

(** Body of [for state in response.get('InstancePatchStates', [])]. *)
Definition add_state (compliance_details : Details) (state : InstancePatchState) : Details :=
  {| missing_count :=
       missing_count compliance_details + max0 (get_or 0 (MissingCount state));
     failed_count :=
       failed_count compliance_details + max0 (get_or 0 (FailedCount state));
     installed_pending_reboot_count :=
       installed_pending_reboot_count compliance_details
       + max0 (get_or 0 (InstalledPendingRebootCount state));
     installed_other_count :=
       installed_other_count compliance_details
       + max0 (get_or 0 (InstalledOtherCount state));
     installed_rejected_count :=
       installed_rejected_count compliance_details
       + max0 (get_or 0 (InstalledRejectedCount state));
     not_applicable_count :=
       not_applicable_count compliance_details
       + max0 (get_or 0 (NotApplicableCount state)) |}.

Definition batch_size : nat := 50.

Definition batches (managed_instances : list string) : list (list string) :=
  map (fun i => slice managed_instances i (i + batch_size))
    (range_step (List.length managed_instances) batch_size).

Definition batch_step (ssm_client : SsmClient) (st : list (list string) * Details)
    (batch : list string) : list (list string) * Details :=
  let '(calls, compliance_details) := st in
  match describe_instance_patch_states ssm_client (List.length calls) batch with
  | Ok states => (calls ++ [batch], fold_left add_state states compliance_details)
  | Raise _ => (calls ++ [batch], compliance_details)
  end.

(** [get_detailed_noncompliance_counts_from_patch_states], with the calls it
    issued. *)
Definition run_detailed_noncompliance_counts (session : Session)
    : list (list string) * Details :=
  match client_ssm session with
  | Ok ssm_client =>
      match failure (describe_instance_information ssm_client) with
      | Some _ => ([], get_empty_noncompliance_counts)
      | None =>
          match online_ids (pages (describe_instance_information ssm_client)) with
          | [] => ([], get_empty_noncompliance_counts)
          | (_ :: _) as managed =>
              fold_left (batch_step ssm_client) (batches managed)
                ([], get_empty_noncompliance_counts)
          end
      end
  | Raise _ => ([], get_empty_noncompliance_counts)
  end.

Definition get_detailed_noncompliance_counts_from_patch_states (session : Session)
    : Details :=
  snd (run_detailed_noncompliance_counts session).

(** [region_data] and [organization_summary] have the same counts. *)
Record Report : Type := {
  management : Management;
  compliance : Compliance;
  details : Details
}.

Definition empty_report : Report :=
  {| management :=
       {| total_ec2_instances := 0; managed_instances := 0; not_managed_instances := 0 |};
     compliance := empty_compliance;
     details := get_empty_noncompliance_counts |}.

(** The [+=] block that updates the organisation totals. *)
Definition add_region (org_summary region_data : Report) : Report :=
  let om := management org_summary in
  let rm := management region_data in
  let oc := compliance org_summary in
  let rc := compliance region_data in
  let od := details org_summary in
  let rd := details region_data in
  {| management :=
       {| total_ec2_instances := total_ec2_instances om + total_ec2_instances rm;
          managed_instances := managed_instances om + managed_instances rm;
          not_managed_instances := not_managed_instances om + not_managed_instances rm |};
     compliance :=
       {| compliant_instances := compliant_instances oc + compliant_instances rc;
          non_compliant_instances :=
            non_compliant_instances oc + non_compliant_instances rc;
          critical_count := critical_count oc + critical_count rc;
          high_count := high_count oc + high_count rc;
          medium_count := medium_count oc + medium_count rc;
          low_count := low_count oc + low_count rc;
          informational_count := informational_count oc + informational_count rc;
          unspecified_count := unspecified_count oc + unspecified_count rc |};
     details :=
       {| missing_count := missing_count od + missing_count rd;
          failed_count := failed_count od + failed_count rd;
          installed_pending_reboot_count :=
            installed_pending_reboot_count od + installed_pending_reboot_count rd;
          installed_other_count := installed_other_count od + installed_other_count rd;
          installed_rejected_count :=
            installed_rejected_count od + installed_rejected_count rd;
          not_applicable_count := not_applicable_count od + not_applicable_count rd |} |}.

Record AllData : Type := {
  accounts : dict (string * dict Report);
  organization_summary : Report
}.

Definition regions : list string := ["us-east-1"; "us-west-2"].

(** The regions loop of one account. *)
Definition region_step (assume_cross_account_role : string -> string -> option Session)
    (account_id : string) (st : dict Report * Report) (region : string)
    : dict Report * Report :=
  let '(account_regions, org_summary) := st in
  match assume_cross_account_role account_id region with
  | None => st
  | Some session =>
      let instance_mgmt_summary := get_instance_management_summary_from_explorer session in
      if total_ec2_instances instance_mgmt_summary =? 0 then st
      else
        let region_data :=
          {| management := instance_mgmt_summary;
             compliance := get_patch_compliance_summary_from_compliance_api session;
             details := get_detailed_noncompliance_counts_from_patch_states session |} in
        (dict_set account_regions region region_data, add_region org_summary region_data)
  end.

Definition account_step (assume_cross_account_role : string -> string -> option Session)
    (all_data : AllData) (account : string * string) : AllData :=
  let '(account_id, account_name) := account in
  let '(account_regions, org_summary) :=
    fold_left (region_step assume_cross_account_role account_id) regions
      ([], organization_summary all_data) in
  {| accounts :=
       match account_regions with
       | [] => accounts all_data
       | _ :: _ => dict_set (accounts all_data) account_id (account_name, account_regions)
       end;
     organization_summary := org_summary |}.

(** [collect_compliance_data].  The organisation-level percentage it ends
    with divides the sum of the managed counts by the sum of the totals of
    the stored regions; each region either passed the check of
    [get_instance_management_summary_from_explorer] or counts listed items,
    so that division does not raise. *)
Definition collect_compliance_data
    (assume_cross_account_role : string -> string -> option Session)
    (accts : list (string * string)) : AllData :=
  fold_left (account_step assume_cross_account_role) accts
    {| accounts := []; organization_summary := empty_report |}.

End ExplorerReporter.

(* ------------------------------------------------------------------ *)
(** ** "Patch_Compliance (3).py" in [src/IAM_Users_with_Navigation.py]

    The instance part of [get_patch_compliance]: the inventory, the managed
    identifiers, the patch states and the unmanaged rows, that is the value
    of [instance_data] the function returns.  The patch-group and
    available-patch passes that follow do not touch [instance_data]. *)

Module PatchCompliance3.

Import Aws.

(** [describe_instances] is the listing requested with the filter
    [instance-state-name] in [['running', 'stopped']];
    [describe_instance_patch_states] is paginated without arguments.  The
    request as written carries no [InstanceIds], which the service requires:
    a client that validates its parameters answers it with a failure before
    any page, [Paged [] (Some e)].  The listing is left arbitrary here, so
    that the loop is described for whatever the client yields. *)
Record Ec2Client : Type := {
  describe_instances : paged (list Reservation)
}.

Record SsmClient : Type := {
  describe_instance_information : paged (list InstanceInformation);
  describe_instance_patch_states : paged (list InstancePatchState)
}.

Record InstanceInfo : Type := {
  Name : string;
  info_Platform : string;
  State : string;
  info_LaunchTime : string;
  info_Managed : bool
}.

Record InstanceRow : Type := {
  Account_Name : string;
  Account_ID : string;
  Region : string;
  Instance_ID : string;
  Instance_Name : string;
  row_Platform : string;
  Compliance_Status : string;
  Installed_Patches : Z;
  Missing_Patches : Z;
  Failed_Patches : Z;
  Not_Applicable : Z;
  Launch_Time : string;
  Instance_State : string;
  Managed : bool
}.

Fixpoint name_tag (tags : list Tag) (instance_id : string) : string :=
  match tags with
  | [] => instance_id
  | t :: tags' => if String.eqb (Key t) "Name" then Value t else name_tag tags' instance_id
  end.

(** [instance.get('Platform', 'windows') or 'linux']. *)
Definition platform_of (p : option string) : string :=
  match p with
  | None => "windows"
  | Some "" => "linux"
  | Some s => s
  end.

Definition record_instance (instance_map : dict InstanceInfo) (instance : Instance)
    : dict InstanceInfo :=
  let instance_id := InstanceId instance in
  dict_set instance_map instance_id
    {| Name := name_tag (Tags instance) instance_id;
       info_Platform := platform_of (Platform instance);
       State := State_Name instance;
       info_LaunchTime :=
         match LaunchTime instance with
         | Some t => strftime t
         | None => "N/A"
         end;
       info_Managed := false |}.

Definition collect_instances (pgs : list (list Reservation)) : dict InstanceInfo :=
  fold_left (fun m page =>
    fold_left (fun m res => fold_left record_instance res m) page m) pgs [].

Definition set_managed (i : InstanceInfo) : InstanceInfo :=
  {| Name := Name i; info_Platform := info_Platform i; State := State i;
     info_LaunchTime := info_LaunchTime i; info_Managed := true |}.

(** The state is [(managed_instance_ids, instance_map)]. *)
Definition record_managed (st : list string * dict InstanceInfo)
    (instance_info : InstanceInformation) : list string * dict InstanceInfo :=
  let '(managed_instance_ids, instance_map) := st in
  let iid := info_InstanceId instance_info in
  (managed_instance_ids ++ [iid],
   if dict_mem instance_map iid then dict_update instance_map iid set_managed
   else instance_map).

(** The [if failed > 0 ... elif missing > 0 ... else ...] of the patch-state
    loop. *)
Definition compliance_status (failed missing : Z) : string :=
  if 0 <? failed then "NON_COMPLIANT_FAILED"
  else if 0 <? missing then "NON_COMPLIANT_MISSING"
  else "COMPLIANT".

(** Body of the loop over the patch states; the state is
    [(instance_map, instance_data)]. *)
Definition record_patch_state (account_name account_id region : string)
    (st : dict InstanceInfo * list InstanceRow) (patch_state : InstancePatchState)
    : dict InstanceInfo * list InstanceRow :=
  let '(instance_map, instance_data) := st in
  let instance_id := get_or "" (ps_InstanceId patch_state) in
  match dict_get instance_map instance_id with
  | None => st
  | Some info =>
      let installed := get_or 0 (InstalledCount patch_state) in
      let missing := get_or 0 (MissingCount patch_state) in
      let failed := get_or 0 (FailedCount patch_state) in
      let not_applicable := get_or 0 (NotApplicableCount patch_state) in
      (dict_update instance_map instance_id set_managed,
       instance_data ++ [ {| Account_Name := account_name;
                             Account_ID := account_id;
                             Region := region;
                             Instance_ID := instance_id;
                             Instance_Name := Name info;
                             row_Platform := info_Platform info;
                             Compliance_Status := compliance_status failed missing;
                             Installed_Patches := installed;
                             Missing_Patches := missing;
                             Failed_Patches := failed;
                             Not_Applicable := not_applicable;
                             Launch_Time := info_LaunchTime info;
                             Instance_State := State info;
                             Managed := true |} ])
  end.

Definition unmanaged_row (account_name account_id region : string)
    (kv : string * InstanceInfo) : list InstanceRow :=
  let '(instance_id, instance_info) := kv in
  if negb (info_Managed instance_info) then
    [ {| Account_Name := account_name;
         Account_ID := account_id;
         Region := region;
         Instance_ID := instance_id;
         Instance_Name := Name instance_info;
         row_Platform := info_Platform instance_info;
         Compliance_Status := "UNMANAGED";
         Installed_Patches := 0;
         Missing_Patches := 0;
         Failed_Patches := 0;
         Not_Applicable := 0;
         Launch_Time := info_LaunchTime instance_info;
         Instance_State := State instance_info;
         Managed := false |} ]
  else [].

(** [instance_data] as [get_patch_compliance] returns it when both clients
    were obtained. *)
Definition instance_data (account_id account_name region : string)
    (ssm : SsmClient) (ec2 : Ec2Client) : list InstanceRow :=
  let instance_map := collect_instances (pages (describe_instances ec2)) in
  let '(managed_instance_ids, instance_map) :=
    fold_left (fun st page => fold_left record_managed page st)
      (pages (describe_instance_information ssm)) ([], instance_map) in
  let '(instance_map, rows) :=
    match managed_instance_ids with
    | [] => (instance_map, [])
    | _ :: _ =>
        fold_left (fun st page =>
          fold_left (record_patch_state account_name account_id region) page st)
          (pages (describe_instance_patch_states ssm)) (instance_map, [])
    end in
  fold_left (fun acc kv => acc ++ unmanaged_row account_name account_id region kv)
    instance_map rows.

End PatchCompliance3.

(* ------------------------------------------------------------------ *)
(** ** Concrete provider behaviours *)

(** What a future contributes on completion, read off its outcome. *)
Module Outcome.

Import PatchComplianceFinal.

(** The instance rows of a unit that returned; none for a unit that raised. *)
Definition instances_of (f : Future) : list InstanceRow :=
  match fut_result f with
  | Returned (i, _, _, _) => i
  | Raised _ => []
  | Exited _ => []
  end.

(** Its patch-group rows and its catalog rows. *)
Definition groups_of (f : Future) : list GroupRow :=
  match fut_result f with
  | Returned (_, g, _, _) => g
  | Raised _ => []
  | Exited _ => []
  end.

Definition patches_of (f : Future) : list PatchRow :=
  match fut_result f with
  | Returned (_, _, p, _) => p
  | Raised _ => []
  | Exited _ => []
  end.

(** The messages a unit leaves in the error log: its own warnings when it
    returned, one message with the text of the exception when its task
    raised an [Exception]. *)
Definition errors_of (f : Future) : list string :=
  match fut_result f with
  | Returned (_, _, _, e) => e
  | Raised ex =>
      [(cross_mark ++ " " ++ fut_aname f ++ "/" ++ fut_rgn f ++ ": " ++ prefix 50 ex)%string]
  | Exited _ => []
  end.

(** The number of messages a unit leaves in the error log: its own warnings
    when it returned, one when it raised. *)
Definition messages_of (f : Future) : nat :=
  match fut_result f with
  | Returned (_, _, _, e) => List.length e
  | Raised _ => 1%nat
  | Exited _ => 0%nat
  end.

(** The task of the unit did not end with an exception that [except Exception]
    lets through. *)
Definition handled (f : Future) : Prop :=
  forall ex, fut_result f <> Exited ex.

End Outcome.

(** The counts of a report that the reporters clamp. *)
Module Clamped.

Definition details_nonneg (d : ExplorerReporter.Details) : Prop :=
  0 <= ExplorerReporter.missing_count d
  /\ 0 <= ExplorerReporter.failed_count d
  /\ 0 <= ExplorerReporter.installed_pending_reboot_count d
  /\ 0 <= ExplorerReporter.installed_other_count d
  /\ 0 <= ExplorerReporter.installed_rejected_count d
  /\ 0 <= ExplorerReporter.not_applicable_count d.

Definition summary_nonneg (s : FinalReporter.Summary) : Prop :=
  0 <= FinalReporter.compliant_instances s
  /\ 0 <= FinalReporter.non_compliant_instances s
  /\ 0 <= FinalReporter.missing_count s
  /\ 0 <= FinalReporter.failed_count s
  /\ 0 <= FinalReporter.installed_pending_reboot_count s
  /\ 0 <= FinalReporter.installed_other_count s
  /\ 0 <= FinalReporter.installed_rejected_count s
  /\ 0 <= FinalReporter.not_applicable_count s.

(** The clamped counts of a report of the Explorer-based reporter. *)
Definition explorer_ok (r : ExplorerReporter.Report) : Prop :=
  details_nonneg (ExplorerReporter.details r)
  /\ 0 <= ExplorerReporter.not_managed_instances (ExplorerReporter.management r).

End Clamped.

(** Observations on the rows and on the entries of [instance_map] of
    [patch_compliance_final.py]. *)
Module Views.

Import Aws PatchComplianceFinal.

(** [k in l] for a list of identifiers. *)
Definition mem_str (k : string) (l : list string) : bool := existsb (String.eqb k) l.

(** The compliance-summary items the unit receives before the listing
    fails, if it does. *)
Definition summaries (c : Clients) : list ResourceComplianceSummaryItem :=
  match get_ssm c with
  | Some ssm => List.concat (pages (list_resource_compliance_summaries ssm))
  | None => []
  end.

(** The catalog rows of a unit: one per patch its
    [describe_available_patches] listing yields before it fails, if it
    does; none when a client is missing. *)
Definition catalog_rows (account_name region : string) (c : Clients) : list PatchRow :=
  match get_ssm c, get_ec2 c with
  | Some ssm, Some _ =>
      map (patch_row account_name region)
        (List.concat (pages (describe_available_patches ssm)))
  | _, _ => []
  end.

(** The rows of one instance. *)
Definition rows_of (iid : string) (rows : list InstanceRow) : list InstanceRow :=
  filter (fun r => String.eqb (Instance_ID r) iid) rows.

(** A row without its four patch-count keys. *)
Definition strip_counts (r : InstanceRow) : InstanceRow :=
  {| Account_Name := Account_Name r;
     Region := Region r;
     Instance_ID := Instance_ID r;
     Instance_Name := Instance_Name r;
     row_Platform := row_Platform r;
     Compliance_Status := Compliance_Status r;
     SSM_Agent_Status := SSM_Agent_Status r;
     Installed_Patches := None;
     Missing_Patches := None;
     Failed_Patches := None;
     Unspecified_Patches := None;
     Instance_State := Instance_State r;
     Launch_Time := Launch_Time r;
     Managed := Managed r |}.

(** What one registry item does to the entry of key [k]. *)
Definition touch_managed (k : string) (i : InstanceInfo) (inst : InstanceInformation)
    : InstanceInfo :=
  if String.eqb (info_InstanceId inst) k then
    {| name := name i; platform := platform i; state := state i; launch := launch i;
       ssm_managed := true;
       ssm_agent_status := get_or "Unknown" (PingStatus inst);
       processed := processed i |}
  else i.

(** What one compliance summary does to the entry of key [k]. *)
Definition touch_summary (k : string) (i : InstanceInfo) (s : ResourceComplianceSummaryItem)
    : InstanceInfo :=
  if String.eqb (get_or "" (ResourceId s)) k then mark_processed i else i.

(** The rows the summaries loop appends, entries being read in [m]. *)
Definition summary_rows (account_name region : string) (m : dict InstanceInfo)
    (l : list ResourceComplianceSummaryItem) : list InstanceRow :=
  flat_map (fun s =>
    match dict_get m (get_or "" (ResourceId s)) with
    | Some info => [summary_row account_name region s info]
    | None => []
    end) l.

(** The row has none of the four patch counts. *)
Definition no_counts (r : InstanceRow) : Prop :=
  Installed_Patches r = None /\ Missing_Patches r = None
  /\ Failed_Patches r = None /\ Unspecified_Patches r = None.

(** The row reports zero for the four patch counts. *)
Definition zero_counts (r : InstanceRow) : Prop :=
  Installed_Patches r = Some 0 /\ Missing_Patches r = Some 0
  /\ Failed_Patches r = Some 0 /\ Unspecified_Patches r = Some 0.

(** The provider returns no patch-state record for [iid], whenever asked. *)
Definition no_patch_state (ssm : SsmClient) (iid : string) : Prop :=
  forall n, describe_instance_patch_states ssm n [iid] = Ok []
            \/ exists e, describe_instance_patch_states ssm n [iid] = Raise e.

End Views.

Module Scenarios.

Import Aws PatchComplianceFinal.

Definition instance (iid st : string) : Instance :=
  {| InstanceId := iid; Platform := None; Tags := []; State_Name := st;
     LaunchTime := None |}.

Definition patch_state (iid : option string) (missing failed : option Z)
    : InstancePatchState :=
  {| ps_InstanceId := iid; InstalledCount := None; InstalledOtherCount := None;
     InstalledPendingRebootCount := None; InstalledRejectedCount := None;
     MissingCount := missing; FailedCount := failed;
     UnreportedNotApplicableCount := None; NotApplicableCount := None |}.

Definition online (iid : string) : InstanceInformation :=
  {| info_InstanceId := iid; PingStatus := Some "Online" |}.

(** An SSM client that lists nothing and whose per-item calls raise. *)
Definition silent_ssm : SsmClient :=
  {| describe_instance_information := Paged [] None;
     list_resource_compliance_summaries := Paged [] None;
     describe_instance_patch_states := fun _ _ => Raise "unavailable";
     describe_patch_groups := Paged [] None;
     describe_patch_group_state := fun _ _ => Raise "unavailable";
     describe_available_patches := Paged [] None |}.


(** A unit with two unregistered instances, one patch group of four
    instances and a catalog of one patch, whose registry listing fails. *)
Definition busy_unit : Clients :=
  {| get_ssm :=
       Some {| describe_instance_information := Paged [] (Some "AccessDeniedException");
               list_resource_compliance_summaries := Paged [] None;
               describe_instance_patch_states := fun _ _ => Ok [];
               describe_patch_groups :=
                 Paged [[ {| PatchGroup := Some "web"; BaselineId := Some "pb-1" |} ]] None;
               describe_patch_group_state := fun _ _ =>
                 Ok {| Instances := Some 4; InstancesWithInstalledPatches := Some 4;
                       InstancesWithMissingPatches := None;
                       InstancesWithFailedPatches := None;
                       InstancesWithNotApplicablePatches := None;
                       InstancesWithUnreportedNotApplicablePatches := None |};
               describe_available_patches :=
                 Paged [[ {| Id := Some "KB5005565"; Title := None; Classification := None;
                             Severity := Some "Critical"; ReleaseDate := None;
                             ContentUrl := None |} ]] None |};
     get_ec2 :=
       Some {| describe_instances :=
                 Paged [[ [instance "i-1" "running"; instance "i-2" "stopped"] ]] None |} |}.

(** Accounts A and B in two regions; the task of (A, region1) raises. *)
Definition isolation_task (aid aname rgn : string) : outcome :=
  if String.eqb aid "A" && String.eqb rgn "region1" then Raised "ExpiredToken"
  else Returned (fetch_account_region_data aname rgn busy_unit).

Definition isolation_accounts : list Account :=
  [ {| acc_Id := "A"; acc_Name := "alpha" |}; {| acc_Id := "B"; acc_Name := "beta" |} ].

Definition isolation_units : list Future :=
  submit ["A"; "B"] isolation_accounts ["region1"; "region2"] isolation_task.

(** A unit without instances whose catalog lists one patch. *)
Definition catalog_only : Clients :=
  {| get_ssm :=
       Some {| describe_instance_information := Paged [] None;
               list_resource_compliance_summaries := Paged [] None;
               describe_instance_patch_states := fun _ _ => Ok [];
               describe_patch_groups := Paged [] None;
               describe_patch_group_state := fun _ _ => Raise "unavailable";
               describe_available_patches :=
                 Paged [[ {| Id := Some "KB5005565"; Title := None; Classification := None;
                             Severity := Some "Critical"; ReleaseDate := None;
                             ContentUrl := None |} ]] None |};
     get_ec2 := Some {| describe_instances := Paged [] None |} |}.

(** Two regions of one account list the same catalog. *)
Definition same_catalog_twice : list Future :=
  submit ["111111111111"] [] ["us-east-1"; "us-west-2"]
    (fun _ aname rgn => Returned (fetch_account_region_data aname rgn catalog_only)).

(** The identifiers [i-0], [i-1], ..., [i-(n-1)]. *)
Definition identifiers (n : nat) : list string :=
  map (fun k => ("i-" ++ NilEmpty.string_of_uint (Nat.to_uint k))%string) (seq 0 n).

(** A reporter session whose patch-state calls all succeed with no record. *)
Definition quiet_session : FinalReporter.Session :=
  {| FinalReporter.client_ec2 :=
       Ok {| FinalReporter.describe_instances := Paged [] None |};
     FinalReporter.client_ssm :=
       Ok {| FinalReporter.describe_instance_information := Paged [] None;
             FinalReporter.describe_instance_patch_states := fun _ _ => Ok [] |} |}.

(** The spec's example unit: three instances, [i-bbb] unregistered; the
    provider has a compliance summary for [i-aaa] and [i-ccc]. *)
Definition example_ssm : SsmClient :=
  {| describe_instance_information := Paged [[online "i-aaa"; online "i-ccc"]] None;
     list_resource_compliance_summaries :=
       Paged [[ {| ResourceId := Some "i-aaa"; Status := Some "COMPLIANT" |};
                {| ResourceId := Some "i-ccc"; Status := Some "NON_COMPLIANT" |} ]] None;
     describe_instance_patch_states := fun _ ids =>
       match ids with
       | [iid] =>
           if String.eqb iid "i-ccc" then Ok [patch_state (Some iid) (Some 3) (Some 0)]
           else Ok [patch_state (Some iid) (Some 0) (Some 0)]
       | _ => Ok []
       end;
     describe_patch_groups := Paged [] None;
     describe_patch_group_state := fun _ _ => Raise "unavailable";
     describe_available_patches := Paged [] None |}.

Definition example_unit : Clients :=
  {| get_ssm := Some example_ssm;
     get_ec2 :=
       Some {| describe_instances :=
                 Paged [[ [instance "i-aaa" "running"; instance "i-bbb" "stopped";
                           instance "i-ccc" "running"] ]] None |} |}.

(** An Explorer session: one instance listed by EC2, and an ops summary
    whose Online count is negative. *)
Definition negative_online_count : ExplorerReporter.Session :=
  {| ExplorerReporter.client_ec2 :=
       Ok {| ExplorerReporter.describe_instances :=
               Paged [[ [instance "i-1" "running"] ]] None |};
     ExplorerReporter.client_ssm :=
       Ok {| ExplorerReporter.get_ops_summary :=
               Ok [[ {| ExplorerReporter.ops_PingStatus := Some "Online";
                        ExplorerReporter.ops_Count := Some (ExplorerReporter.IntLike (-3)) |} ]];
             ExplorerReporter.describe_instance_information := Paged [] None;
             ExplorerReporter.list_compliance_summaries := Ok [];
             ExplorerReporter.describe_instance_patch_states := fun _ _ => Ok [] |} |}.

(** A reporter session: one instance listed by EC2, listed twice as Online
    by the registry (two overlapping pages). *)
Definition registry_lists_twice : FinalReporter.Session :=
  {| FinalReporter.client_ec2 :=
       Ok {| FinalReporter.describe_instances := Paged [[ [instance "i-1" "running"] ]] None |};
     FinalReporter.client_ssm :=
       Ok {| FinalReporter.describe_instance_information :=
               Paged [[online "i-1"]; [online "i-1"]] None;
             FinalReporter.describe_instance_patch_states := fun _ _ => Ok [] |} |}.

(** One instance, registered, for which the provider has no compliance
    summary. *)
Definition registered_without_summary : Clients :=
  {| get_ssm :=
       Some {| describe_instance_information := Paged [[online "i-a"]] None;
               list_resource_compliance_summaries := Paged [] None;
               describe_instance_patch_states := fun _ _ => Ok [];
               describe_patch_groups := Paged [] None;
               describe_patch_group_state := fun _ _ => Raise "unavailable";
               describe_available_patches := Paged [] None |};
     get_ec2 :=
       Some {| describe_instances := Paged [[ [instance "i-a" "running"] ]] None |} |}.

(** One instance, registered, with a compliance summary, for which the
    patch-state call returns no record. *)
Definition registered_without_patch_state : Clients :=
  {| get_ssm :=
       Some {| describe_instance_information := Paged [[online "i-a"]] None;
               list_resource_compliance_summaries :=
                 Paged [[ {| ResourceId := Some "i-a"; Status := Some "COMPLIANT" |} ]] None;
               describe_instance_patch_states := fun _ _ => Ok [];
               describe_patch_groups := Paged [] None;
               describe_patch_group_state := fun _ _ => Raise "unavailable";
               describe_available_patches := Paged [] None |};
     get_ec2 :=
       Some {| describe_instances := Paged [[ [instance "i-a" "running"] ]] None |} |}.

(** One instance, absent from the registry, for which the provider still has
    a compliance summary and a patch state. *)
Definition stale_records : Clients :=
  {| get_ssm :=
       Some {| describe_instance_information := Paged [] None;
               list_resource_compliance_summaries :=
                 Paged [[ {| ResourceId := Some "i-b"; Status := Some "COMPLIANT" |} ]] None;
               describe_instance_patch_states := fun _ ids =>
                 Ok [patch_state (Some "i-b") (Some 3) (Some 1)];
               describe_patch_groups := Paged [] None;
               describe_patch_group_state := fun _ _ => Raise "unavailable";
               describe_available_patches := Paged [] None |};
     get_ec2 :=
       Some {| describe_instances := Paged [[ [instance "i-b" "stopped"] ]] None |} |}.

(** One registered instance whose summary says NON_COMPLIANT and whose patch
    state has failed and missing patches. *)
Definition failed_and_missing : Clients :=
  {| get_ssm :=
       Some {| describe_instance_information := Paged [[online "i-a"]] None;
               list_resource_compliance_summaries :=
                 Paged [[ {| ResourceId := Some "i-a"; Status := Some "NON_COMPLIANT" |} ]] None;
               describe_instance_patch_states := fun _ ids =>
                 Ok [patch_state (Some "i-a") (Some 1) (Some 2)];
               describe_patch_groups := Paged [] None;
               describe_patch_group_state := fun _ _ => Raise "unavailable";
               describe_available_patches := Paged [] None |};
     get_ec2 :=
       Some {| describe_instances := Paged [[ [instance "i-a" "running"] ]] None |} |}.

(** A listing that still shows a terminated instance. *)
Definition terminated_listed : Clients :=
  {| get_ssm := Some silent_ssm;
     get_ec2 :=
       Some {| describe_instances :=
                 Paged [[ [instance "i-run" "running"]; [instance "i-term" "terminated"] ]]
                   None |} |}.


(** A reporter session that answers the patch-state request with three
    records: one with failed and missing patches, one with missing patches
    only, one with neither. *)
Definition three_records : FinalReporter.Session :=
  {| FinalReporter.client_ec2 :=
       Ok {| FinalReporter.describe_instances := Paged [] None |};
     FinalReporter.client_ssm :=
       Ok {| FinalReporter.describe_instance_information := Paged [] None;
             FinalReporter.describe_instance_patch_states := fun _ _ =>
               Ok [ patch_state (Some "i-a") (Some 1) (Some 2);
                    patch_state (Some "i-b") (Some 3) (Some 0);
                    patch_state (Some "i-c") (Some 0) None ] |} |}.

(** Accounts A and B in two regions; the task of (A, region1) ends with
    [SystemExit]. *)
Definition exiting_task (aid aname rgn : string) : outcome :=
  if String.eqb aid "A" && String.eqb rgn "region1" then Exited "SystemExit"
  else Returned (fetch_account_region_data aname rgn busy_unit).

Definition exiting_units : list Future :=
  submit ["A"; "B"] isolation_accounts ["region1"; "region2"] exiting_task.

End Scenarios.

(* ------------------------------------------------------------------ *)
(** ** Entry point of the reporter

    [get_organization_accounts] and [lambda_handler] of
    [src/final_corrected_patch_compliance_lambda.py]. *)

Module ReporterHandler.

(** An item of [list_accounts]. *)
Record OrgAccount : Type := {
  Id : string;
  Name : string;
  Email : string;
  Status : string
}.

(** The dictionary [get_organization_accounts] keeps for an account. *)
Record Account : Type := {
  acc_Id : string;
  acc_Name : string;
  acc_Email : string
}.

(** Body of the loop over the accounts of a page. *)
Definition keep_active (accounts : list Account) (account : OrgAccount) : list Account :=
  if String.eqb (Status account) "ACTIVE" then
    accounts ++ [ {| acc_Id := Id account; acc_Name := Name account;
                     acc_Email := Email account |} ]
  else accounts.

(** [get_organization_accounts]: the loop has no handler, so a listing that
    fails raises out of the function. *)
Definition get_organization_accounts (list_accounts : paged (list OrgAccount))
    : result (list Account) :=
  match failure list_accounts with
  | Some e => Raise e
  | None =>
      Ok (fold_left (fun accounts page => fold_left keep_active page accounts)
            (pages list_accounts) [])
  end.

(** The dictionary the handler returns; [body] is the JSON text of the
    message. *)
Record Response : Type := {
  statusCode : Z;
  body : string
}.

Definition json_dumps (s : string) : string :=
  (String (ascii_of_nat 34) s ++ String (ascii_of_nat 34) EmptyString)%string.

(** [lambda_handler], with the data it hands to [generate_and_send_report];
    that function formats and logs the report and raises again what its
    formatting raises.  An exception of the handler is logged and raised
    again. *)
Definition lambda_handler (list_accounts : paged (list OrgAccount))
    (assume_cross_account_role : string -> string -> option FinalReporter.Session)
    (generate_and_send_report : FinalReporter.AllData -> result unit)
    : result (FinalReporter.AllData * Response) :=
  match get_organization_accounts list_accounts with
  | Raise e => Raise e
  | Ok accounts =>
      let compliance_data :=
        FinalReporter.collect_compliance_data assume_cross_account_role
          (map (fun account => (acc_Id account, acc_Name account)) accounts) in
      match generate_and_send_report compliance_data with
      | Raise e => Raise e
      | Ok _ =>
          Ok (compliance_data,
              {| statusCode := 200;
                 body := json_dumps "Patch compliance report generated successfully" |})
      end
  end.

End ReporterHandler.

(* ------------------------------------------------------------------ *)
(** ** Further observations *)

Module Observed.

Import Aws.

(** The patch-state records a reporter receives for the batches [bs], the
    first of them being its call number [n]: a call that raises brings
    nothing. *)
Fixpoint received (call : nat -> list string -> result (list InstancePatchState))
    (bs : list (list string)) (n : nat) : list InstancePatchState :=
  match bs with
  | [] => []
  | b :: bs' =>
      match call n b with
      | Ok states => states
      | Raise _ => []
      end ++ received call bs' (S n)
  end.

(** The sum of a count over records, each clamped at zero. *)
Definition sum_clamped (count : InstancePatchState -> option Z)
    (states : list InstancePatchState) : Z :=
  fold_right (fun state acc => max0 (get_or 0 (count state)) + acc) 0 states.

(** A record with neither missing nor failed patches, after clamping. *)
Definition clean (state : InstancePatchState) : bool :=
  (max0 (get_or 0 (MissingCount state)) =? 0) && (max0 (get_or 0 (FailedCount state)) =? 0).

(** A record with a failed or a missing patch, as the provider counts them. *)
Definition failed_or_missing (state : InstancePatchState) : bool :=
  (0 <? get_or 0 (FailedCount state)) || (0 <? get_or 0 (MissingCount state)).

(** The last element of a list that satisfies [p]. *)
Definition find_last {A : Type} (p : A -> bool) (l : list A) : option A :=
  find p (rev l).

(** [int] accepts the count of the item. *)
Definition parseable (item : ExplorerReporter.OpsItem) : Prop :=
  forall text, ExplorerReporter.ops_Count item <> Some (ExplorerReporter.NotInt text).

(** The count of an item as [int] reads it, zero when it raises. *)
Definition count_of (item : ExplorerReporter.OpsItem) : Z :=
  match ExplorerReporter.int_of_count (ExplorerReporter.ops_Count item) with
  | Ok z => z
  | Raise _ => 0
  end.

(** The sum of the counts of the items whose ping status is Online. *)
Definition online_sum (items : list ExplorerReporter.OpsItem) : Z :=
  fold_right (fun item acc =>
    if String.eqb (get_or "" (ExplorerReporter.ops_PingStatus item)) "Online"
    then count_of item + acc else acc) 0 items.

(** The item is a patch compliance summary. *)
Definition is_patch (item : ExplorerReporter.ComplianceSummaryItem) : bool :=
  match ExplorerReporter.ComplianceType item with
  | Some t => String.eqb t "Patch"
  | None => false
  end.

(** The entry [record_instance] stores for a listed instance. *)
Definition listed (inst : Instance) : PatchComplianceFinal.InstanceInfo :=
  {| PatchComplianceFinal.name := PatchComplianceFinal.name_tag (Tags inst) (InstanceId inst);
     PatchComplianceFinal.platform := get_or "linux" (Platform inst);
     PatchComplianceFinal.state := State_Name inst;
     PatchComplianceFinal.launch := LaunchTime inst;
     PatchComplianceFinal.ssm_managed := false;
     PatchComplianceFinal.ssm_agent_status := "Unknown";
     PatchComplianceFinal.processed := false |}.

(** The instances the EC2 listing of a unit yields, in order. *)
Definition listing (ec2 : PatchComplianceFinal.Ec2Client) : list Instance :=
  List.concat (List.concat (pages (PatchComplianceFinal.describe_instances ec2))).

(** The registry items the unit receives, in order. *)
Definition registry_items (ssm : PatchComplianceFinal.SsmClient) : list InstanceInformation :=
  List.concat (pages (PatchComplianceFinal.describe_instance_information ssm)).

(** A row with the four patch counts of a patch-state record. *)
Definition with_counts (st : InstancePatchState) (r : PatchComplianceFinal.InstanceRow)
    : Prop :=
  PatchComplianceFinal.Installed_Patches r = Some (get_or 0 (InstalledCount st))
  /\ PatchComplianceFinal.Missing_Patches r = Some (get_or 0 (MissingCount st))
  /\ PatchComplianceFinal.Failed_Patches r = Some (get_or 0 (FailedCount st))
  /\ PatchComplianceFinal.Unspecified_Patches r
     = Some (get_or 0 (NotApplicableCount st) + get_or 0 (UnreportedNotApplicableCount st)).

(** The summary [s] is [s0] with the records [states] tallied: each record
    counted once as compliant or non-compliant, its six counts added after
    clamping. *)
Definition tallies (s0 s : FinalReporter.Summary) (states : list InstancePatchState) : Prop :=
  FinalReporter.total_managed_instances s = FinalReporter.total_managed_instances s0
  /\ FinalReporter.compliant_instances s
     = FinalReporter.compliant_instances s0 + Z.of_nat (List.length (filter clean states))
  /\ FinalReporter.non_compliant_instances s
     = FinalReporter.non_compliant_instances s0
       + Z.of_nat (List.length (filter (fun st => negb (clean st)) states))
  /\ FinalReporter.missing_count s
     = FinalReporter.missing_count s0 + sum_clamped MissingCount states
  /\ FinalReporter.failed_count s
     = FinalReporter.failed_count s0 + sum_clamped FailedCount states
  /\ FinalReporter.installed_pending_reboot_count s
     = FinalReporter.installed_pending_reboot_count s0
       + sum_clamped InstalledPendingRebootCount states
  /\ FinalReporter.installed_other_count s
     = FinalReporter.installed_other_count s0 + sum_clamped InstalledOtherCount states
  /\ FinalReporter.installed_rejected_count s
     = FinalReporter.installed_rejected_count s0 + sum_clamped InstalledRejectedCount states
  /\ FinalReporter.not_applicable_count s
     = FinalReporter.not_applicable_count s0 + sum_clamped NotApplicableCount states.

(** The running totals of the reporter balance: every instance counted is
    either managed or unmanaged. *)
Definition balanced (org : FinalReporter.Summary) (total unmanaged : Z) : Prop :=
  total = FinalReporter.total_managed_instances org + unmanaged
  /\ 0 <= total
  /\ 0 <= FinalReporter.total_managed_instances org.

(** What holds of the data stored for a region. *)
Definition region_ok (region : string) (data : FinalReporter.RegionData) : Prop :=
  In region FinalReporter.regions
  /\ 0 < FinalReporter.total_ec2_instances data
  /\ FinalReporter.total_ec2_instances data
     = FinalReporter.managed_instances data + FinalReporter.unmanaged_ec2_instances data
  /\ 0 <= FinalReporter.managed_instances data
  /\ 0 <= FinalReporter.region_compliant_instances data
  /\ 0 <= FinalReporter.region_non_compliant_instances data
  /\ 0 <= FinalReporter.details_missing_count (FinalReporter.patch_details data)
  /\ 0 <= FinalReporter.details_failed_count (FinalReporter.patch_details data)
  /\ 0 <= FinalReporter.details_installed_pending_reboot_count
            (FinalReporter.patch_details data)
  /\ 0 <= FinalReporter.details_installed_other_count (FinalReporter.patch_details data)
  /\ 0 <= FinalReporter.details_installed_rejected_count (FinalReporter.patch_details data)
  /\ 0 <= FinalReporter.details_not_applicable_count (FinalReporter.patch_details data).

(** The accounts [get_organization_accounts] keeps, as [(Id, Name)]. *)
Definition active_accounts (listed_accounts : list ReporterHandler.OrgAccount)
    : list (string * string) :=
  map (fun a => (ReporterHandler.Id a, ReporterHandler.Name a))
    (filter (fun a => String.eqb (ReporterHandler.Status a) "ACTIVE") listed_accounts).

(** What a patch compliance summary item sets. *)
Definition reading (item : ExplorerReporter.ComplianceSummaryItem)
    : ExplorerReporter.Compliance :=
  {| ExplorerReporter.compliant_instances := get_or 0 (ExplorerReporter.CompliantCount item);
     ExplorerReporter.non_compliant_instances :=
       get_or 0 (ExplorerReporter.NonCompliantCount item);
     ExplorerReporter.critical_count := get_or 0 (ExplorerReporter.CriticalCount item);
     ExplorerReporter.high_count := get_or 0 (ExplorerReporter.HighCount item);
     ExplorerReporter.medium_count := get_or 0 (ExplorerReporter.MediumCount item);
     ExplorerReporter.low_count := get_or 0 (ExplorerReporter.LowCount item);
     ExplorerReporter.informational_count :=
       get_or 0 (ExplorerReporter.InformationalCount item);
     ExplorerReporter.unspecified_count := get_or 0 (ExplorerReporter.UnspecifiedCount item) |}.

(** The regions stored for an account. *)
Definition regions_ok (rs : dict FinalReporter.RegionData) : Prop :=
  forall region data, In (region, data) rs -> region_ok region data.

(** The data the reporter builds for the accounts [accts]. *)
Definition data_ok (accts : list (string * string)) (d : FinalReporter.AllData) : Prop :=
  balanced (FinalReporter.aws_dashboard_summary d) (FinalReporter.ctx_total_ec2_instances d)
    (FinalReporter.ctx_unmanaged_ec2_instances d)
  /\ forall account_id account_name rs,
       In (account_id, (account_name, rs)) (FinalReporter.accounts d) ->
       In (account_id, account_name) accts /\ rs <> [] /\ regions_ok rs.

(** The region reports stored in the data of the Explorer-based reporter,
    account after account, region after region. *)
Definition stored_reports (d : ExplorerReporter.AllData) : list ExplorerReporter.Report :=
  flat_map (fun entry => map snd (snd (snd entry))) (ExplorerReporter.accounts d).

(** The six counts of [d] are the sums of the clamped counts of [states]. *)
Definition details_tally (d : ExplorerReporter.Details) (states : list InstancePatchState)
    : Prop :=
  ExplorerReporter.missing_count d = sum_clamped MissingCount states
  /\ ExplorerReporter.failed_count d = sum_clamped FailedCount states
  /\ ExplorerReporter.installed_pending_reboot_count d
     = sum_clamped InstalledPendingRebootCount states
  /\ ExplorerReporter.installed_other_count d = sum_clamped InstalledOtherCount states
  /\ ExplorerReporter.installed_rejected_count d = sum_clamped InstalledRejectedCount states
  /\ ExplorerReporter.not_applicable_count d = sum_clamped NotApplicableCount states.

(** The EC2 listing names the instance [k]. *)
Definition names (k : string) (inst : Instance) : bool := String.eqb (InstanceId inst) k.

(** The registry item is about the instance [k]. *)
Definition registers (k : string) (item : InstanceInformation) : bool :=
  String.eqb (info_InstanceId item) k.

(** The provider answers every patch-state request for the single
    identifier [iid] with [st] as first record. *)
Definition answers (ssm : PatchComplianceFinal.SsmClient) (iid : string)
    (st : InstancePatchState) : Prop :=
  forall n, exists more,
    PatchComplianceFinal.describe_instance_patch_states ssm n [iid] = Ok (st :: more).


(** The label [aname] and the region [rgn] are those of a unit of the
    selection: the name the directory gives to a selected account, and a
    selected region. *)
Definition selected (account_ids : list string)
    (all_accounts : list PatchComplianceFinal.Account) (regions : list string)
    (aname rgn : string) : Prop :=
  (exists aid, In aid account_ids
               /\ aname = PatchComplianceFinal.get_account_name_by_id aid all_accounts)
  /\ In rgn regions.

(** [instance_map[k]['Managed']] in "Patch_Compliance (3)", false for an
    absent key. *)
Definition flagged (m : dict PatchCompliance3.InstanceInfo) (k : string) : bool :=
  match dict_get m k with
  | Some i => PatchCompliance3.info_Managed i
  | None => false
  end.

(** The identifier a patch-state record is filed under. *)
Definition state_id (ps : InstancePatchState) : string := get_or "" (ps_InstanceId ps).

(** The row is in one of the two status slices of the "Compliance Summary"
    pie. *)
Definition in_status_slice (r : PatchComplianceFinal.InstanceRow) : bool :=
  String.eqb (PatchComplianceFinal.Compliance_Status r) "COMPLIANT"
  || String.eqb (PatchComplianceFinal.Compliance_Status r) "NON_COMPLIANT".

(** The rows the pie counts twice, and the rows it does not count. *)
Definition counted_twice (r : PatchComplianceFinal.InstanceRow) : bool :=
  negb (PatchComplianceFinal.Managed r) && in_status_slice r.

Definition not_counted (r : PatchComplianceFinal.InstanceRow) : bool :=
  PatchComplianceFinal.Managed r && negb (in_status_slice r).

End Observed.


(** ** The summary metrics of the dashboard

    The counts the page computes from [inst_df], the frame of the instance
    rows, before any filter. *)

Module Dashboard.

Import PatchComplianceFinal.

(** [len(inst_df[...])] for a row condition. *)
Definition len_where (p : InstanceRow -> bool) (inst_df : list InstanceRow) : Z :=
  Z.of_nat (List.length (filter p inst_df)).

Definition comp (inst_df : list InstanceRow) : Z :=
  len_where (fun r => String.eqb (Compliance_Status r) "COMPLIANT") inst_df.

Definition non_comp (inst_df : list InstanceRow) : Z :=
  len_where (fun r => String.eqb (Compliance_Status r) "NON_COMPLIANT") inst_df.

Definition unmg (inst_df : list InstanceRow) : Z :=
  len_where (fun r => Bool.eqb (Managed r) false) inst_df.

Definition total (inst_df : list InstanceRow) : Z := Z.of_nat (List.length inst_df).

(** The first slice of "Instance Management Status". *)
Definition mng (inst_df : list InstanceRow) : Z := total inst_df - unmg inst_df.

(** The values of the "Compliance Summary" pie, before the empty slices are
    dropped. *)
Definition comp_data (inst_df : list InstanceRow) : list Z :=
  [comp inst_df; non_comp inst_df; unmg inst_df].

(** [comp_data_flt]: the slices above zero. *)
Definition comp_data_flt (inst_df : list InstanceRow) : list Z :=
  filter (fun v => 0 <? v) (comp_data inst_df).

End Dashboard.
(** ** Further provider behaviours *)

Module Cases.

Import Aws.

(** An Explorer session whose ops summary has an Online item with count 4
    and a ConnectionLost item whose count [int] rejects; the registry lists
    two Online instances and EC2 lists three. *)
Definition unparseable_count : ExplorerReporter.Session :=
  {| ExplorerReporter.client_ec2 :=
       Ok {| ExplorerReporter.describe_instances :=
               Paged [[ [Scenarios.instance "i-1" "running";
                         Scenarios.instance "i-2" "running"];
                        [Scenarios.instance "i-3" "stopped"] ]] None |};
     ExplorerReporter.client_ssm :=
       Ok {| ExplorerReporter.get_ops_summary :=
               Ok [[ {| ExplorerReporter.ops_PingStatus := Some "Online";
                        ExplorerReporter.ops_Count := Some (ExplorerReporter.IntLike 4) |};
                     {| ExplorerReporter.ops_PingStatus := Some "ConnectionLost";
                        ExplorerReporter.ops_Count := Some (ExplorerReporter.NotInt "n/a") |} ]];
             ExplorerReporter.describe_instance_information :=
               Paged [[Scenarios.online "i-1"; Scenarios.online "i-2"]] None;
             ExplorerReporter.list_compliance_summaries := Ok [];
             ExplorerReporter.describe_instance_patch_states := fun _ _ => Ok [] |} |}.

(** An Explorer session whose ops summary has an Online count that [int]
    accepts and that is too large for the percentage; the registry lists one
    Online instance and EC2 lists one. *)
Definition overflowing_count : ExplorerReporter.Session :=
  {| ExplorerReporter.client_ec2 :=
       Ok {| ExplorerReporter.describe_instances :=
               Paged [[ [Scenarios.instance "i-1" "running"] ]] None |};
     ExplorerReporter.client_ssm :=
       Ok {| ExplorerReporter.get_ops_summary :=
               Ok [[ {| ExplorerReporter.ops_PingStatus := Some "Online";
                        ExplorerReporter.ops_Count :=
                          Some (ExplorerReporter.IntLike (2 ^ 1100)) |} ]];
             ExplorerReporter.describe_instance_information :=
               Paged [[Scenarios.online "i-1"]] None;
             ExplorerReporter.list_compliance_summaries := Ok [];
             ExplorerReporter.describe_instance_patch_states := fun _ _ => Ok [] |} |}.

(** Two accounts for the Explorer-based reporter: the first has a session in
    one region only. *)
Definition explorer_sessions (account_id region : string) : option ExplorerReporter.Session :=
  if String.eqb account_id "111111111111" then
    if String.eqb region "us-east-1" then Some unparseable_count else None
  else Some Scenarios.negative_online_count.

Definition explorer_accounts : list (string * string) :=
  [("111111111111", "prod"); ("222222222222", "dev")].

(** A unit whose listings repeat an instance: EC2 lists [i-1] as pending,
    then as running with a Name tag; the registry lists it with a lost
    connection, then Online; the provider has two compliance summaries for
    it, and one patch state. *)
Definition relisted_state : InstancePatchState :=
  {| ps_InstanceId := Some "i-1"; InstalledCount := Some 40;
     InstalledOtherCount := None; InstalledPendingRebootCount := None;
     InstalledRejectedCount := None; MissingCount := Some 2;
     FailedCount := None; UnreportedNotApplicableCount := Some 5;
     NotApplicableCount := Some 7 |}.

Definition relisted_ssm : PatchComplianceFinal.SsmClient :=
  {| PatchComplianceFinal.describe_instance_information :=
       Paged [[ {| info_InstanceId := "i-1"; PingStatus := Some "ConnectionLost" |} ];
              [ Scenarios.online "i-1" ]] None;
     PatchComplianceFinal.list_resource_compliance_summaries :=
       Paged [[ {| ResourceId := Some "i-1"; Status := Some "COMPLIANT" |};
                {| ResourceId := Some "i-1"; Status := Some "NON_COMPLIANT" |} ]]
         (Some "ThrottlingException");
     PatchComplianceFinal.describe_instance_patch_states := fun _ _ => Ok [relisted_state];
     PatchComplianceFinal.describe_patch_groups := Paged [] None;
     PatchComplianceFinal.describe_patch_group_state := fun _ _ => Raise "unavailable";
     PatchComplianceFinal.describe_available_patches := Paged [] (Some "AccessDenied") |}.

Definition relisted_launch : datetime :=
  {| year := 2024; month := 5; day := 1; hour := 9; minute := 30; second := 0;
     microsecond := 0 |}.

Definition relisted_ec2 : PatchComplianceFinal.Ec2Client :=
  {| PatchComplianceFinal.describe_instances :=
       Paged [[ [Scenarios.instance "i-1" "pending"] ];
              [ [{| InstanceId := "i-1"; Platform := Some "windows";
                    Tags := [ {| Key := "env"; Value := "prod" |};
                              {| Key := "Name"; Value := "web-1" |} ];
                    State_Name := "running"; LaunchTime := Some relisted_launch |};
                 Scenarios.instance "i-2" "stopped"] ]] None |}.

Definition relisted : PatchComplianceFinal.Clients :=
  {| PatchComplianceFinal.get_ssm := Some relisted_ssm;
     PatchComplianceFinal.get_ec2 := Some relisted_ec2 |}.

(** The first row of the unit [relisted] for the account prod in
    eu-west-1. *)
Definition relisted_row : PatchComplianceFinal.InstanceRow :=
  {| PatchComplianceFinal.Account_Name := "prod";
     PatchComplianceFinal.Region := "eu-west-1";
     PatchComplianceFinal.Instance_ID := "i-1";
     PatchComplianceFinal.Instance_Name := "web-1";
     PatchComplianceFinal.row_Platform := "windows";
     PatchComplianceFinal.Compliance_Status := "COMPLIANT";
     PatchComplianceFinal.SSM_Agent_Status := "Online";
     PatchComplianceFinal.Installed_Patches := Some 40;
     PatchComplianceFinal.Missing_Patches := Some 2;
     PatchComplianceFinal.Failed_Patches := Some 0;
     PatchComplianceFinal.Unspecified_Patches := Some 12;
     PatchComplianceFinal.Instance_State := "running";
     PatchComplianceFinal.Launch_Time := Some relisted_launch;
     PatchComplianceFinal.Managed := true |}.

(** The selection of two accounts, the second absent from the directory, in
    one region; every unit sees the provider of [relisted]. *)
Definition directory : list PatchComplianceFinal.Account :=
  [ {| PatchComplianceFinal.acc_Id := "111111111111";
       PatchComplianceFinal.acc_Name := "prod" |} ].

Definition selected_units : list PatchComplianceFinal.Future :=
  PatchComplianceFinal.submit ["111111111111"; "999999999999"] directory ["eu-west-1"]
    (fun _ aname rgn =>
       PatchComplianceFinal.Returned
         (PatchComplianceFinal.fetch_account_region_data aname rgn relisted)).

End Cases.

(* ------------------------------------------------------------------ *)
(** * Properties *)

Unset Implicit Arguments.
Import Aws.

(** ** Loops as folds *)

Lemma fold_left_concat {A S : Type} (f : S -> A -> S) (pgs : list (list A)) (s : S) :
  fold_left (fun st page => fold_left f page st) pgs s = fold_left f (List.concat pgs) s.
Proof.
  revert s. induction pgs as [|page pgs IH]; intros s; simpl.
  - reflexivity.
  - rewrite fold_left_app. apply IH.
Qed.

Lemma fold_left_append {A B : Type} (f : A -> list B) (l : list A) (init : list B) :
  fold_left (fun acc x => acc ++ f x) l init = init ++ flat_map f l.
Proof.
  revert init. induction l as [|x l IH]; intros init; simpl.
  - now rewrite app_nil_r.
  - rewrite IH. now rewrite app_assoc.
Qed.

Lemma fold_left_invariant {A S : Type} (P : S -> Prop) (f : S -> A -> S) (l : list A) :
  (forall s a, P s -> P (f s a)) -> forall s, P s -> P (fold_left f l s).
Proof.
  intros step. induction l as [|a l IH]; intros s Hs; simpl; auto.
Qed.

(** ** Dictionaries *)

Module DictFacts.

Section Facts.
Context {V : Type}.
Implicit Types (d : dict V) (k : string) (v : V).

Lemma get_set d k v k' :
  dict_get (dict_set d k v) k' = if String.eqb k k' then Some v else dict_get d k'.
Proof.
  induction d as [|[k0 v0] d IH]; cbn [dict_set dict_get].
  - reflexivity.
  - destruct (String.eqb k0 k) eqn:H0; cbn [dict_get].
    + apply String.eqb_eq in H0. subst k0. now destruct (String.eqb k k').
    + rewrite IH. destruct (String.eqb k0 k') eqn:H1; [|reflexivity].
      apply String.eqb_eq in H1. subst k'.
      rewrite String.eqb_sym, H0. reflexivity.
Qed.

Lemma get_update d k (f : V -> V) k' :
  dict_get (dict_update d k f) k'
  = if String.eqb k k' then option_map f (dict_get d k) else dict_get d k'.
Proof.
  induction d as [|[k0 v0] d IH]; cbn [dict_update dict_get].
  - now destruct (String.eqb k k').
  - destruct (String.eqb k0 k) eqn:H0; cbn [dict_get].
    + apply String.eqb_eq in H0. subst k0. now destruct (String.eqb k k').
    + rewrite IH. destruct (String.eqb k0 k') eqn:H1; [|reflexivity].
      apply String.eqb_eq in H1. subst k'.
      rewrite String.eqb_sym, H0. reflexivity.
Qed.

Lemma keys_update d k (f : V -> V) : keys (dict_update d k f) = keys d.
Proof.
  unfold keys. induction d as [|[k0 v0] d IH]; cbn [dict_update map]; [reflexivity|].
  destruct (String.eqb k0 k); cbn [map fst]; [reflexivity|now rewrite IH].
Qed.

Lemma get_none d k : dict_get d k = None <-> ~ In k (keys d).
Proof.
  unfold keys. induction d as [|[k0 v0] d IH]; cbn [dict_get map fst In].
  - tauto.
  - destruct (String.eqb k0 k) eqn:H0.
    + apply String.eqb_eq in H0. split; [discriminate|]. intros H. exfalso. apply H. now left.
    + apply String.eqb_neq in H0. rewrite IH. tauto.
Qed.

Lemma mem_keys d k : dict_mem d k = true <-> In k (keys d).
Proof.
  unfold dict_mem. destruct (dict_get d k) eqn:H.
  - split; [|reflexivity]. intros _.
    destruct (in_dec string_dec k (keys d)) as [Hin|Hout]; [exact Hin|].
    apply get_none in Hout. congruence.
  - split; [discriminate|]. intros Hin. apply get_none in H. contradiction.
Qed.

Lemma keys_set d k v :
  keys (dict_set d k v) = if dict_mem d k then keys d else keys d ++ [k].
Proof.
  unfold keys, dict_mem.
  induction d as [|[k0 v0] d IH]; cbn [dict_set dict_get map fst app]; [reflexivity|].
  destruct (String.eqb k0 k) eqn:H0; cbn [map fst]; [reflexivity|].
  rewrite IH. now destruct (dict_get d k).
Qed.

Lemma nodup_set d k v : NoDup (keys d) -> NoDup (keys (dict_set d k v)).
Proof.
  intros H. rewrite keys_set. destruct (dict_mem d k) eqn:Hm; [exact H|].
  apply NoDup_app; [exact H|constructor; [intros []|constructor]|].
  intros x Hx [<-|[]]. apply mem_keys in Hx. congruence.
Qed.

Lemma in_get d k v : NoDup (keys d) -> In (k, v) d -> dict_get d k = Some v.
Proof.
  unfold keys. induction d as [|[k0 v0] d IH]; cbn [map fst In dict_get]; [tauto|].
  intros Hnd [Heq|Hin].
  - injection Heq as -> ->. now rewrite String.eqb_refl.
  - inversion Hnd as [|? ? Hout Hnd']. subst.
    destruct (String.eqb k0 k) eqn:H0.
    + apply String.eqb_eq in H0. subst k0. exfalso. apply Hout.
      apply in_map_iff. now exists (k, v).
    + now apply IH.
Qed.

(** Filtering the entries by value is filtering the keys by lookup. *)
Lemma filter_entries d (p : V -> bool) :
  NoDup (keys d) ->
  map fst (filter (fun kv => p (snd kv)) d)
  = filter (fun k => match dict_get d k with Some v => p v | None => false end) (keys d).
Proof.
  unfold keys. induction d as [|[k0 v0] d IH]; intros Hnd; [reflexivity|].
  inversion Hnd as [|? ? Hout Hnd']. subst.
  cbn [filter map fst snd dict_get]. rewrite String.eqb_refl.
  assert (Htail : filter (fun k => match (if String.eqb k0 k then Some v0 else dict_get d k)
                                   with Some v => p v | None => false end) (map fst d)
                  = filter (fun k => match dict_get d k with Some v => p v | None => false end)
                      (map fst d)).
  { apply filter_ext_in. intros k Hk. destruct (String.eqb k0 k) eqn:H0; [|reflexivity].
    apply String.eqb_eq in H0. subst. contradiction. }
  destruct (p v0); cbn [map fst]; rewrite Htail, <- IH by exact Hnd'; reflexivity.
Qed.

End Facts.

Lemma mem_str_in (k : string) (l : list string) :
  existsb (String.eqb k) l = true <-> In k l.
Proof.
  rewrite existsb_exists. split.
  - intros [x [Hx He]]. apply String.eqb_eq in He. now subst.
  - intros H. exists k. split; [exact H|apply String.eqb_refl].
Qed.

End DictFacts.

(** ** Patch groups *)

Module Groups.
Import PatchComplianceFinal.

Section OneUnit.
Variables (account_name region : string) (ssm : SsmClient).

Local Abbreviation step := (record_group account_name region ssm).






End OneUnit.
End Groups.



(** ** Catalog patches and their reduction *)

Module Catalog.
Import PatchComplianceFinal.

Lemma kept_are_new (rows : list PatchRow) :
  forall seen id, In id (map Patch_ID (drop_duplicates_from seen rows)) -> ~ In id seen.
Proof.
  induction rows as [|r rows IH]; intros seen id Hin; simpl in Hin; [contradiction|].
  destruct (existsb (String.eqb (Patch_ID r)) seen) eqn:Hs.
  - now apply IH.
  - simpl in Hin. destruct Hin as [<-|Hin].
    + intros Hc. apply DictFacts.mem_str_in in Hc. congruence.
    + apply IH in Hin. intros Hc. apply Hin. now right.
Qed.

Lemma kept_distinct (rows : list PatchRow) :
  forall seen, NoDup (map Patch_ID (drop_duplicates_from seen rows)).
Proof.
  induction rows as [|r rows IH]; intros seen; simpl; [constructor|].
  destruct (existsb (String.eqb (Patch_ID r)) seen); [apply IH|].
  simpl. constructor; [|apply IH].
  intros Hin. apply kept_are_new in Hin. apply Hin. now left.
Qed.

Lemma kept_shorter (rows : list PatchRow) :
  forall seen, (List.length (drop_duplicates_from seen rows) <= List.length rows)%nat.
Proof.
  induction rows as [|r rows IH]; intros seen; simpl; [lia|].
  destruct (existsb (String.eqb (Patch_ID r)) seen); simpl.
  - specialize (IH seen). lia.
  - specialize (IH (Patch_ID r :: seen)). lia.
Qed.

Lemma kept_from_rows (rows : list PatchRow) :
  forall seen r, In r (drop_duplicates_from seen rows) -> In r rows.
Proof.
  induction rows as [|r0 rows IH]; intros seen r Hin; simpl in *; [contradiction|].
  destruct (existsb (String.eqb (Patch_ID r0)) seen).
  - right. now apply IH with (seen := seen).
  - destruct Hin as [->|Hin]; [now left|]. right. now apply IH with (seen := Patch_ID r0 :: seen).
Qed.

Lemma kept_covers (rows : list PatchRow) :
  forall seen id, In id (map Patch_ID rows) -> ~ In id seen ->
    In id (map Patch_ID (drop_duplicates_from seen rows)).
Proof.
  induction rows as [|r rows IH]; intros seen id Hin Hnew; simpl in *; [contradiction|].
  destruct (existsb (String.eqb (Patch_ID r)) seen) eqn:Hs.
  - destruct Hin as [<-|Hin].
    + apply DictFacts.mem_str_in in Hs. contradiction.
    + now apply IH.
  - destruct (String.eqb (Patch_ID r) id) eqn:He.
    + apply String.eqb_eq in He. subst. now left.
    + destruct Hin as [Heq|Hin].
      * subst. rewrite String.eqb_refl in He. discriminate.
      * right. apply IH; [exact Hin|].
        intros [Hc|Hc]; [|contradiction].
        subst. rewrite String.eqb_refl in He. discriminate.
Qed.

End Catalog.

(** ** The aggregator *)

Module Aggregator.
Import PatchComplianceFinal Outcome.

(** What the accumulators receive from one future whose task returned or
    raised an [Exception]. *)
Lemma complete_spec (a : Aggregate) (f : Future) :
  handled f ->
  exists a',
    complete a f = Ok a'
    /\ done a' = S (done a)
    /\ all_inst a' = all_inst a ++ instances_of f
    /\ all_grp a' = all_grp a ++ groups_of f
    /\ all_pat a' = all_pat a ++ patches_of f
    /\ all_err a' = all_err a ++ errors_of f.
Proof.
  intros Hf. unfold complete, instances_of, groups_of, patches_of, errors_of, handled in *.
  destruct (fut_result f) as [[[[i g] p] e]|ex|ex].
  - eexists. split; [reflexivity|]. cbn [done all_inst all_grp all_pat all_err].
    now repeat split.
  - eexists. split; [reflexivity|]. cbn [done all_inst all_grp all_pat all_err].
    rewrite !app_nil_r. now repeat split.
  - exfalso. now apply (Hf ex).
Qed.

Lemma drain_spec (l : list Future) :
  Forall handled l ->
  forall a,
    exists a',
      drain l a = Ok a'
      /\ done a' = (done a + List.length l)%nat
      /\ all_inst a' = all_inst a ++ flat_map instances_of l
      /\ all_grp a' = all_grp a ++ flat_map groups_of l
      /\ all_pat a' = all_pat a ++ flat_map patches_of l
      /\ all_err a' = all_err a ++ flat_map errors_of l.
Proof.
  induction 1 as [|f l Hf _ IH]; intros a; cbn [drain flat_map List.length].
  - exists a. rewrite !app_nil_r. repeat split. lia.
  - destruct (complete_spec a f Hf) as (a1 & -> & Hd1 & Hi1 & Hg1 & Hp1 & He1).
    destruct (IH a1) as (a' & Hrun & Hd & Hi & Hg & Hp & He).
    exists a'. split; [exact Hrun|].
    rewrite Hd, Hi, Hg, Hp, He, Hd1, Hi1, Hg1, Hp1, He1, <- !app_assoc.
    repeat split. lia.
Qed.

(** The first future whose task ends outside [Exception] ends the loop. *)
Lemma drain_exit (before : list Future) (f : Future) (after : list Future) (ex : string) :
  Forall handled before -> fut_result f = Exited ex ->
  forall a, drain (before ++ f :: after) a = Raise ex.
Proof.
  induction 1 as [|f0 l Hf0 _ IH]; intros Hexit a; cbn [app drain].
  - unfold complete. now rewrite Hexit.
  - destruct (complete_spec a f0 Hf0) as (a1 & -> & _). now apply IH.
Qed.

Lemma messages_counted (f : Future) : List.length (errors_of f) = messages_of f.
Proof.
  unfold errors_of, messages_of. now destruct (fut_result f) as [[[[i g] p] e]|ex|ex].
Qed.

Lemma submit_length (account_ids : list string) (all_accounts : list Account)
    (regions : list string) (task : string -> string -> string -> outcome) :
  List.length (submit account_ids all_accounts regions task)
  = (List.length account_ids * List.length regions)%nat.
Proof.
  unfold submit. induction account_ids as [|aid ids IH]; cbn [flat_map List.length].
  - reflexivity.
  - rewrite length_app, length_map, IH. lia.
Qed.

Lemma submit_in (account_ids : list string) (all_accounts : list Account)
    (regions : list string) (task : string -> string -> string -> outcome)
    (aid rgn : string) :
  In aid account_ids -> In rgn regions ->
  In {| fut_aname := get_account_name_by_id aid all_accounts;
        fut_rgn := rgn;
        fut_result := task aid (get_account_name_by_id aid all_accounts) rgn |}
     (submit account_ids all_accounts regions task).
Proof.
  intros Ha Hr. unfold submit. apply in_flat_map. exists aid. split; [exact Ha|].
  apply in_map_iff. exists rgn. now split.
Qed.

Lemma list_sum_perm (l l' : list nat) : Permutation l l' -> list_sum l = list_sum l'.
Proof.
  unfold list_sum. induction 1; cbn [fold_right] in *; lia.
Qed.

Lemma length_flat_map {A B : Type} (f : A -> list B) (l : list A) :
  List.length (flat_map f l) = list_sum (map (fun x => List.length (f x)) l).
Proof.
  induction l as [|x l IH]; [reflexivity|].
  cbn [flat_map map]. rewrite length_app, IH. reflexivity.
Qed.

Lemma flat_map_submit {B : Type} (g : Future -> list B) (account_ids : list string)
    (all_accounts : list Account) (regions : list string)
    (task : string -> string -> string -> outcome) :
  flat_map g (submit account_ids all_accounts regions task)
  = flat_map (fun aid =>
      flat_map (fun rgn =>
        g {| fut_aname := get_account_name_by_id aid all_accounts;
             fut_rgn := rgn;
             fut_result := task aid (get_account_name_by_id aid all_accounts) rgn |})
        regions) account_ids.
Proof.
  unfold submit. induction account_ids as [|aid ids IH]; [reflexivity|].
  cbn [flat_map]. rewrite flat_map_app, IH. f_equal.
  clear IH. induction regions as [|rgn rgns IHr]; [reflexivity|].
  cbn [map flat_map]. now rewrite IHr.
Qed.

(** A unit whose role cannot be assumed does not raise: it returns no data
    and one message tagged with its account name and region. *)
Lemma credential_failure_returns_one_message (account_name region : string) (c : Clients) :
  get_ssm c = None \/ get_ec2 c = None ->
  fetch_account_region_data account_name region c
  = ([], [], [], [(cross_mark ++ " " ++ account_name ++ "/" ++ region ++ ": Auth failed")%string]).
Proof.
  unfold fetch_account_region_data, run_unit.
  intros [H|H]; rewrite H; [reflexivity|].
  now destruct (get_ssm c).
Qed.

(** The catalog rows of a unit that ran [fetch_account_region_data]. *)
Lemma unit_catalog (account_name region : string) (c : Clients) :
  run_patches (run_unit account_name region c) = Views.catalog_rows account_name region c.
Proof.
  unfold run_unit, Views.catalog_rows.
  destruct (get_ssm c) as [ssm|]; [|reflexivity].
  destruct (get_ec2 c) as [ec2|]; [|reflexivity].
  destruct (collect_summaries _ _ _ _) as [m3 rows3].
  destruct (collect_patch_details _ _ _) as [calls rows4].
  cbv zeta. cbn [run_patches]. unfold collect_patches.
  rewrite (fold_left_concat (fun acc patch => acc ++ [patch_row account_name region patch])).
  rewrite fold_left_append. cbn [app].
  induction (List.concat (pages (describe_available_patches ssm))) as [|x l IH];
    [reflexivity|].
  cbn [flat_map map app]. now rewrite IH.
Qed.

End Aggregator.

(** C6 (as amended).  When no task ends with an exception that
    [except Exception] lets through, then, whatever the order in which the
    units complete, [fetch_all_data] returns; a unit whose task raises leaves
    exactly one message in the error log, made of the cross mark, the
    account name and the region of the unit and the first 50 characters of
    the exception text; every other unit contributes its instance rows, its
    patch-group rows, its catalog rows and its own messages, in the order of
    completion; and the number of instance rows in the aggregate is the sum
    of the row counts of the units that returned.  The first task that ends
    outside [Exception] ends [fetch_all_data] with that exception. *)
Theorem fetch_all_data_isolates_failing_units :
  forall (account_ids : list string) (all_accounts : list PatchComplianceFinal.Account)
         (regions : list string)
         (task : string -> string -> string -> PatchComplianceFinal.outcome)
         (completed : list PatchComplianceFinal.Future),
    Permutation completed (PatchComplianceFinal.submit account_ids all_accounts regions task) ->
    let units := PatchComplianceFinal.submit account_ids all_accounts regions task in
    ((forall f, In f units -> Outcome.handled f) ->
     exists a,
       PatchComplianceFinal.fetch_all_data completed = Ok a
       /\ PatchComplianceFinal.done a = (List.length account_ids * List.length regions)%nat
       /\ PatchComplianceFinal.all_inst a = flat_map Outcome.instances_of completed
       /\ PatchComplianceFinal.all_grp a = flat_map Outcome.groups_of completed
       /\ PatchComplianceFinal.all_pat a = flat_map Outcome.patches_of completed
       /\ PatchComplianceFinal.all_err a = flat_map Outcome.errors_of completed
       /\ List.length (PatchComplianceFinal.all_inst a)
          = list_sum (map (fun f => List.length (Outcome.instances_of f)) units)
       /\ (forall f, In f units ->
             incl (Outcome.instances_of f) (PatchComplianceFinal.all_inst a)
             /\ incl (Outcome.groups_of f) (PatchComplianceFinal.all_grp a)
             /\ incl (Outcome.patches_of f) (PatchComplianceFinal.all_pat a)
             /\ incl (Outcome.errors_of f) (PatchComplianceFinal.all_err a))
       /\ List.length (PatchComplianceFinal.all_err a)
          = list_sum (map Outcome.messages_of units)
       /\ (forall aid rgn ex,
             In aid account_ids -> In rgn regions ->
             task aid (PatchComplianceFinal.get_account_name_by_id aid all_accounts) rgn
               = PatchComplianceFinal.Raised ex ->
             In (cross_mark ++ " "
                 ++ PatchComplianceFinal.get_account_name_by_id aid all_accounts
                 ++ "/" ++ rgn ++ ": " ++ prefix 50 ex)%string
                (PatchComplianceFinal.all_err a)))
    /\ (forall before f after ex,
          completed = before ++ f :: after ->
          Forall Outcome.handled before ->
          PatchComplianceFinal.fut_result f = PatchComplianceFinal.Exited ex ->
          PatchComplianceFinal.fetch_all_data completed = Raise ex).
Proof.
  intros account_ids all_accounts regions task completed Hperm units. split.
  - intros Hhandled.
    assert (Hall : Forall Outcome.handled completed).
    { apply Forall_forall. intros f Hf. apply Hhandled.
      now apply (Permutation_in _ Hperm). }
    destruct (Aggregator.drain_spec completed Hall
                {| PatchComplianceFinal.done := 0%nat;
                   PatchComplianceFinal.all_inst := [];
                   PatchComplianceFinal.all_grp := [];
                   PatchComplianceFinal.all_pat := [];
                   PatchComplianceFinal.all_err := [] |})
      as (a & Hrun & Hd & Hi & Hg & Hp & He).
    cbn [PatchComplianceFinal.done PatchComplianceFinal.all_inst
         PatchComplianceFinal.all_grp PatchComplianceFinal.all_pat
         PatchComplianceFinal.all_err app Nat.add] in Hd, Hi, Hg, Hp, He.
    assert (Hin : forall f, In f units -> In f completed).
    { intros f Hf. now apply (Permutation_in _ (Permutation_sym Hperm)). }
    exists a. split; [exact Hrun|]. split.
    { rewrite Hd, (Permutation_length Hperm). apply Aggregator.submit_length. }
    split; [exact Hi|]. split; [exact Hg|]. split; [exact Hp|]. split; [exact He|].
    split.
    { rewrite Hi, Aggregator.length_flat_map.
      apply Aggregator.list_sum_perm. now apply Permutation_map. }
    split.
    { intros f Hf. rewrite Hi, Hg, Hp, He.
      split; [|split; [|split]]; intros x Hx; apply in_flat_map; exists f;
        (split; [now apply Hin|exact Hx]). }
    split.
    { rewrite He, Aggregator.length_flat_map.
      rewrite (Aggregator.list_sum_perm _ _
                 (Permutation_map (fun f => List.length (Outcome.errors_of f)) Hperm)).
      f_equal. apply map_ext. apply Aggregator.messages_counted. }
    intros aid rgn ex Ha Hrg Hres. rewrite He. apply in_flat_map.
    exists {| PatchComplianceFinal.fut_aname :=
                PatchComplianceFinal.get_account_name_by_id aid all_accounts;
              PatchComplianceFinal.fut_rgn := rgn;
              PatchComplianceFinal.fut_result :=
                task aid (PatchComplianceFinal.get_account_name_by_id aid all_accounts) rgn |}.
    split.
    + apply Hin. now apply Aggregator.submit_in.
    + unfold Outcome.errors_of.
      cbn [PatchComplianceFinal.fut_result PatchComplianceFinal.fut_aname
           PatchComplianceFinal.fut_rgn].
      rewrite Hres. now left.
  - intros before f after ex -> Hbefore Hexit.
    now apply Aggregator.drain_exit.
Qed.

(** Accounts A and B in two regions, completing in the reverse of the
    submission order, the task of (A, region1) raising: the three other units
    give six instance rows, three patch-group rows, three catalog rows and a
    warning each, and the log has one message for (alpha, region1). *)
Lemma fetch_all_data_isolates_failing_units_witness :
  exists a,
    PatchComplianceFinal.fetch_all_data (rev Scenarios.isolation_units) = Ok a
    /\ PatchComplianceFinal.done a = 4%nat
    /\ List.length (PatchComplianceFinal.all_inst a) = 6%nat
    /\ List.length (PatchComplianceFinal.all_grp a) = 3%nat
    /\ List.length (PatchComplianceFinal.all_pat a) = 3%nat
    /\ PatchComplianceFinal.all_err a
       = [ (warning_sign ++ " beta/region2: SSM instances - AccessDeniedException")%string;
           (warning_sign ++ " beta/region1: SSM instances - AccessDeniedException")%string;
           (warning_sign ++ " alpha/region2: SSM instances - AccessDeniedException")%string;
           (cross_mark ++ " alpha/region1: ExpiredToken")%string ].
Proof.
  destruct (fetch_all_data_isolates_failing_units
              ["A"; "B"] Scenarios.isolation_accounts ["region1"; "region2"]
              Scenarios.isolation_task (rev Scenarios.isolation_units)
              (Permutation_sym (Permutation_rev Scenarios.isolation_units)))
    as [Hok _].
  destruct Hok as (a & Hrun & Hd & Hi & Hg & Hp & He & _).
  { intros f Hf ex. vm_compute in Hf.
    destruct Hf as [<-|[<-|[<-|[<-|[]]]]]; discriminate. }
  exists a. split; [exact Hrun|]. split; [exact Hd|].
  rewrite Hi, Hg, Hp, He. repeat split.
Defined.

(** C6 as stated fails for an exception that is not an [Exception]: the
    task of (A, region1) ends with [SystemExit], which [except Exception]
    does not catch, and [fetch_all_data] ends with it. *)
Lemma exit_of_a_task_ends_the_aggregation :
  PatchComplianceFinal.fetch_all_data Scenarios.exiting_units = Raise "SystemExit".
Proof.
  vm_compute. reflexivity.
Qed.

(** C8 (as amended).  The raw catalog collection [fetch_all_data] returns
    holds, for every selected unit, one row per patch the unit's
    [describe_available_patches] listing yields, whatever the instances of
    the unit: a patch identifier is repeated as often as units and pages list
    it.  [unique_patches] keeps rows of the raw collection, no two of them
    with the same identifier, one for every identifier of the raw collection,
    and never more rows than the raw collection has. *)
Theorem unique_patches_one_per_identifier :
  (forall (account_ids : list string) (all_accounts : list PatchComplianceFinal.Account)
          (regions : list string)
          (clients : string -> string -> PatchComplianceFinal.Clients)
          (completed : list PatchComplianceFinal.Future),
      Permutation completed
        (PatchComplianceFinal.submit account_ids all_accounts regions
           (fun aid aname rgn =>
              PatchComplianceFinal.Returned
                (PatchComplianceFinal.fetch_account_region_data aname rgn
                   (clients aid rgn)))) ->
      exists a,
        PatchComplianceFinal.fetch_all_data completed = Ok a
        /\ Permutation (PatchComplianceFinal.all_pat a)
             (flat_map (fun aid =>
                flat_map (fun rgn =>
                  Views.catalog_rows
                    (PatchComplianceFinal.get_account_name_by_id aid all_accounts) rgn
                    (clients aid rgn)) regions) account_ids))
  /\ forall pat : list PatchComplianceFinal.PatchRow,
       NoDup (map PatchComplianceFinal.Patch_ID (PatchComplianceFinal.unique_patches pat))
       /\ (forall id, In id (map PatchComplianceFinal.Patch_ID pat)
                      <-> In id (map PatchComplianceFinal.Patch_ID
                                   (PatchComplianceFinal.unique_patches pat)))
       /\ incl (PatchComplianceFinal.unique_patches pat) pat
       /\ (List.length (PatchComplianceFinal.unique_patches pat) <= List.length pat)%nat.
Proof.
  split.
  - intros account_ids all_accounts regions clients completed Hperm.
    assert (Hall : Forall Outcome.handled completed).
    { apply Forall_forall. intros f Hf ex. apply (Permutation_in _ Hperm) in Hf.
      unfold PatchComplianceFinal.submit in Hf. apply in_flat_map in Hf.
      destruct Hf as (aid & _ & Hf). apply in_map_iff in Hf.
      destruct Hf as (rgn & <- & _). discriminate. }
    destruct (Aggregator.drain_spec completed Hall
                {| PatchComplianceFinal.done := 0%nat;
                   PatchComplianceFinal.all_inst := [];
                   PatchComplianceFinal.all_grp := [];
                   PatchComplianceFinal.all_pat := [];
                   PatchComplianceFinal.all_err := [] |})
      as (a & Hrun & _ & _ & _ & Hp & _).
    cbn [PatchComplianceFinal.all_pat app] in Hp.
    exists a. split; [exact Hrun|]. rewrite Hp.
    eapply Permutation_trans; [apply Permutation_flat_map; exact Hperm|].
    rewrite Aggregator.flat_map_submit. apply Permutation_refl'.
    apply flat_map_ext. intros aid. apply flat_map_ext. intros rgn.
    unfold Outcome.patches_of, PatchComplianceFinal.fetch_account_region_data.
    cbn [PatchComplianceFinal.fut_result]. apply Aggregator.unit_catalog.
  - intros pat. unfold PatchComplianceFinal.unique_patches. repeat split.
    + apply Catalog.kept_distinct.
    + intros Hin. apply Catalog.kept_covers; [exact Hin|]. intros [].
    + intros Hin. apply in_map_iff in Hin. destruct Hin as [r [<- Hr]].
      apply in_map. now apply Catalog.kept_from_rows with (seen := []).
    + intros r Hr. now apply Catalog.kept_from_rows with (seen := []).
    + apply Catalog.kept_shorter.
Qed.

(** One account without instances in two regions: both units list the
    catalog, so the raw collection names the patch twice and the reduction
    keeps it once. *)
Lemma unique_patches_one_per_identifier_witness :
  exists a,
    PatchComplianceFinal.fetch_all_data Scenarios.same_catalog_twice = Ok a
    /\ map PatchComplianceFinal.Patch_ID (PatchComplianceFinal.all_pat a)
       = ["KB5005565"; "KB5005565"]
    /\ map PatchComplianceFinal.Patch_ID
         (PatchComplianceFinal.unique_patches (PatchComplianceFinal.all_pat a))
       = ["KB5005565"].
Proof.
  destruct (proj1 unique_patches_one_per_identifier
              ["111111111111"] [] ["us-east-1"; "us-west-2"]
              (fun _ _ => Scenarios.catalog_only) Scenarios.same_catalog_twice
              (Permutation_refl _))
    as (a & Hrun & _).
  exists a. split; [exact Hrun|].
  vm_compute in Hrun. injection Hrun as <-. split; vm_compute; reflexivity.
Defined.

(** C8 as stated fails on the origin of the duplicates: the catalog is
    listed once per unit, not once per instance query.  A unit with two
    instances returns one catalog row, and so does a unit without any
    instance. *)
Lemma catalog_is_listed_once_per_unit :
  (List.length (PatchComplianceFinal.run_instances
                  (PatchComplianceFinal.run_unit "acct" "us-east-1" Scenarios.busy_unit)),
   List.length (PatchComplianceFinal.run_patches
                  (PatchComplianceFinal.run_unit "acct" "us-east-1" Scenarios.busy_unit)))
  = (2%nat, 1%nat)
  /\ (List.length (PatchComplianceFinal.run_instances
                     (PatchComplianceFinal.run_unit "acct" "us-east-1" Scenarios.catalog_only)),
      List.length (PatchComplianceFinal.run_patches
                     (PatchComplianceFinal.run_unit "acct" "us-east-1" Scenarios.catalog_only)))
     = (0%nat, 1%nat).
Proof.
  split; vm_compute; reflexivity.
Qed.

(** ** Batching of the patch-state calls *)

Module Batching.

Lemma firstn_add_skipn {A : Type} (a b : nat) (l : list A) :
  firstn (a + b) l = firstn a l ++ firstn b (skipn a l).
Proof.
  revert l. induction a as [|a IH]; intros l; cbn [Nat.add firstn skipn app].
  - reflexivity.
  - destruct l as [|x l]; cbn [firstn skipn app].
    + now rewrite firstn_nil.
    + now rewrite IH.
Qed.

(** The chunks of size [s] taken at [0, s, ..., (m-1)*s]. *)
Lemma chunks_concat {A : Type} (s m : nat) (l : list A) :
  List.concat (map (fun i => slice l i (i + s)) (map (fun k => (k * s)%nat) (seq 0 m)))
  = firstn (m * s) l.
Proof.
  induction m as [|m IH].
  - reflexivity.
  - rewrite seq_S, !map_app, concat_app, IH. cbn [map List.concat Nat.add].
    rewrite app_nil_r. unfold slice.
    replace (m * s + s - m * s)%nat with s by lia.
    replace (S m * s)%nat with (m * s + s)%nat by lia.
    now rewrite firstn_add_skipn.
Qed.

Lemma ceil_covers (n s : nat) : (0 < s)%nat -> (n <= (n + s - 1) / s * s)%nat.
Proof.
  intros Hs.
  pose proof (Nat.div_mod_eq (n + s - 1) s) as Hdm.
  pose proof (Nat.mod_upper_bound (n + s - 1) s ltac:(lia)) as Hm.
  nia.
Qed.

Lemma ceil_tight (n s k : nat) : (0 < s)%nat -> (k < (n + s - 1) / s)%nat -> (k * s < n)%nat.
Proof.
  intros Hs Hk.
  pose proof (Nat.div_mod_eq (n + s - 1) s) as Hdm.
  assert (S k <= (n + s - 1) / s)%nat as Hle by lia.
  nia.
Qed.

Lemma batches_concat (ids : list string) :
  List.concat (FinalReporter.batches ids) = ids.
Proof.
  unfold FinalReporter.batches, range_step. rewrite chunks_concat.
  apply firstn_all2. apply ceil_covers. unfold FinalReporter.batch_size. lia.
Qed.

Lemma batches_length (ids : list string) :
  List.length (FinalReporter.batches ids) = ((List.length ids + 49) / 50)%nat.
Proof.
  unfold FinalReporter.batches, range_step, FinalReporter.batch_size.
  rewrite !length_map, length_seq.
  now replace (List.length ids + 50 - 1)%nat with (List.length ids + 49)%nat by lia.
Qed.

Lemma batches_sizes (ids : list string) :
  Forall (fun batch => (1 <= List.length batch <= 50)%nat) (FinalReporter.batches ids).
Proof.
  unfold FinalReporter.batches, range_step. apply Forall_forall. intros batch Hin.
  apply in_map_iff in Hin. destruct Hin as [i [<- Hi]].
  apply in_map_iff in Hi. destruct Hi as [k [<- Hk]].
  apply in_seq in Hk.
  assert (k * FinalReporter.batch_size < List.length ids)%nat as Hlt.
  { apply ceil_tight; [unfold FinalReporter.batch_size|]; lia. }
  unfold slice, FinalReporter.batch_size in *.
  rewrite length_firstn, length_skipn. lia.
Qed.

Lemma calls_are_batches (ssm_client : FinalReporter.SsmClient) (bs : list (list string)) :
  forall calls summary,
    fst (fold_left (FinalReporter.batch_step ssm_client) bs (calls, summary)) = calls ++ bs.
Proof.
  induction bs as [|b bs IH]; intros calls summary; cbn [fold_left].
  - now rewrite app_nil_r.
  - unfold FinalReporter.batch_step at 2.
    destruct (FinalReporter.describe_instance_patch_states ssm_client _ b);
      rewrite IH, <- app_assoc; reflexivity.
Qed.

Lemma detail_calls (ssm : PatchComplianceFinal.SsmClient)
    (im : dict PatchComplianceFinal.InstanceInfo) (ks : list string) :
  forall calls rows,
    fst (fold_left (PatchComplianceFinal.patch_detail_step ssm im) ks (calls, rows))
    = calls ++ map (fun iid => [iid]) (filter (PatchComplianceFinal.is_processed im) ks).
Proof.
  induction ks as [|k ks IH]; intros calls rows; cbn [fold_left filter].
  - now rewrite app_nil_r.
  - unfold PatchComplianceFinal.patch_detail_step at 2.
    destruct (PatchComplianceFinal.is_processed im k).
    + destruct (PatchComplianceFinal.describe_instance_patch_states ssm _ [k]) as [[|s0 ss]|e];
        rewrite IH, <- app_assoc; reflexivity.
    + apply IH.
Qed.

End Batching.

(** C5 (as amended).  The Lambda reporter's collector issues its patch-state
    calls in batches of at most 50 identifiers: the batches, concatenated, are
    the identifiers in order, none is empty, and there are ceil(n/50) of them
    whether or not calls fail.  The dashboard's collector issues one call,
    with a single identifier, per instance that has a compliance summary. *)
Theorem patch_state_calls_are_batches_of_fifty :
  (forall (session : FinalReporter.Session) (ssm_client : FinalReporter.SsmClient)
          (ids : list string),
      FinalReporter.client_ssm session = Ok ssm_client ->
      let calls := FinalReporter.patch_state_calls session ids in
      List.concat calls = ids
      /\ Forall (fun batch => (1 <= List.length batch <= 50)%nat) calls
      /\ List.length calls = ((List.length ids + 49) / 50)%nat)
  /\ (forall (account_name region : string) (c : PatchComplianceFinal.Clients),
        let r := PatchComplianceFinal.run_unit account_name region c in
        PatchComplianceFinal.run_patch_state_calls r
        = map (fun iid => [iid])
            (filter (PatchComplianceFinal.is_processed (PatchComplianceFinal.run_instance_map r))
               (keys (PatchComplianceFinal.run_instance_map r)))).
Proof.
  split.
  - intros session ssm_client ids Hssm calls. subst calls.
    unfold FinalReporter.patch_state_calls, FinalReporter.run_patch_compliance_data.
    destruct ids as [|i ids].
    + cbn. repeat split. constructor.
    + rewrite Hssm, Batching.calls_are_batches. cbn [app].
      split; [apply Batching.batches_concat|].
      split; [apply Batching.batches_sizes|apply Batching.batches_length].
  - intros account_name region c r. subst r. unfold PatchComplianceFinal.run_unit.
    destruct (PatchComplianceFinal.get_ssm c) as [ssm|];
      [destruct (PatchComplianceFinal.get_ec2 c) as [ec2|]|]; try reflexivity.
    destruct (PatchComplianceFinal.collect_summaries _ _ _ _) as [im rows].
    pose proof (Batching.detail_calls ssm im (keys im) [] rows) as Hcalls.
    unfold PatchComplianceFinal.collect_patch_details.
    destruct (fold_left _ (keys im) ([], rows)) as [calls rows'].
    cbn [fst app] in Hcalls.
    cbn [PatchComplianceFinal.run_patch_state_calls PatchComplianceFinal.run_instance_map].
    exact Hcalls.
Qed.

(** 250 identifiers: five calls. *)
Lemma patch_state_calls_are_batches_of_fifty_witness :
  List.length (FinalReporter.patch_state_calls Scenarios.quiet_session
                 (Scenarios.identifiers 250)) = 5%nat.
Proof.
  destruct patch_state_calls_are_batches_of_fifty as [Hbatches _].
  destruct (Hbatches Scenarios.quiet_session _ (Scenarios.identifiers 250) eq_refl)
    as (_ & _ & Hlen).
  exact Hlen.
Defined.

(** C5 as stated fails: 250 identifiers take five calls of 50, not three of
    100, 100 and 50; and the dashboard's collector calls once per instance. *)
Lemma two_hundred_fifty_identifiers_take_five_calls :
  map (@List.length string)
    (FinalReporter.patch_state_calls Scenarios.quiet_session (Scenarios.identifiers 250))
  = [50; 50; 50; 50; 50]%nat
  /\ PatchComplianceFinal.run_patch_state_calls
       (PatchComplianceFinal.run_unit "acct" "us-east-1" Scenarios.example_unit)
     = [["i-aaa"]; ["i-ccc"]].
Proof.
  split; vm_compute; reflexivity.
Qed.

(** ** Clamped counts *)

Module NonNegative.
Import Clamped.

Lemma max0_nonneg (x : Z) : 0 <= max0 x.
Proof. unfold max0. lia. Qed.

Ltac clamp :=
  repeat match goal with
         | |- context [max0 ?x] => generalize (max0_nonneg x); generalize (max0 x); intros
         end.

(** *** Explorer reporter *)

Lemma explorer_add_state (d : ExplorerReporter.Details) (state : InstancePatchState) :
  details_nonneg d -> details_nonneg (ExplorerReporter.add_state d state).
Proof.
  unfold details_nonneg, ExplorerReporter.add_state. cbn. intros H. clamp. lia.
Qed.

Lemma explorer_batch_step (ssm_client : ExplorerReporter.SsmClient)
    (st : list (list string) * ExplorerReporter.Details) (batch : list string) :
  details_nonneg (snd st) ->
  details_nonneg (snd (ExplorerReporter.batch_step ssm_client st batch)).
Proof.
  destruct st as [calls d]. cbn [snd]. intros H. unfold ExplorerReporter.batch_step.
  destruct (ExplorerReporter.describe_instance_patch_states ssm_client _ batch) as [states|e];
    cbn [snd]; [|exact H].
  apply (fold_left_invariant details_nonneg); [|exact H].
  intros s a. apply explorer_add_state.
Qed.

Lemma explorer_empty : details_nonneg ExplorerReporter.get_empty_noncompliance_counts.
Proof. unfold details_nonneg. cbn. lia. Qed.

Lemma explorer_details (session : ExplorerReporter.Session) :
  details_nonneg (ExplorerReporter.get_detailed_noncompliance_counts_from_patch_states session).
Proof.
  unfold ExplorerReporter.get_detailed_noncompliance_counts_from_patch_states,
    ExplorerReporter.run_detailed_noncompliance_counts.
  destruct (ExplorerReporter.client_ssm session) as [ssm_client|e]; [|apply explorer_empty].
  destruct (failure _); [apply explorer_empty|].
  destruct (ExplorerReporter.online_ids _) as [|i managed]; [apply explorer_empty|].
  apply (fold_left_invariant (fun st => details_nonneg (snd st))); [|apply explorer_empty].
  intros s a. apply explorer_batch_step.
Qed.

Lemma fallback_not_managed (session : ExplorerReporter.Session) :
  0 <= ExplorerReporter.not_managed_instances
         (ExplorerReporter.get_instance_management_summary_fallback session).
Proof.
  unfold ExplorerReporter.get_instance_management_summary_fallback.
  destruct (ExplorerReporter.client_ssm session); cbn; [apply max0_nonneg|lia].
Qed.

Lemma explorer_not_managed (session : ExplorerReporter.Session) :
  0 <= ExplorerReporter.not_managed_instances
         (ExplorerReporter.get_instance_management_summary_from_explorer session).
Proof.
  unfold ExplorerReporter.get_instance_management_summary_from_explorer.
  destruct (ExplorerReporter.client_ssm session) as [ssm_client|e] eqn:Hc.
  - destruct (ExplorerReporter.get_ops_summary ssm_client) as [entities|e].
    + destruct (ExplorerReporter.count_managed entities) as [managed_count|e].
      * cbv zeta. destruct (_ && _); [apply fallback_not_managed|].
        cbn [ExplorerReporter.not_managed_instances]. apply max0_nonneg.
      * apply fallback_not_managed.
    + apply fallback_not_managed.
  - apply fallback_not_managed.
Qed.

Lemma explorer_add_region (org region_data : ExplorerReporter.Report) :
  explorer_ok org -> explorer_ok region_data ->
  explorer_ok (ExplorerReporter.add_region org region_data).
Proof.
  unfold explorer_ok, details_nonneg, ExplorerReporter.add_region. cbn. lia.
Qed.

Lemma explorer_region_step (assume_role : string -> string -> option ExplorerReporter.Session)
    (account_id : string) (st : dict ExplorerReporter.Report * ExplorerReporter.Report)
    (region : string) :
  explorer_ok (snd st) ->
  explorer_ok (snd (ExplorerReporter.region_step assume_role account_id st region)).
Proof.
  destruct st as [rs org]. cbn [snd]. intros H. unfold ExplorerReporter.region_step.
  destruct (assume_role account_id region) as [session|]; [|exact H].
  destruct (_ =? 0); [exact H|]. cbn [snd].
  apply explorer_add_region; [exact H|]. split; cbn.
  - apply explorer_details.
  - apply explorer_not_managed.
Qed.

Lemma explorer_collect (assume_role : string -> string -> option ExplorerReporter.Session)
    (accts : list (string * string)) :
  explorer_ok (ExplorerReporter.organization_summary
                 (ExplorerReporter.collect_compliance_data assume_role accts)).
Proof.
  unfold ExplorerReporter.collect_compliance_data.
  apply (fold_left_invariant (fun a => explorer_ok (ExplorerReporter.organization_summary a))).
  - intros a [account_id account_name] Ha. unfold ExplorerReporter.account_step.
    pose proof (fold_left_invariant (fun st => explorer_ok (snd st))
                  (ExplorerReporter.region_step assume_role account_id)
                  ExplorerReporter.regions
                  (fun s r => explorer_region_step assume_role account_id s r)
                  ([], ExplorerReporter.organization_summary a) Ha) as H.
    destruct (fold_left _ ExplorerReporter.regions _) as [rs org]. exact H.
  - unfold explorer_ok, details_nonneg. cbn. lia.
Qed.

(** *** Dashboard-format reporter *)

Lemma final_add_state (s : FinalReporter.Summary) (state : InstancePatchState) :
  summary_nonneg s -> summary_nonneg (FinalReporter.add_state s state).
Proof.
  unfold summary_nonneg, FinalReporter.add_state. cbn. intros H.
  destruct (_ && _); clamp; lia.
Qed.

Lemma final_empty (total : Z) : summary_nonneg (FinalReporter.empty_summary total).
Proof. unfold summary_nonneg. cbn. lia. Qed.

Lemma final_patch_compliance (session : FinalReporter.Session) (ids : list string) :
  summary_nonneg (FinalReporter.get_patch_compliance_data session ids).
Proof.
  unfold FinalReporter.get_patch_compliance_data, FinalReporter.run_patch_compliance_data.
  destruct ids as [|i ids]; [apply final_empty|].
  destruct (FinalReporter.client_ssm session) as [ssm_client|e]; [|apply final_empty].
  apply (fold_left_invariant (fun st => summary_nonneg (snd st))); [|apply final_empty].
  intros [calls s] batch H. cbn [snd] in H. unfold FinalReporter.batch_step.
  destruct (FinalReporter.describe_instance_patch_states ssm_client _ batch) as [states|e];
    cbn [snd]; [|exact H].
  apply (fold_left_invariant summary_nonneg); [|exact H].
  intros s' a. apply final_add_state.
Qed.

Lemma final_region_step (assume_role : string -> string -> option FinalReporter.Session)
    (account_id : string) (st : dict FinalReporter.RegionData * FinalReporter.Summary * Z * Z)
    (region : string) :
  summary_nonneg (snd (fst (fst st))) ->
  summary_nonneg (snd (fst (fst (FinalReporter.region_step assume_role account_id st region)))).
Proof.
  destruct st as [[[rs org] t] u]. cbn [fst snd]. intros H.
  unfold FinalReporter.region_step.
  destruct (assume_role account_id region) as [session|]; [|exact H].
  destruct (FinalReporter.get_ec2_instances session) as [|i ec2_instances]; [exact H|].
  cbn [fst snd].
  pose proof (final_patch_compliance session
                (filter (fun inst => existsb (String.eqb inst) (i :: ec2_instances))
                   (FinalReporter.get_ssm_managed_instances session))) as Hp.
  revert Hp. generalize (FinalReporter.get_patch_compliance_data session
                (filter (fun inst => existsb (String.eqb inst) (i :: ec2_instances))
                   (FinalReporter.get_ssm_managed_instances session))).
  intros p Hp. unfold summary_nonneg in *. cbn. lia.
Qed.

Lemma final_collect (assume_role : string -> string -> option FinalReporter.Session)
    (accts : list (string * string)) :
  summary_nonneg (FinalReporter.aws_dashboard_summary
                    (FinalReporter.collect_compliance_data assume_role accts)).
Proof.
  unfold FinalReporter.collect_compliance_data.
  apply (fold_left_invariant (fun a => summary_nonneg (FinalReporter.aws_dashboard_summary a))).
  - intros a [account_id account_name] Ha. unfold FinalReporter.account_step.
    pose proof (fold_left_invariant (fun st => summary_nonneg (snd (fst (fst st))))
                  (FinalReporter.region_step assume_role account_id)
                  FinalReporter.regions
                  (fun s r => final_region_step assume_role account_id s r)
                  ([], FinalReporter.aws_dashboard_summary a,
                   FinalReporter.ctx_total_ec2_instances a,
                   FinalReporter.ctx_unmanaged_ec2_instances a) Ha) as H.
    destruct (fold_left _ FinalReporter.regions _) as [[[rs org] t] u]. exact H.
  - apply final_empty.
Qed.

End NonNegative.

(** C10 (as amended).  Both reporters clamp the six per-category patch counts
    of every patch-state record before summing them, and the Explorer-based
    reporter computes the not-managed count as max(0, total - managed); so,
    whatever the provider returns, the six aggregated patch counts and the
    not-managed count are non-negative, per region and in the organisation
    totals (and so are the compliant and non-compliant instance tallies of
    the dashboard-format reporter). *)
Theorem clamped_counts_are_nonnegative :
  (forall (assume_role : string -> string -> option ExplorerReporter.Session)
          (accts : list (string * string)),
      let org := ExplorerReporter.organization_summary
                   (ExplorerReporter.collect_compliance_data assume_role accts) in
      Clamped.details_nonneg (ExplorerReporter.details org)
      /\ 0 <= ExplorerReporter.not_managed_instances (ExplorerReporter.management org))
  /\ (forall session : ExplorerReporter.Session,
        Clamped.details_nonneg
          (ExplorerReporter.get_detailed_noncompliance_counts_from_patch_states session)
        /\ 0 <= ExplorerReporter.not_managed_instances
                  (ExplorerReporter.get_instance_management_summary_from_explorer session))
  /\ (forall (assume_role : string -> string -> option FinalReporter.Session)
             (accts : list (string * string)),
        Clamped.summary_nonneg
          (FinalReporter.aws_dashboard_summary
             (FinalReporter.collect_compliance_data assume_role accts)))
  /\ (forall (session : FinalReporter.Session) (ids : list string),
        Clamped.summary_nonneg (FinalReporter.get_patch_compliance_data session ids)).
Proof.
  split; [|split; [|split]].
  - intros assume_role accts org. apply NonNegative.explorer_collect.
  - intros session. split.
    + apply NonNegative.explorer_details.
    + apply NonNegative.explorer_not_managed.
  - apply NonNegative.final_collect.
  - apply NonNegative.final_patch_compliance.
Qed.

(** C10 as stated fails: the managed-instance count of the Explorer-based
    reporter is the unclamped sum of the Online counts, and the unmanaged
    count of the dashboard-format reporter is an unclamped difference. *)
Lemma unclamped_counts_can_be_negative :
  ExplorerReporter.managed_instances
    (ExplorerReporter.management
       (ExplorerReporter.organization_summary
          (ExplorerReporter.collect_compliance_data
             (fun _ _ => Some Scenarios.negative_online_count) [("111111111111", "prod")])))
  = -6
  /\ FinalReporter.ctx_unmanaged_ec2_instances
       (FinalReporter.collect_compliance_data
          (fun _ _ => Some Scenarios.registry_lists_twice) [("111111111111", "prod")])
     = -2.
Proof.
  split; vm_compute; reflexivity.
Qed.

(** ** The instance rows of a unit *)

Module Reconcile.
Import PatchComplianceFinal Views DictFacts.

(** *** The inventory *)

Lemma collect_instances_flat (pgs : list (list Reservation)) :
  collect_instances pgs = fold_left record_instance (List.concat (List.concat pgs)) [].
Proof.
  unfold collect_instances.
  rewrite <- (fold_left_concat record_instance (List.concat pgs) []).
  now rewrite (fold_left_concat (fun m res => fold_left record_instance res m)).
Qed.

Lemma inventory_nodup (pgs : list (list Reservation)) : NoDup (keys (collect_instances pgs)).
Proof.
  rewrite collect_instances_flat.
  apply (fold_left_invariant (fun m : dict InstanceInfo => NoDup (keys m))).
  - intros m inst Hm. now apply nodup_set.
  - constructor.
Qed.

Lemma inventory_fresh (pgs : list (list Reservation)) (k : string) (i : InstanceInfo) :
  dict_get (collect_instances pgs) k = Some i -> processed i = false /\ ssm_managed i = false.
Proof.
  rewrite collect_instances_flat. revert k i.
  apply (fold_left_invariant
           (fun m : dict InstanceInfo =>
              forall k i, dict_get m k = Some i -> processed i = false /\ ssm_managed i = false)).
  - intros m inst Hm k i. unfold record_instance. rewrite get_set.
    destruct (String.eqb (InstanceId inst) k).
    + intros H. injection H as <-. now split.
    + apply Hm.
  - intros k i H. discriminate.
Qed.

(** *** The registry pass *)

Lemma record_managed_get (m : dict InstanceInfo) (inst : InstanceInformation) (k : string) :
  dict_get (record_managed m inst) k
  = option_map (fun i => touch_managed k i inst) (dict_get m k).
Proof.
  unfold record_managed, touch_managed, dict_mem.
  destruct (dict_get m (info_InstanceId inst)) as [i0|] eqn:H0.
  - rewrite get_update. destruct (String.eqb (info_InstanceId inst) k) eqn:He.
    + apply String.eqb_eq in He. subst k. rewrite H0. reflexivity.
    + now destruct (dict_get m k).
  - destruct (String.eqb (info_InstanceId inst) k) eqn:He.
    + apply String.eqb_eq in He. subst k. now rewrite H0.
    + now destruct (dict_get m k).
Qed.

Lemma record_managed_keys (m : dict InstanceInfo) (inst : InstanceInformation) :
  keys (record_managed m inst) = keys m.
Proof.
  unfold record_managed. destruct (dict_mem m _); [apply keys_update|reflexivity].
Qed.

Lemma managed_get (l : list InstanceInformation) :
  forall (m : dict InstanceInfo) (k : string),
    dict_get (fold_left record_managed l m) k
    = option_map (fun i => fold_left (touch_managed k) l i) (dict_get m k).
Proof.
  induction l as [|inst l IH]; intros m k; cbn [fold_left].
  - now destruct (dict_get m k).
  - rewrite IH, record_managed_get. now destruct (dict_get m k).
Qed.

Lemma managed_keys (l : list InstanceInformation) (m : dict InstanceInfo) :
  keys (fold_left record_managed l m) = keys m.
Proof.
  revert m. induction l as [|inst l IH]; intros m; cbn [fold_left]; [reflexivity|].
  now rewrite IH, record_managed_keys.
Qed.

Lemma touched_managed (k : string) (l : list InstanceInformation) :
  forall i,
    processed (fold_left (touch_managed k) l i) = processed i
    /\ ssm_managed (fold_left (touch_managed k) l i)
       = ssm_managed i || mem_str k (map info_InstanceId l).
Proof.
  induction l as [|inst l IH]; intros i; cbn [fold_left map mem_str existsb].
  - now rewrite orb_false_r.
  - destruct (IH (touch_managed k i inst)) as [Hp Hm]. rewrite Hp, Hm.
    unfold touch_managed, mem_str. rewrite (String.eqb_sym k).
    destruct (String.eqb (info_InstanceId inst) k); cbn.
    + split; [reflexivity|]. now rewrite orb_true_r.
    + now split.
Qed.

(** *** The compliance-summary pass *)

Lemma summary_row_touch (account_name region : string) (s s' : ResourceComplianceSummaryItem)
    (k : string) (i : InstanceInfo) :
  summary_row account_name region s (touch_summary k i s') = summary_row account_name region s i.
Proof.
  unfold touch_summary. now destruct (String.eqb _ k).
Qed.

Lemma record_summary_get (account_name region : string) (m : dict InstanceInfo)
    (rows : list InstanceRow) (s : ResourceComplianceSummaryItem) (k : string) :
  dict_get (fst (record_summary account_name region (m, rows) s)) k
  = option_map (fun i => touch_summary k i s) (dict_get m k).
Proof.
  unfold record_summary, touch_summary.
  destruct (dict_get m (get_or "" (ResourceId s))) as [i0|] eqn:H0; cbn [fst].
  - rewrite get_update. destruct (String.eqb (get_or "" (ResourceId s)) k) eqn:He.
    + apply String.eqb_eq in He. subst k. rewrite H0. reflexivity.
    + now destruct (dict_get m k).
  - destruct (String.eqb (get_or "" (ResourceId s)) k) eqn:He.
    + apply String.eqb_eq in He. subst k. now rewrite H0.
    + now destruct (dict_get m k).
Qed.

Lemma record_summary_keys (account_name region : string) (m : dict InstanceInfo)
    (rows : list InstanceRow) (s : ResourceComplianceSummaryItem) :
  keys (fst (record_summary account_name region (m, rows) s)) = keys m.
Proof.
  unfold record_summary. destruct (dict_get m _); cbn [fst]; [apply keys_update|reflexivity].
Qed.

Lemma record_summary_rows (account_name region : string) (m : dict InstanceInfo)
    (rows : list InstanceRow) (s : ResourceComplianceSummaryItem) :
  snd (record_summary account_name region (m, rows) s)
  = rows ++ summary_rows account_name region m [s].
Proof.
  unfold record_summary, summary_rows. cbn [flat_map].
  destruct (dict_get m _); cbn [snd app]; now rewrite ?app_nil_r.
Qed.

Lemma summary_rows_touch (account_name region : string) (m m' : dict InstanceInfo)
    (s' : ResourceComplianceSummaryItem) (l : list ResourceComplianceSummaryItem) :
  (forall k, dict_get m' k = option_map (fun i => touch_summary k i s') (dict_get m k)) ->
  summary_rows account_name region m' l = summary_rows account_name region m l.
Proof.
  intros H. unfold summary_rows. apply flat_map_ext. intros s. rewrite H.
  destruct (dict_get m _); cbn [option_map]; [|reflexivity].
  now rewrite summary_row_touch.
Qed.

Lemma summaries_pass (account_name region : string) (l : list ResourceComplianceSummaryItem) :
  forall (m : dict InstanceInfo) (rows : list InstanceRow),
    let st := fold_left (record_summary account_name region) l (m, rows) in
    keys (fst st) = keys m
    /\ (forall k, dict_get (fst st) k
                  = option_map (fun i => fold_left (touch_summary k) l i) (dict_get m k))
    /\ snd st = rows ++ summary_rows account_name region m l.
Proof.
  induction l as [|s l IH]; intros m rows; cbn [fold_left].
  - cbv zeta. cbn [fst snd]. split; [reflexivity|]. split.
    + intros k. now destruct (dict_get m k).
    + unfold summary_rows. cbn. now rewrite app_nil_r.
  - pose proof (record_summary_get account_name region m rows s) as Hg.
    pose proof (record_summary_keys account_name region m rows s) as Hk.
    pose proof (record_summary_rows account_name region m rows s) as Hr.
    destruct (record_summary account_name region (m, rows) s) as [m' rows'].
    cbn [fst snd] in Hg, Hk, Hr.
    destruct (IH m' rows') as (IHk & IHg & IHr). cbv zeta.
    split; [now rewrite IHk|]. split.
    + intros k. rewrite IHg, Hg. now destruct (dict_get m k).
    + rewrite IHr, Hr, <- app_assoc. f_equal.
      rewrite (summary_rows_touch account_name region m m' s l Hg).
      unfold summary_rows. cbn [flat_map]. now rewrite app_nil_r.
Qed.

Lemma touched_summary (k : string) (l : list ResourceComplianceSummaryItem) :
  forall i,
    ssm_managed (fold_left (touch_summary k) l i) = ssm_managed i
    /\ processed (fold_left (touch_summary k) l i)
       = processed i || mem_str k (map (fun s => get_or "" (ResourceId s)) l).
Proof.
  induction l as [|s l IH]; intros i; cbn [fold_left map mem_str existsb].
  - now rewrite orb_false_r.
  - destruct (IH (touch_summary k i s)) as [Hm Hp]. rewrite Hp, Hm.
    unfold touch_summary, mem_str. rewrite (String.eqb_sym k).
    destruct (String.eqb (get_or "" (ResourceId s)) k); cbn.
    + split; [reflexivity|]. now rewrite orb_true_r.
    + now split.
Qed.

(** *** The patch-detail pass *)

Lemma add_patch_details_strip (iid : string) (st : InstancePatchState) (rows : list InstanceRow) :
  map strip_counts (add_patch_details iid st rows) = map strip_counts rows.
Proof.
  induction rows as [|r rows IH]; cbn [add_patch_details map]; [reflexivity|].
  destruct (String.eqb (Instance_ID r) iid); cbn [map]; [reflexivity|now rewrite IH].
Qed.

Lemma add_patch_details_other (iid iid' : string) (st : InstancePatchState)
    (rows : list InstanceRow) :
  iid' <> iid -> rows_of iid (add_patch_details iid' st rows) = rows_of iid rows.
Proof.
  intros Hne. unfold rows_of.
  induction rows as [|r rows IH]; cbn [add_patch_details filter]; [reflexivity|].
  destruct (String.eqb (Instance_ID r) iid') eqn:He; cbn [filter Instance_ID].
  - apply String.eqb_eq in He. rewrite He.
    apply String.eqb_neq in Hne. now rewrite Hne.
  - now rewrite IH.
Qed.

Lemma details_pass (ssm : SsmClient) (im : dict InstanceInfo) (ks : list string) :
  forall calls rows,
    let st := fold_left (patch_detail_step ssm im) ks (calls, rows) in
    map strip_counts (snd st) = map strip_counts rows
    /\ (forall iid, no_patch_state ssm iid -> rows_of iid (snd st) = rows_of iid rows).
Proof.
  induction ks as [|k ks IH]; intros calls rows; cbn [fold_left].
  - cbv zeta. cbn [snd]. now split.
  - unfold patch_detail_step at 2 4.
    destruct (is_processed im k); [|apply IH].
    destruct (describe_instance_patch_states ssm (List.length calls) [k])
      as [[|s0 ss]|e] eqn:Hcall; try apply IH.
    destruct (IH (calls ++ [[k]]) (add_patch_details k s0 rows)) as [Hs Hr].
    cbv zeta. split.
    + now rewrite Hs, add_patch_details_strip.
    + intros iid Hnone. rewrite (Hr iid Hnone).
      apply add_patch_details_other. intros ->.
      destruct (Hnone (List.length calls)) as [H|[e H]]; congruence.
Qed.

(** *** The unmanaged rows *)

Lemma unmanaged_ids (account_name region : string) (m : dict InstanceInfo) :
  map Instance_ID (flat_map (unmanaged_row account_name region) m)
  = map fst (filter (fun kv => negb (processed (snd kv)) && negb (ssm_managed (snd kv))) m).
Proof.
  induction m as [|[k i] m IH]; cbn [flat_map filter map snd]; [reflexivity|].
  rewrite map_app, IH. unfold unmanaged_row at 1.
  now destruct (negb (processed i) && negb (ssm_managed i)).
Qed.

Lemma unmanaged_rows_of_absent (account_name region iid : string) (m : dict InstanceInfo) :
  ~ In iid (keys m) -> rows_of iid (flat_map (unmanaged_row account_name region) m) = [].
Proof.
  unfold rows_of, keys.
  induction m as [|[k i] m IH]; cbn [flat_map map fst In]; intros Hout; [reflexivity|].
  rewrite filter_app, IH by tauto. rewrite app_nil_r.
  unfold unmanaged_row. destruct (negb (processed i) && negb (ssm_managed i)); [|reflexivity].
  cbn [filter Instance_ID].
  destruct (String.eqb k iid) eqn:He; [|reflexivity].
  apply String.eqb_eq in He. tauto.
Qed.

Lemma unmanaged_rows_of (account_name region iid : string) (m : dict InstanceInfo)
    (info : InstanceInfo) :
  NoDup (keys m) -> dict_get m iid = Some info ->
  rows_of iid (flat_map (unmanaged_row account_name region) m)
  = unmanaged_row account_name region (iid, info).
Proof.
  induction m as [|[k i] m IH]; cbn [flat_map dict_get]; intros Hnd Hget; [discriminate|].
  unfold keys in Hnd. cbn [map fst] in Hnd. inversion Hnd as [|? ? Hout Hnd']. subst.
  unfold rows_of in *. rewrite filter_app.
  destruct (String.eqb k iid) eqn:He.
  - apply String.eqb_eq in He. subst k. injection Hget as ->.
    fold (rows_of iid (flat_map (unmanaged_row account_name region) m)).
    rewrite (unmanaged_rows_of_absent account_name region iid m Hout), app_nil_r.
    unfold unmanaged_row. destruct (negb (processed info) && negb (ssm_managed info));
      [|reflexivity].
    cbn [filter Instance_ID]. now rewrite String.eqb_refl.
  - rewrite (IH Hnd' Hget).
    replace (filter _ (unmanaged_row account_name region (k, i))) with (@nil InstanceRow);
      [reflexivity|].
    unfold unmanaged_row. destruct (negb (processed i) && negb (ssm_managed i)); [|reflexivity].
    cbn [filter Instance_ID]. now rewrite He.
Qed.

Lemma summary_rows_ids (account_name region : string) (m : dict InstanceInfo)
    (l : list ResourceComplianceSummaryItem) :
  map Instance_ID (summary_rows account_name region m l)
  = filter (dict_mem m) (map (fun s => get_or "" (ResourceId s)) l).
Proof.
  unfold summary_rows, dict_mem.
  induction l as [|s l IH]; cbn [flat_map map filter]; [reflexivity|].
  rewrite map_app, IH. now destruct (dict_get m _).
Qed.

Lemma strip_keeps_ids (rows : list InstanceRow) :
  map Instance_ID (map strip_counts rows) = map Instance_ID rows.
Proof.
  rewrite map_map. now apply map_ext.
Qed.

Lemma strip_summary_rows (account_name region : string) (m : dict InstanceInfo)
    (l : list ResourceComplianceSummaryItem) :
  map strip_counts (summary_rows account_name region m l) = summary_rows account_name region m l.
Proof.
  unfold summary_rows. induction l as [|s l IH]; cbn [flat_map map]; [reflexivity|].
  rewrite map_app, IH. now destruct (dict_get m _).
Qed.

(** *** The whole unit *)

(** The rows of a unit are the summary rows, patch counts apart, followed by
    the unmanaged rows of the final [instance_map], whose entries are those
    of the inventory with the flags the registry and the summaries set. *)
Lemma unit_rows (account_name region : string) (c : Clients) (ssm : SsmClient)
    (ec2 : Ec2Client) :
  get_ssm c = Some ssm -> get_ec2 c = Some ec2 ->
  let r := run_unit account_name region c in
  exists (m2 : dict InstanceInfo) (rows4 : list InstanceRow),
    run_instances r = rows4 ++ flat_map (unmanaged_row account_name region) (run_instance_map r)
    /\ keys (run_instance_map r) = keys (inventory c)
    /\ NoDup (keys (inventory c))
    /\ (forall k, dict_mem m2 k = dict_mem (inventory c) k)
    /\ (forall k i, dict_get m2 k = Some i -> ssm_managed i = mem_str k (registry c))
    /\ (forall k i, dict_get (run_instance_map r) k = Some i ->
          ssm_managed i = mem_str k (registry c)
          /\ processed i = mem_str k (summary_ids c))
    /\ map strip_counts rows4 = summary_rows account_name region m2 (summaries c)
    /\ (forall iid, no_patch_state ssm iid ->
          rows_of iid rows4 = rows_of iid (summary_rows account_name region m2 (summaries c))).
Proof.
  intros Hssm Hec2. unfold run_unit, inventory, registry, summary_ids, summaries.
  rewrite Hssm, Hec2.
  set (inv := collect_instances (pages (describe_instances ec2))).
  set (m2 := collect_managed (pages (describe_instance_information ssm)) inv).
  unfold collect_summaries. rewrite fold_left_concat.
  set (sums := List.concat (pages (list_resource_compliance_summaries ssm))).
  destruct (summaries_pass account_name region sums m2 []) as (Hk3 & Hg3 & Hr3).
  destruct (fold_left (record_summary account_name region) sums (m2, [])) as [m3 rows3].
  cbn [fst snd app] in Hk3, Hg3, Hr3.
  unfold collect_patch_details.
  destruct (details_pass ssm m3 (keys m3) [] rows3) as (Hs4 & Hr4).
  destruct (fold_left (patch_detail_step ssm m3) (keys m3) ([], rows3)) as [calls rows4].
  cbn [snd] in Hs4, Hr4. cbv zeta.
  cbn [run_instances run_instance_map].
  assert (Hk2 : keys m2 = keys inv).
  { unfold m2, collect_managed. rewrite fold_left_concat. apply managed_keys. }
  assert (Hg2 : forall k i, dict_get m2 k = Some i ->
                  processed i = false
                  /\ ssm_managed i
                     = mem_str k (map info_InstanceId
                                    (List.concat (pages (describe_instance_information ssm))))).
  { intros k i. unfold m2, collect_managed. rewrite fold_left_concat, managed_get.
    destruct (dict_get inv k) as [i0|] eqn:H0; cbn [option_map]; [|discriminate].
    intros H. injection H as <-.
    destruct (inventory_fresh _ _ _ H0) as [Hp0 Hm0].
    destruct (touched_managed k (List.concat (pages (describe_instance_information ssm))) i0)
      as [Hp Hm].
    rewrite Hp, Hm, Hp0, Hm0. now split. }
  exists m2, rows4.
  split; [|split; [|split; [|split; [|split; [|split; [|split]]]]]].
  - unfold add_unmanaged. apply fold_left_append.
  - now rewrite Hk3.
  - apply inventory_nodup.
  - intros k. destruct (dict_mem m2 k) eqn:H2.
    + apply mem_keys in H2. rewrite Hk2 in H2. apply mem_keys in H2. now rewrite H2.
    + destruct (dict_mem inv k) eqn:H1; [|reflexivity].
      apply mem_keys in H1. rewrite <- Hk2 in H1. apply mem_keys in H1. congruence.
  - intros k i H. now apply Hg2.
  - intros k i. rewrite Hg3.
    destruct (dict_get m2 k) as [i2|] eqn:H2; cbn [option_map]; [|discriminate].
    intros H. injection H as <-.
    destruct (Hg2 k i2 H2) as [Hp2 Hm2].
    destruct (touched_summary k sums i2) as [Hm Hp].
    rewrite Hm, Hp, Hp2, Hm2. now split.
  - rewrite Hs4, Hr3. apply strip_summary_rows.
  - intros iid Hnone. rewrite (Hr4 iid Hnone), Hr3. reflexivity.
Qed.

End Reconcile.

Module Completeness.
Import PatchComplianceFinal Views DictFacts.

Lemma mem_str_out (k : string) (l : list string) : ~ In k l -> mem_str k l = false.
Proof.
  intros Hout. unfold mem_str. destruct (existsb (String.eqb k) l) eqn:E; [|reflexivity].
  apply mem_str_in in E. contradiction.
Qed.

Lemma summary_ids_of_summaries (c : Clients) :
  summary_ids c = map (fun s => get_or "" (ResourceId s)) (summaries c).
Proof.
  unfold summary_ids, summaries. now destruct (get_ssm c).
Qed.

Lemma no_clients_no_inventory (c : Clients) :
  inventory c <> [] -> exists ssm ec2, get_ssm c = Some ssm /\ get_ec2 c = Some ec2.
Proof.
  unfold inventory. destruct (get_ssm c) as [ssm|]; [destruct (get_ec2 c) as [ec2|]|].
  - intros _. now exists ssm, ec2.
  - intros H. now contradiction H.
  - intros H. now contradiction H.
Qed.

Lemma in_inventory_clients (c : Clients) (k : string) :
  In k (keys (inventory c)) -> exists ssm ec2, get_ssm c = Some ssm /\ get_ec2 c = Some ec2.
Proof.
  intros Hin. apply no_clients_no_inventory. intros H. rewrite H in Hin. contradiction.
Qed.

(** The identifiers of the rows, in order. *)
Lemma row_ids (account_name region : string) (c : Clients) :
  map Instance_ID (run_instances (run_unit account_name region c))
  = filter (dict_mem (inventory c)) (summary_ids c)
    ++ filter (fun k => negb (mem_str k (summary_ids c)) && negb (mem_str k (registry c)))
         (keys (inventory c)).
Proof.
  destruct (get_ssm c) as [ssm|] eqn:Hssm; [destruct (get_ec2 c) as [ec2|] eqn:Hec2|].
  - destruct (Reconcile.unit_rows account_name region c ssm ec2 Hssm Hec2)
      as (m2 & rows4 & Hrows & Hkeys & Hnd & Hmem & _ & Hflags & Hstrip & _).
    rewrite Hrows, map_app. f_equal.
    + rewrite <- Reconcile.strip_keeps_ids, Hstrip, Reconcile.summary_rows_ids.
      rewrite summary_ids_of_summaries. apply filter_ext. exact Hmem.
    + rewrite Reconcile.unmanaged_ids.
      rewrite (filter_entries _ (fun v => negb (processed v) && negb (ssm_managed v)))
        by (rewrite Hkeys; exact Hnd).
      rewrite Hkeys. apply filter_ext_in. intros k Hk.
      destruct (dict_get _ k) as [i|] eqn:Hget.
      * destruct (Hflags k i Hget) as [-> ->]. reflexivity.
      * apply get_none in Hget. rewrite Hkeys in Hget. contradiction.
  - unfold run_unit, inventory. rewrite Hssm, Hec2. cbn.
    induction (summary_ids c) as [|s l IH]; [reflexivity|exact IH].
  - unfold run_unit, inventory, summary_ids. rewrite Hssm. reflexivity.
Qed.

Lemma rows_of_absent (iid : string) (rows : list InstanceRow) :
  ~ In iid (map Instance_ID rows) -> rows_of iid rows = [].
Proof.
  unfold rows_of. induction rows as [|r rows IH]; cbn [map In filter]; intros H; [reflexivity|].
  destruct (String.eqb (Instance_ID r) iid) eqn:He.
  - apply String.eqb_eq in He. tauto.
  - apply IH. tauto.
Qed.

Lemma rows_of_strip (iid : string) (rows : list InstanceRow) :
  map strip_counts (rows_of iid rows) = rows_of iid (map strip_counts rows).
Proof.
  unfold rows_of. induction rows as [|r rows IH]; cbn [map filter]; [reflexivity|].
  cbn [strip_counts Instance_ID].
  destruct (String.eqb (Instance_ID r) iid); cbn [map]; now rewrite IH.
Qed.

Lemma rows_of_summary_rows (account_name region iid : string) (m : dict InstanceInfo)
    (info : InstanceInfo) (l : list ResourceComplianceSummaryItem) :
  dict_get m iid = Some info ->
  rows_of iid (summary_rows account_name region m l)
  = map (fun s => summary_row account_name region s info)
      (filter (fun s => String.eqb (get_or "" (ResourceId s)) iid) l).
Proof.
  intros Hget. unfold rows_of, summary_rows.
  induction l as [|s l IH]; cbn [flat_map filter map]; [reflexivity|].
  rewrite filter_app, IH.
  destruct (String.eqb (get_or "" (ResourceId s)) iid) eqn:He.
  - apply String.eqb_eq in He. rewrite He, Hget. cbn [filter summary_row Instance_ID].
    rewrite He, String.eqb_refl. reflexivity.
  - destruct (dict_get m (get_or "" (ResourceId s))); [|reflexivity].
    cbn [filter summary_row Instance_ID app]. now rewrite He.
Qed.

Lemma count_summaries (iid : string) (l : list ResourceComplianceSummaryItem) :
  List.length (filter (fun s => String.eqb (get_or "" (ResourceId s)) iid) l)
  = count_occ string_dec (map (fun s => get_or "" (ResourceId s)) l) iid.
Proof.
  induction l as [|s l IH]; cbn [filter map count_occ]; [reflexivity|].
  destruct (string_dec (get_or "" (ResourceId s)) iid) as [He|Hne].
  - apply String.eqb_eq in He. rewrite He. cbn [List.length]. now rewrite IH.
  - apply String.eqb_neq in Hne. now rewrite Hne.
Qed.

End Completeness.

(** C1 (as amended).  The rows of a unit are one row per compliance-summary
    item whose resource is in the inventory, followed by one row per
    inventory instance that has neither a compliance summary nor a registry
    entry.  So the rows name exactly the instances of the inventory, none
    twice, if and only if no inventory instance has two summary items and
    every registered inventory instance has one; and then the unit emits as
    many rows as the inventory has instances. *)
Theorem instance_rows_cover_the_inventory :
  forall (account_name region : string) (c : PatchComplianceFinal.Clients),
    let rows := PatchComplianceFinal.run_instances
                  (PatchComplianceFinal.run_unit account_name region c) in
    let ids := map PatchComplianceFinal.Instance_ID rows in
    let inv := PatchComplianceFinal.inventory c in
    let sids := PatchComplianceFinal.summary_ids c in
    let reg := PatchComplianceFinal.registry c in
    ids = filter (dict_mem inv) sids
          ++ filter (fun k => negb (Views.mem_str k sids) && negb (Views.mem_str k reg))
               (keys inv)
    /\ ((NoDup (filter (dict_mem inv) sids)
         /\ forall k, In k (keys inv) -> In k reg -> In k sids)
        <-> (NoDup ids /\ forall k, In k (keys inv) <-> In k ids))
    /\ (NoDup (filter (dict_mem inv) sids) ->
        (forall k, In k (keys inv) -> In k reg -> In k sids) ->
        List.length rows = List.length inv).
Proof.
  intros account_name region c rows ids inv sids reg.
  pose proof (Completeness.row_ids account_name region c) as Hids.
  fold rows in Hids. fold ids inv sids reg in Hids.
  assert (Hnd : NoDup (keys inv)).
  { unfold inv, PatchComplianceFinal.inventory.
    destruct (PatchComplianceFinal.get_ssm c); [|constructor].
    destruct (PatchComplianceFinal.get_ec2 c); [|constructor].
    apply Reconcile.inventory_nodup. }
  assert (Hforth : NoDup (filter (dict_mem inv) sids) ->
                   (forall k, In k (keys inv) -> In k reg -> In k sids) ->
                   NoDup ids /\ forall k, In k (keys inv) <-> In k ids).
  { intros Hdistinct Hsummarised. split.
    - rewrite Hids. apply NoDup_app; [exact Hdistinct|now apply NoDup_filter|].
      intros k Ha Hb. apply filter_In in Ha. apply filter_In in Hb.
      destruct Ha as [Ha _]. destruct Hb as [_ Hb].
      apply DictFacts.mem_str_in in Ha. unfold Views.mem_str in Hb. rewrite Ha in Hb.
      discriminate.
    - intros k. rewrite Hids, in_app_iff, !filter_In. split.
      + intros Hk. destruct (Views.mem_str k sids) eqn:Hs.
        * left. split; [now apply DictFacts.mem_str_in|now apply DictFacts.mem_keys].
        * right. split; [exact Hk|]. cbn [negb andb].
          destruct (Views.mem_str k reg) eqn:Hr; [|reflexivity].
          apply DictFacts.mem_str_in in Hr. apply (Hsummarised k Hk) in Hr.
          apply DictFacts.mem_str_in in Hr. unfold Views.mem_str in Hs. congruence.
      + intros [[_ Hk]|[Hk _]]; [now apply DictFacts.mem_keys|exact Hk]. }
  split; [exact Hids|]. split; [split|].
  - intros [Hdistinct Hsummarised]. now apply Hforth.
  - intros [Hrows Hsame]. split.
    + rewrite Hids in Hrows. now apply NoDup_app_remove_r in Hrows.
    + intros k Hk Hreg. apply Hsame in Hk. rewrite Hids in Hk.
      apply in_app_or in Hk. destruct Hk as [Hk|Hk]; apply filter_In in Hk.
      * tauto.
      * destruct Hk as [_ Hk]. apply DictFacts.mem_str_in in Hreg.
        unfold Views.mem_str in Hk. rewrite Hreg, andb_false_r in Hk. discriminate.
  - intros Hdistinct Hsummarised.
    destruct (Hforth Hdistinct Hsummarised) as [Hrows Hsame].
    rewrite <- (length_map PatchComplianceFinal.Instance_ID rows).
    rewrite <- (length_map fst inv). fold (keys inv). fold ids.
    apply Permutation_length. apply NoDup_Permutation; [exact Hrows|exact Hnd|].
    intros k. symmetry. apply Hsame.
Qed.

(** The example unit of the specification: three instances, three rows. *)
Lemma instance_rows_cover_the_inventory_witness :
  List.length (PatchComplianceFinal.run_instances
                 (PatchComplianceFinal.run_unit "111111111111" "us-east-1"
                    Scenarios.example_unit)) = 3%nat.
Proof.
  destruct (instance_rows_cover_the_inventory "111111111111" "us-east-1" Scenarios.example_unit)
    as (_ & _ & H).
  assert (Hdistinct : NoDup ["i-aaa"; "i-ccc"]).
  { constructor; [intros [H1|[]]; discriminate|].
    constructor; [intros []|constructor]. }
  exact (H Hdistinct (fun k _ Hreg => Hreg)).
Defined.

(** C1 as stated fails: a registered instance for which the provider has no
    compliance summary gets no row at all. *)
Lemma registered_instance_without_summary_gets_no_row :
  List.length (PatchComplianceFinal.inventory Scenarios.registered_without_summary) = 1%nat
  /\ PatchComplianceFinal.run_instances
       (PatchComplianceFinal.run_unit "acct" "us-east-1" Scenarios.registered_without_summary)
     = [].
Proof.
  split; vm_compute; reflexivity.
Qed.

(** C3 (as amended).  An inventory instance that is absent from the registry
    and has no compliance summary gets exactly one row, classified UNMANAGED,
    with the four patch counts at zero, whatever patch state the provider
    holds for it. *)
Theorem unregistered_instance_is_unmanaged :
  forall (account_name region : string) (c : PatchComplianceFinal.Clients) (iid : string),
    In iid (keys (PatchComplianceFinal.inventory c)) ->
    ~ In iid (PatchComplianceFinal.registry c) ->
    ~ In iid (PatchComplianceFinal.summary_ids c) ->
    exists r,
      Views.rows_of iid (PatchComplianceFinal.run_instances
                           (PatchComplianceFinal.run_unit account_name region c)) = [r]
      /\ PatchComplianceFinal.Compliance_Status r = "UNMANAGED"
      /\ Views.zero_counts r
      /\ PatchComplianceFinal.Managed r = false.
Proof.
  intros account_name region c iid Hinv Hreg Hsum.
  destruct (Completeness.in_inventory_clients c iid Hinv) as (ssm & ec2 & Hssm & Hec2).
  destruct (Reconcile.unit_rows account_name region c ssm ec2 Hssm Hec2)
    as (m2 & rows4 & Hrows & Hkeys & Hnd & Hmem & _ & Hflags & Hstrip & _).
  rewrite Hrows. unfold Views.rows_of. rewrite filter_app.
  fold (Views.rows_of iid rows4).
  fold (Views.rows_of iid (flat_map (PatchComplianceFinal.unmanaged_row account_name region)
                             (PatchComplianceFinal.run_instance_map
                                (PatchComplianceFinal.run_unit account_name region c)))).
  rewrite (Completeness.rows_of_absent iid rows4).
  - destruct (dict_get (PatchComplianceFinal.run_instance_map
                          (PatchComplianceFinal.run_unit account_name region c)) iid)
      as [i|] eqn:Hget.
    + rewrite (Reconcile.unmanaged_rows_of account_name region iid _ i)
        by (rewrite ?Hkeys; assumption).
      destruct (Hflags iid i Hget) as [Hm Hp].
      rewrite (Completeness.mem_str_out _ _ Hreg) in Hm.
      rewrite (Completeness.mem_str_out _ _ Hsum) in Hp.
      unfold PatchComplianceFinal.unmanaged_row. rewrite Hm, Hp. cbn [negb andb app].
      eexists. split; [reflexivity|]. cbn. unfold Views.zero_counts. cbn. tauto.
    + apply DictFacts.get_none in Hget. rewrite Hkeys in Hget. contradiction.
  - rewrite <- Reconcile.strip_keeps_ids, Hstrip, Reconcile.summary_rows_ids.
    intros Hin. apply filter_In in Hin. destruct Hin as [Hin _].
    rewrite <- Completeness.summary_ids_of_summaries in Hin. contradiction.
Qed.

(** The example unit of the specification: [i-bbb] is unregistered. *)
Lemma unregistered_instance_is_unmanaged_witness :
  exists r,
    Views.rows_of "i-bbb"
      (PatchComplianceFinal.run_instances
         (PatchComplianceFinal.run_unit "111111111111" "us-east-1" Scenarios.example_unit))
    = [r]
    /\ PatchComplianceFinal.Compliance_Status r = "UNMANAGED"
    /\ Views.zero_counts r
    /\ PatchComplianceFinal.Managed r = false.
Proof.
  apply (unregistered_instance_is_unmanaged "111111111111" "us-east-1"
           Scenarios.example_unit "i-bbb").
  - right. now left.
  - intros [H|[H|[]]]; discriminate.
  - intros [H|[H|[]]]; discriminate.
Defined.

(** C3 as stated fails: an unregistered instance for which the provider still
    has a compliance summary and a patch state is reported with that status
    and those counts. *)
Lemma stale_records_override_the_fallback :
  map (fun r => (PatchComplianceFinal.Instance_ID r,
                 PatchComplianceFinal.Compliance_Status r,
                 PatchComplianceFinal.Missing_Patches r,
                 PatchComplianceFinal.Failed_Patches r,
                 PatchComplianceFinal.Managed r))
    (PatchComplianceFinal.run_instances
       (PatchComplianceFinal.run_unit "acct" "us-east-1" Scenarios.stale_records))
  = [("i-b", "COMPLIANT", Some 3, Some 1, false)]
  /\ PatchComplianceFinal.registry Scenarios.stale_records = [].
Proof.
  split; vm_compute; reflexivity.
Qed.

(** C4 (as amended).  An instance present in the inventory and in the
    registry gets one row per compliance-summary item of that instance, and
    none when it has no summary; each row has [Managed] set and carries the
    status of a summary item of the instance; when the provider returns no
    patch-state record for it, the rows have no patch counts. *)
Theorem registered_instance_rows_come_from_summaries :
  forall (account_name region : string) (c : PatchComplianceFinal.Clients) (iid : string),
    In iid (keys (PatchComplianceFinal.inventory c)) ->
    In iid (PatchComplianceFinal.registry c) ->
    let rows := Views.rows_of iid (PatchComplianceFinal.run_instances
                                     (PatchComplianceFinal.run_unit account_name region c)) in
    List.length rows = count_occ string_dec (PatchComplianceFinal.summary_ids c) iid
    /\ (forall r, In r rows ->
          PatchComplianceFinal.Managed r = true
          /\ exists s, In s (Views.summaries c)
                       /\ get_or "" (ResourceId s) = iid
                       /\ PatchComplianceFinal.Compliance_Status r
                          = get_or "NON_COMPLIANT" (Status s))
    /\ (forall ssm, PatchComplianceFinal.get_ssm c = Some ssm ->
          Views.no_patch_state ssm iid ->
          forall r, In r rows -> Views.no_counts r).
Proof.
  intros account_name region c iid Hinv Hreg rows.
  destruct (Completeness.in_inventory_clients c iid Hinv) as (ssm & ec2 & Hssm & Hec2).
  destruct (Reconcile.unit_rows account_name region c ssm ec2 Hssm Hec2)
    as (m2 & rows4 & Hrows & Hkeys & Hnd & Hmem & Hflags2 & Hflags & Hstrip & Hnone).
  assert (Hrows_iid : rows = Views.rows_of iid rows4).
  { unfold rows. rewrite Hrows. unfold Views.rows_of. rewrite filter_app.
    fold (Views.rows_of iid (flat_map (PatchComplianceFinal.unmanaged_row account_name region)
                               (PatchComplianceFinal.run_instance_map
                                  (PatchComplianceFinal.run_unit account_name region c)))).
    destruct (dict_get (PatchComplianceFinal.run_instance_map
                          (PatchComplianceFinal.run_unit account_name region c)) iid)
      as [i|] eqn:Hget.
    - rewrite (Reconcile.unmanaged_rows_of account_name region iid _ i)
        by (rewrite ?Hkeys; assumption).
      destruct (Hflags iid i Hget) as [Hm _].
      apply DictFacts.mem_str_in in Hreg. unfold Views.mem_str in Hm. rewrite Hreg in Hm.
      unfold PatchComplianceFinal.unmanaged_row. rewrite Hm, andb_false_r.
      apply app_nil_r.
    - apply DictFacts.get_none in Hget. rewrite Hkeys in Hget. contradiction. }
  clearbody rows. subst rows.
  destruct (dict_get m2 iid) as [i2|] eqn:Hget2.
  2:{ exfalso. apply DictFacts.mem_keys in Hinv. rewrite <- Hmem in Hinv.
      unfold dict_mem in Hinv. rewrite Hget2 in Hinv. discriminate. }
  assert (Hstripped :
            map Views.strip_counts (Views.rows_of iid rows4)
            = map (fun s => PatchComplianceFinal.summary_row account_name region s i2)
                (filter (fun s => String.eqb (get_or "" (ResourceId s)) iid) (Views.summaries c))).
  { rewrite Completeness.rows_of_strip, Hstrip.
    now apply Completeness.rows_of_summary_rows. }
  split; [|split].
  - rewrite <- (length_map Views.strip_counts), Hstripped, length_map.
    rewrite Completeness.summary_ids_of_summaries. apply Completeness.count_summaries.
  - intros r Hr.
    apply (in_map Views.strip_counts) in Hr. rewrite Hstripped in Hr.
    apply in_map_iff in Hr. destruct Hr as (s & Hs & Hin).
    apply filter_In in Hin. destruct Hin as [Hin He]. apply String.eqb_eq in He.
    split.
    + change (PatchComplianceFinal.Managed (Views.strip_counts r) = true).
      rewrite <- Hs. cbn. rewrite (Hflags2 iid i2 Hget2).
      now apply DictFacts.mem_str_in.
    + exists s. split; [exact Hin|]. split; [exact He|].
      change (PatchComplianceFinal.Compliance_Status (Views.strip_counts r)
              = get_or "NON_COMPLIANT" (Status s)).
      now rewrite <- Hs.
  - intros ssm' Hssm' Hno r Hr. rewrite Hssm in Hssm'. injection Hssm' as <-.
    rewrite (Hnone iid Hno), (Completeness.rows_of_summary_rows account_name region iid m2 i2)
      in Hr by exact Hget2.
    apply in_map_iff in Hr. destruct Hr as (s & <- & _).
    unfold Views.no_counts. cbn. tauto.
Qed.

(** A registered instance with a summary and no patch-state record: one row,
    as the summary says, without patch counts. *)
Lemma registered_instance_rows_come_from_summaries_witness :
  let rows := Views.rows_of "i-a"
                (PatchComplianceFinal.run_instances
                   (PatchComplianceFinal.run_unit "acct" "us-east-1"
                      Scenarios.registered_without_patch_state)) in
  List.length rows = 1%nat
  /\ (forall r, In r rows -> PatchComplianceFinal.Managed r = true)
  /\ (forall r, In r rows -> Views.no_counts r).
Proof.
  destruct (registered_instance_rows_come_from_summaries "acct" "us-east-1"
              Scenarios.registered_without_patch_state "i-a"
              (or_introl eq_refl) (or_introl eq_refl)) as (Hlen & Hrow & Hnone).
  split; [exact Hlen|]. split.
  - intros r Hr. now apply Hrow.
  - intros r Hr. apply (Hnone _ eq_refl); [|exact Hr]. intros n. now left.
Defined.

(** C4 as stated fails: a registered instance without a patch-state record is
    not classified UNMANAGED but as its compliance summary says, and, when it
    has no compliance summary either, it is left out of the output. *)
Lemma registered_instance_is_never_given_the_fallback :
  map (fun r => (PatchComplianceFinal.Instance_ID r,
                 PatchComplianceFinal.Compliance_Status r,
                 PatchComplianceFinal.Missing_Patches r))
    (PatchComplianceFinal.run_instances
       (PatchComplianceFinal.run_unit "acct" "us-east-1"
          Scenarios.registered_without_patch_state))
  = [("i-a", "COMPLIANT", None)]
  /\ Views.rows_of "i-a"
       (PatchComplianceFinal.run_instances
          (PatchComplianceFinal.run_unit "acct" "us-east-1"
             Scenarios.registered_without_summary))
     = [].
Proof.
  split; vm_compute; reflexivity.
Qed.

(** ** Classification *)

Module Classification.
Import Views DictFacts.

Section Variant3.
Import PatchCompliance3.
Variables (account_name account_id region : string).

Local Abbreviation step := (record_patch_state account_name account_id region).

Lemma step_mem (m : dict InstanceInfo) (rows : list InstanceRow) (ps : InstancePatchState)
    (k : string) :
  dict_mem (fst (step (m, rows) ps)) k = dict_mem m k.
Proof.
  unfold record_patch_state.
  destruct (dict_get m (get_or "" (ps_InstanceId ps))) as [info|] eqn:Hg; cbn [fst];
    [|reflexivity].
  unfold dict_mem. rewrite get_update.
  destruct (String.eqb _ k) eqn:He; [|reflexivity].
  apply String.eqb_eq in He. subst k. now rewrite Hg.
Qed.

Lemma registry_pass (l : list InstanceInformation) :
  forall ids m,
    let st := fold_left record_managed l (ids, m) in
    fst st = ids ++ map info_InstanceId l
    /\ forall k, dict_mem (snd st) k = dict_mem m k.
Proof.
  induction l as [|inst l IH]; intros ids m; cbn [fold_left].
  - cbv zeta. cbn. now rewrite app_nil_r.
  - unfold record_managed at 2 4.
    destruct (IH (ids ++ [info_InstanceId inst])
                (if dict_mem m (info_InstanceId inst)
                 then dict_update m (info_InstanceId inst) set_managed else m))
      as [Hids Hmem].
    cbv zeta. split.
    + rewrite Hids, <- app_assoc. reflexivity.
    + intros k. rewrite Hmem.
      destruct (dict_mem m (info_InstanceId inst)) eqn:Hm; [|reflexivity].
      unfold dict_mem in *. rewrite get_update.
      destruct (String.eqb _ k) eqn:He; [|reflexivity].
      apply String.eqb_eq in He. subst k.
      now destruct (dict_get m (info_InstanceId inst)).
Qed.

End Variant3.

Lemma dashboard_statuses (account_name region : string) (c : PatchComplianceFinal.Clients)
    (r : PatchComplianceFinal.InstanceRow) :
  In r (PatchComplianceFinal.run_instances
          (PatchComplianceFinal.run_unit account_name region c)) ->
  (PatchComplianceFinal.Compliance_Status r = "UNMANAGED" /\ zero_counts r)
  \/ exists s, In s (summaries c)
               /\ PatchComplianceFinal.Instance_ID r = get_or "" (ResourceId s)
               /\ PatchComplianceFinal.Compliance_Status r
                  = get_or "NON_COMPLIANT" (Status s).
Proof.
  destruct (PatchComplianceFinal.get_ssm c) as [ssm|] eqn:Hssm;
    [destruct (PatchComplianceFinal.get_ec2 c) as [ec2|] eqn:Hec2|].
  - destruct (Reconcile.unit_rows account_name region c ssm ec2 Hssm Hec2)
      as (m2 & rows4 & Hrows & _ & _ & _ & _ & _ & Hstrip & _).
    rewrite Hrows. intros Hin. apply in_app_or in Hin. destruct Hin as [Hin|Hin].
    + right. apply (in_map strip_counts) in Hin. rewrite Hstrip in Hin.
      unfold summary_rows in Hin. apply in_flat_map in Hin. destruct Hin as (s & Hs & Hin).
      exists s. split; [exact Hs|].
      destruct (dict_get m2 _) as [info|]; [|contradiction].
      destruct Hin as [Heq|[]].
      change (PatchComplianceFinal.Instance_ID (strip_counts r) = get_or "" (ResourceId s)
              /\ PatchComplianceFinal.Compliance_Status (strip_counts r)
                 = get_or "NON_COMPLIANT" (Status s)).
      rewrite <- Heq. now split.
    + left. apply in_flat_map in Hin. destruct Hin as ([k i] & _ & Hin).
      unfold PatchComplianceFinal.unmanaged_row in Hin.
      destruct (negb _ && negb _); [|contradiction].
      destruct Hin as [<-|[]]. unfold zero_counts. cbn. tauto.
  - unfold PatchComplianceFinal.run_unit. rewrite Hssm, Hec2. intros [].
  - unfold PatchComplianceFinal.run_unit. rewrite Hssm. intros [].
Qed.

Lemma clean_spec (state : InstancePatchState) :
  Observed.clean state = negb (Observed.failed_or_missing state).
Proof.
  unfold Observed.clean, Observed.failed_or_missing, max0.
  destruct (Z.ltb_spec 0 (get_or 0 (FailedCount state)));
    destruct (Z.ltb_spec 0 (get_or 0 (MissingCount state)));
    destruct (Z.eqb_spec (Z.max 0 (get_or 0 (MissingCount state))) 0);
    destruct (Z.eqb_spec (Z.max 0 (get_or 0 (FailedCount state))) 0);
    cbn; try reflexivity; lia.
Qed.

Lemma reporter_rule (summary : FinalReporter.Summary) (state : InstancePatchState) :
  let failed := get_or 0 (FailedCount state) in
  let missing := get_or 0 (MissingCount state) in
  let summary' := FinalReporter.add_state summary state in
  (0 < failed ->
   FinalReporter.compliant_instances summary' = FinalReporter.compliant_instances summary
   /\ FinalReporter.non_compliant_instances summary'
      = FinalReporter.non_compliant_instances summary + 1)
  /\ (failed <= 0 -> 0 < missing ->
      FinalReporter.compliant_instances summary' = FinalReporter.compliant_instances summary
      /\ FinalReporter.non_compliant_instances summary'
         = FinalReporter.non_compliant_instances summary + 1)
  /\ (failed <= 0 -> missing <= 0 ->
      FinalReporter.compliant_instances summary'
      = FinalReporter.compliant_instances summary + 1
      /\ FinalReporter.non_compliant_instances summary'
         = FinalReporter.non_compliant_instances summary).
Proof.
  cbv zeta. unfold FinalReporter.add_state. cbn. unfold max0.
  destruct (Z.eqb_spec (Z.max 0 (get_or 0 (MissingCount state))) 0) as [Hm|Hm];
    destruct (Z.eqb_spec (Z.max 0 (get_or 0 (FailedCount state))) 0) as [Hf|Hf];
    cbn [andb]; repeat split; intros; try reflexivity; lia.
Qed.

Lemma filter_complement {A : Type} (p : A -> bool) (l : list A) :
  (List.length (filter p l) + List.length (filter (fun x => negb (p x)) l))%nat
  = List.length l.
Proof.
  induction l as [|x l IH]; cbn [filter]; [reflexivity|].
  destruct (p x); cbn [negb List.length]; lia.
Qed.

End Classification.

Module ReporterFacts.
Import Observed.

Lemma online_ids_flat (pgs : list (list InstanceInformation)) :
  FinalReporter.online_ids pgs
  = map info_InstanceId (filter FinalReporter.is_online (List.concat pgs)).
Proof.
  unfold FinalReporter.online_ids.
  rewrite (fold_left_concat
             (fun acc instance =>
                if FinalReporter.is_online instance then acc ++ [info_InstanceId instance]
                else acc)).
  generalize (List.concat pgs). intros l.
  assert (H : forall acc,
             fold_left (fun acc instance =>
                          if FinalReporter.is_online instance
                          then acc ++ [info_InstanceId instance] else acc) l acc
             = acc ++ map info_InstanceId (filter FinalReporter.is_online l)).
  { induction l as [|i l IH]; intros acc; cbn [fold_left filter map].
    - now rewrite app_nil_r.
    - rewrite IH. destruct (FinalReporter.is_online i); cbn [map]; [|reflexivity].
      now rewrite <- app_assoc. }
  apply (H []).
Qed.

Lemma add_state_tallies (states : list InstancePatchState) :
  forall s0, tallies s0 (fold_left FinalReporter.add_state states s0) states.
Proof.
  induction states as [|st states IH]; intros s0; cbn [fold_left].
  - unfold tallies, sum_clamped. cbn. lia.
  - specialize (IH (FinalReporter.add_state s0 st)).
    unfold tallies, sum_clamped in *. cbn [filter fold_right].
    revert IH. generalize (fold_left FinalReporter.add_state states
                             (FinalReporter.add_state s0 st)). intros s.
    unfold FinalReporter.add_state at 1 2 3 4 5 6 7 8 9. cbn.
    fold (clean st). destruct (clean st); cbn [negb List.length]; lia.
Qed.

Lemma tallies_app (s0 s1 s2 : FinalReporter.Summary) (l1 l2 : list InstancePatchState) :
  tallies s0 s1 l1 -> tallies s1 s2 l2 -> tallies s0 s2 (l1 ++ l2).
Proof.
  unfold tallies, sum_clamped. rewrite !filter_app, !length_app, !fold_right_app.
  assert (Hsum : forall f (l l' : list InstancePatchState),
             fold_right (fun state acc => max0 (get_or 0 (f state)) + acc)
               (fold_right (fun state acc => max0 (get_or 0 (f state)) + acc) 0 l') l
             = fold_right (fun state acc => max0 (get_or 0 (f state)) + acc) 0 l
               + fold_right (fun state acc => max0 (get_or 0 (f state)) + acc) 0 l').
  { intros f l l'. induction l as [|x l IH]; cbn [fold_right]; [lia|]. rewrite IH. lia. }
  rewrite !Hsum. lia.
Qed.

Lemma tallies_nil (s : FinalReporter.Summary) : tallies s s [].
Proof. unfold tallies, sum_clamped. cbn. lia. Qed.

Lemma batches_tally (ssm_client : FinalReporter.SsmClient) (bs : list (list string)) :
  forall calls s0,
    tallies s0 (snd (fold_left (FinalReporter.batch_step ssm_client) bs (calls, s0)))
      (received (FinalReporter.describe_instance_patch_states ssm_client) bs
         (List.length calls)).
Proof.
  induction bs as [|b bs IH]; intros calls s0; cbn [fold_left received].
  - apply tallies_nil.
  - unfold FinalReporter.batch_step at 2.
    destruct (FinalReporter.describe_instance_patch_states ssm_client (List.length calls) b)
      as [states|e].
    + eapply tallies_app; [apply add_state_tallies|].
      specialize (IH (calls ++ [b]) (fold_left FinalReporter.add_state states s0)).
      rewrite length_app in IH. cbn [List.length] in IH.
      now replace (List.length calls + 1)%nat with (S (List.length calls)) in IH by lia.
    + specialize (IH (calls ++ [b]) s0).
      rewrite length_app in IH. cbn [List.length app] in *.
      now replace (List.length calls + 1)%nat with (S (List.length calls)) in IH by lia.
Qed.

End ReporterFacts.

(** C2 (as amended).  Neither pipeline labels an instance with the reason of
    its non-compliance.  The Lambda reporter counts a patch-state record as
    non-compliant when its failed count is above zero, whatever its missing
    count, also when only its missing count is above zero, and as compliant
    when neither is; so the summary of [get_patch_compliance_data] counts as
    non-compliant the records received that have a failed or a missing
    patch, as compliant the others, and every record received once.  The
    dashboard of [patch_compliance_final.py] derives nothing from the
    counts: a row carries the status of a compliance summary of its instance
    (NON_COMPLIANT when the item has none) or UNMANAGED. *)
Theorem compliance_status_follows_the_priority_rule :
  (forall (summary : FinalReporter.Summary) (state : InstancePatchState),
      let failed := get_or 0 (FailedCount state) in
      let missing := get_or 0 (MissingCount state) in
      let summary' := FinalReporter.add_state summary state in
      (0 < failed ->
       FinalReporter.compliant_instances summary'
       = FinalReporter.compliant_instances summary
       /\ FinalReporter.non_compliant_instances summary'
          = FinalReporter.non_compliant_instances summary + 1)
      /\ (failed <= 0 -> 0 < missing ->
          FinalReporter.compliant_instances summary'
          = FinalReporter.compliant_instances summary
          /\ FinalReporter.non_compliant_instances summary'
             = FinalReporter.non_compliant_instances summary + 1)
      /\ (failed <= 0 -> missing <= 0 ->
          FinalReporter.compliant_instances summary'
          = FinalReporter.compliant_instances summary + 1
          /\ FinalReporter.non_compliant_instances summary'
             = FinalReporter.non_compliant_instances summary))
  /\ (forall (session : FinalReporter.Session) (ssm_client : FinalReporter.SsmClient)
             (ids : list string),
        FinalReporter.client_ssm session = Ok ssm_client ->
        let records :=
          Observed.received (FinalReporter.describe_instance_patch_states ssm_client)
            (FinalReporter.batches ids) 0 in
        let summary := FinalReporter.get_patch_compliance_data session ids in
        FinalReporter.non_compliant_instances summary
        = Z.of_nat (List.length (filter Observed.failed_or_missing records))
        /\ FinalReporter.compliant_instances summary
           = Z.of_nat (List.length
                         (filter (fun state => negb (Observed.failed_or_missing state))
                            records))
        /\ FinalReporter.compliant_instances summary
           + FinalReporter.non_compliant_instances summary
           = Z.of_nat (List.length records))
  /\ (forall (account_name region : string) (c : PatchComplianceFinal.Clients)
             (r : PatchComplianceFinal.InstanceRow),
        In r (PatchComplianceFinal.run_instances
                (PatchComplianceFinal.run_unit account_name region c)) ->
        (PatchComplianceFinal.Compliance_Status r = "UNMANAGED" /\ Views.zero_counts r)
        \/ exists s, In s (Views.summaries c)
                     /\ PatchComplianceFinal.Instance_ID r = get_or "" (ResourceId s)
                     /\ PatchComplianceFinal.Compliance_Status r
                        = get_or "NON_COMPLIANT" (Status s)).
Proof.
  split; [exact Classification.reporter_rule|].
  split; [|exact Classification.dashboard_statuses].
  intros session ssm_client ids Hclient records summary.
  assert (Htally : Observed.tallies
                     (FinalReporter.empty_summary (Z.of_nat (List.length ids)))
                     summary records).
  { subst summary records.
    unfold FinalReporter.get_patch_compliance_data, FinalReporter.run_patch_compliance_data.
    rewrite Hclient. destruct ids as [|i ids].
    - cbn. apply ReporterFacts.tallies_nil.
    - apply (ReporterFacts.batches_tally ssm_client (FinalReporter.batches (i :: ids)) []). }
  destruct Htally as (_ & Hc & Hn & _).
  unfold FinalReporter.empty_summary in Hc, Hn.
  cbn [FinalReporter.compliant_instances FinalReporter.non_compliant_instances] in Hc, Hn.
  rewrite Z.add_0_l in Hc, Hn.
  assert (Hclean : filter Observed.clean records
                   = filter (fun state => negb (Observed.failed_or_missing state)) records).
  { apply filter_ext. intros state. apply Classification.clean_spec. }
  assert (Hdirty : filter (fun st => negb (Observed.clean st)) records
                   = filter Observed.failed_or_missing records).
  { apply filter_ext. intros state. rewrite Classification.clean_spec.
    apply negb_involutive. }
  rewrite Hclean in Hc. rewrite Hdirty in Hn.
  split; [exact Hn|]. split; [exact Hc|].
  rewrite Hc, Hn.
  pose proof (Classification.filter_complement Observed.failed_or_missing records). lia.
Qed.

(** Three records received in one batch: one failed and two missing patches,
    three missing patches, none.  Two are counted non-compliant, one
    compliant. *)
Lemma compliance_status_follows_the_priority_rule_witness :
  let summary :=
    FinalReporter.get_patch_compliance_data Scenarios.three_records ["i-a"; "i-b"; "i-c"] in
  FinalReporter.non_compliant_instances summary = 2
  /\ FinalReporter.compliant_instances summary = 1
  /\ FinalReporter.compliant_instances summary
     + FinalReporter.non_compliant_instances summary = 3.
Proof.
  destruct compliance_status_follows_the_priority_rule as (_ & Hsummary & _).
  exact (Hsummary Scenarios.three_records _ ["i-a"; "i-b"; "i-c"] eq_refl).
Defined.

(** C2 as stated fails on the dashboard: an instance with failed and missing
    patches is reported NON_COMPLIANT, as the provider's summary says. *)
Lemma summary_status_is_not_split_by_reason :
  map (fun r => (PatchComplianceFinal.Instance_ID r,
                 PatchComplianceFinal.Compliance_Status r,
                 PatchComplianceFinal.Missing_Patches r,
                 PatchComplianceFinal.Failed_Patches r))
    (PatchComplianceFinal.run_instances
       (PatchComplianceFinal.run_unit "acct" "us-east-1" Scenarios.failed_and_missing))
  = [("i-a", "NON_COMPLIANT", Some 1, Some 2)].
Proof.
  vm_compute. reflexivity.
Qed.

(** ** The inventory listing *)

Lemma flat_map_singleton {A B : Type} (f : A -> B) (l : list A) :
  flat_map (fun a => [f a]) l = map f l.
Proof.
  induction l as [|a l IH]; cbn; [reflexivity|now rewrite IH].
Qed.

Lemma instance_ids_flat (pgs : list (list Reservation)) :
  FinalReporter.instance_ids pgs = map InstanceId (List.concat (List.concat pgs)).
Proof.
  unfold FinalReporter.instance_ids.
  rewrite (fold_left_concat
             (fun acc reservation =>
                fold_left (fun acc instance => acc ++ [InstanceId instance]) reservation acc)).
  rewrite (fold_left_concat (fun acc instance => acc ++ [InstanceId instance])).
  rewrite (fold_left_append (fun instance => [InstanceId instance])). cbn [app].
  apply flat_map_singleton.
Qed.

(** The reporter's [get_ec2_instances] walks every page of every reservation
    of the listing it requested for the states running and stopped. *)
Lemma reporter_lists_every_page (session : FinalReporter.Session)
    (ec2_client : FinalReporter.Ec2Client) :
  FinalReporter.client_ec2 session = Ok ec2_client ->
  failure (FinalReporter.describe_instances ec2_client) = None ->
  FinalReporter.get_ec2_instances session
  = map InstanceId (List.concat (List.concat (pages (FinalReporter.describe_instances ec2_client)))).
Proof.
  intros Hc Hf. unfold FinalReporter.get_ec2_instances.
  rewrite Hc, Hf. apply instance_ids_flat.
Qed.

(** C9 on [patch_compliance_final.py]: the listing is requested without a
    state filter and no state is checked, so a terminated instance the
    provider still lists enters the inventory and is reported as UNMANAGED. *)
Theorem terminated_instance_is_listed_and_reported :
  keys (PatchComplianceFinal.inventory Scenarios.terminated_listed) = ["i-run"; "i-term"]
  /\ map (fun r => (PatchComplianceFinal.Instance_ID r,
                    PatchComplianceFinal.Instance_State r,
                    PatchComplianceFinal.Compliance_Status r))
       (PatchComplianceFinal.run_instances
          (PatchComplianceFinal.run_unit "acct" "us-east-1" Scenarios.terminated_listed))
     = [("i-run", "running", "UNMANAGED"); ("i-term", "terminated", "UNMANAGED")].
Proof.
  split; vm_compute; reflexivity.
Qed.

(* ------------------------------------------------------------------ *)
(** * Further properties of the reporters *)


(** X1.  When the listing succeeds, [get_ec2_instances] returns the
    identifier of every instance of every reservation of every page, in
    order; when the client cannot be built or the listing fails, it returns
    the empty list, whatever pages came before the failure, and the region is
    then skipped: the totals and the account's regions are left as they
    were. *)
Theorem get_ec2_instances_all_or_nothing :
  forall (session : FinalReporter.Session),
    match FinalReporter.client_ec2 session with
    | Ok ec2_client =>
        match failure (FinalReporter.describe_instances ec2_client) with
        | None =>
            FinalReporter.get_ec2_instances session
            = map InstanceId
                (List.concat (List.concat (pages (FinalReporter.describe_instances ec2_client))))
        | Some _ => FinalReporter.get_ec2_instances session = []
        end
    | Raise _ => FinalReporter.get_ec2_instances session = []
    end
    /\ (FinalReporter.get_ec2_instances session = [] ->
        forall assume_role account_id region st,
          assume_role account_id region = Some session ->
          FinalReporter.region_step assume_role account_id st region = st).
Proof.
  intros session. split.
  - unfold FinalReporter.get_ec2_instances.
    destruct (FinalReporter.client_ec2 session) as [ec2_client|e]; [|reflexivity].
    destruct (failure _); [reflexivity|]. apply instance_ids_flat.
  - intros Hnone assume_role account_id region [[[rs org] t] u] Hsession.
    unfold FinalReporter.region_step. now rewrite Hsession, Hnone.
Qed.

(** X2.  [get_ssm_managed_instances] returns the identifiers of the registry
    items whose ping status is Online, in listing order, and nothing else; it
    returns the empty list when the client cannot be built or the listing
    fails. *)
Theorem managed_instances_are_the_online_ones :
  forall (session : FinalReporter.Session),
    match FinalReporter.client_ssm session with
    | Ok ssm_client =>
        match failure (FinalReporter.describe_instance_information ssm_client) with
        | None =>
            FinalReporter.get_ssm_managed_instances session
            = map info_InstanceId
                (filter (fun item => match PingStatus item with
                                     | Some s => String.eqb s "Online"
                                     | None => false
                                     end)
                   (List.concat (pages (FinalReporter.describe_instance_information ssm_client))))
        | Some _ => FinalReporter.get_ssm_managed_instances session = []
        end
    | Raise _ => FinalReporter.get_ssm_managed_instances session = []
    end.
Proof.
  intros session. unfold FinalReporter.get_ssm_managed_instances.
  destruct (FinalReporter.client_ssm session) as [ssm_client|e]; [|reflexivity].
  destruct (failure _); [reflexivity|]. apply ReporterFacts.online_ids_flat.
Qed.

(** X3.  The summary of [get_patch_compliance_data] tallies exactly the
    patch-state records received from the batches whose call succeeded: each
    record is counted once, as compliant when its clamped missing and failed
    counts are both zero and as non-compliant otherwise, and its six counts
    are added after clamping; a batch whose call raises brings nothing and
    does not stop the later batches.  [total_managed_instances] is the number
    of identifiers given, whatever the calls return; when the client cannot
    be built the other counts are zero. *)
Theorem patch_compliance_data_tallies_received_records :
  forall (session : FinalReporter.Session) (ids : list string),
    match FinalReporter.client_ssm session with
    | Ok ssm_client =>
        Observed.tallies (FinalReporter.empty_summary (Z.of_nat (List.length ids)))
          (FinalReporter.get_patch_compliance_data session ids)
          (Observed.received (FinalReporter.describe_instance_patch_states ssm_client)
             (FinalReporter.batches ids) 0)
    | Raise _ =>
        FinalReporter.get_patch_compliance_data session ids
        = FinalReporter.empty_summary (Z.of_nat (List.length ids))
    end.
Proof.
  intros session ids.
  unfold FinalReporter.get_patch_compliance_data, FinalReporter.run_patch_compliance_data.
  destruct (FinalReporter.client_ssm session) as [ssm_client|e].
  - destruct ids as [|i ids].
    + cbn. apply ReporterFacts.tallies_nil.
    + apply (ReporterFacts.batches_tally ssm_client (FinalReporter.batches (i :: ids)) []).
  - now destruct ids.
Qed.

Module ReporterTotals.
Import Observed.

Lemma in_dict_set {V : Type} (d : dict V) (k k' : string) (v v' : V) :
  In (k', v') (dict_set d k v) -> (k' = k /\ v' = v) \/ In (k', v') d.
Proof.
  induction d as [|[k0 v0] d IH]; cbn [dict_set In].
  - intros [H|[]]. injection H as <- <-. now left.
  - destruct (String.eqb k0 k) eqn:He; cbn [In].
    + apply String.eqb_eq in He. subst k0. intros [H|H].
      * injection H as <- <-. now left.
      * right. now right.
    + intros [H|H]; [right; now left|].
      destruct (IH H) as [Hl|Hr]; [now left|right; now right].
Qed.

Lemma region_step_ok (assume_role : string -> string -> option FinalReporter.Session)
    (account_id : string) (st : dict FinalReporter.RegionData * FinalReporter.Summary * Z * Z)
    (region : string) :
  In region FinalReporter.regions ->
  (let '(rs, org, t, u) := st in regions_ok rs /\ balanced org t u) ->
  (let '(rs, org, t, u) := FinalReporter.region_step assume_role account_id st region in
   regions_ok rs /\ balanced org t u).
Proof.
  destruct st as [[[rs org] t] u]. intros Hregion [Hrs Hbal].
  unfold FinalReporter.region_step.
  destruct (assume_role account_id region) as [session|]; [|now split].
  destruct (FinalReporter.get_ec2_instances session) as [|i ec2_instances] eqn:Hec2;
    [now split|].
  set (managed := filter (fun inst => existsb (String.eqb inst) (i :: ec2_instances))
                    (FinalReporter.get_ssm_managed_instances session)).
  split.
  - intros region' data Hin. apply in_dict_set in Hin. destruct Hin as [[-> ->]|Hin].
    + pose proof (NonNegative.final_patch_compliance session managed) as Hp.
      unfold Clamped.summary_nonneg in Hp. unfold region_ok.
      cbn [FinalReporter.total_ec2_instances FinalReporter.managed_instances
           FinalReporter.unmanaged_ec2_instances FinalReporter.region_compliant_instances
           FinalReporter.region_non_compliant_instances FinalReporter.patch_details
           FinalReporter.details_missing_count FinalReporter.details_failed_count
           FinalReporter.details_installed_pending_reboot_count
           FinalReporter.details_installed_other_count
           FinalReporter.details_installed_rejected_count
           FinalReporter.details_not_applicable_count List.length].
      split; [exact Hregion|]. split; [lia|]. split; [lia|]. split; [lia|]. exact Hp.
    + now apply Hrs.
  - unfold balanced in *. cbn [FinalReporter.total_managed_instances].
    generalize (Z.of_nat (List.length (i :: ec2_instances))) (Nat2Z.is_nonneg (List.length managed))
      (Nat2Z.is_nonneg (List.length (i :: ec2_instances))).
    intros. lia.
Qed.

Lemma regions_loop_ok (assume_role : string -> string -> option FinalReporter.Session)
    (account_id : string) (l : list string) :
  incl l FinalReporter.regions ->
  forall st,
    (let '(rs, org, t, u) := st in regions_ok rs /\ balanced org t u) ->
    (let '(rs, org, t, u) := fold_left (FinalReporter.region_step assume_role account_id) l st in
     regions_ok rs /\ balanced org t u).
Proof.
  induction l as [|region l IH]; intros Hincl st Hst; cbn [fold_left]; [exact Hst|].
  apply IH.
  - intros x Hx. apply Hincl. now right.
  - apply region_step_ok; [apply Hincl; now left|exact Hst].
Qed.

Lemma account_step_ok (assume_role : string -> string -> option FinalReporter.Session)
    (accts : list (string * string)) (d : FinalReporter.AllData) (account : string * string) :
  In account accts -> data_ok accts d ->
  data_ok accts (FinalReporter.account_step assume_role d account).
Proof.
  destruct account as [account_id account_name]. intros Hin [Hbal Hstored].
  unfold FinalReporter.account_step.
  pose proof (regions_loop_ok assume_role account_id FinalReporter.regions
                (incl_refl _)
                ([], FinalReporter.aws_dashboard_summary d,
                 FinalReporter.ctx_total_ec2_instances d,
                 FinalReporter.ctx_unmanaged_ec2_instances d)) as Hloop.
  cbv beta iota zeta in Hloop.
  destruct (fold_left _ FinalReporter.regions _) as [[[rs org] t] u].
  destruct Hloop as [Hrs Hbal']. { split; [intros ? ? []|exact Hbal]. }
  split; [exact Hbal'|]. cbn [FinalReporter.accounts].
  intros id name rs' Hin'. destruct rs as [|r rs]; [now apply Hstored|].
  apply in_dict_set in Hin'. destruct Hin' as [[-> Heq]|Hin'].
  - injection Heq as -> ->. split; [exact Hin|]. split; [discriminate|exact Hrs].
  - now apply Hstored.
Qed.

Lemma collect_ok (assume_role : string -> string -> option FinalReporter.Session)
    (accts : list (string * string)) :
  data_ok accts (FinalReporter.collect_compliance_data assume_role accts).
Proof.
  unfold FinalReporter.collect_compliance_data.
  assert (H : forall l d, incl l accts -> data_ok accts d ->
                data_ok accts (fold_left (FinalReporter.account_step assume_role) l d)).
  { induction l as [|a l IH]; intros d Hincl Hd; cbn [fold_left]; [exact Hd|].
    apply IH; [intros x Hx; apply Hincl; now right|].
    apply account_step_ok; [apply Hincl; now left|exact Hd]. }
  apply H; [apply incl_refl|].
  split; [unfold balanced; cbn; lia|]. intros ? ? ? [].
Qed.

Lemma region_step_ext (assume_role assume_role' : string -> string -> option FinalReporter.Session)
    (account_id region : string) st :
  assume_role account_id region = assume_role' account_id region ->
  FinalReporter.region_step assume_role account_id st region
  = FinalReporter.region_step assume_role' account_id st region.
Proof.
  intros H. unfold FinalReporter.region_step. now rewrite H.
Qed.

Lemma collect_ext (assume_role assume_role' : string -> string -> option FinalReporter.Session)
    (accts : list (string * string)) :
  (forall account_id region, In account_id (map fst accts) ->
     assume_role account_id region = assume_role' account_id region) ->
  FinalReporter.collect_compliance_data assume_role accts
  = FinalReporter.collect_compliance_data assume_role' accts.
Proof.
  unfold FinalReporter.collect_compliance_data.
  generalize {| FinalReporter.accounts := [];
                FinalReporter.aws_dashboard_summary := FinalReporter.empty_summary 0;
                FinalReporter.ctx_total_ec2_instances := 0;
                FinalReporter.ctx_unmanaged_ec2_instances := 0 |}.
  induction accts as [|[account_id account_name] accts IH]; intros d Hagree;
    cbn [fold_left]; [reflexivity|].
  assert (Hstep : FinalReporter.account_step assume_role d (account_id, account_name)
                  = FinalReporter.account_step assume_role' d (account_id, account_name)).
  { unfold FinalReporter.account_step.
    assert (Hfold : forall l st,
               fold_left (FinalReporter.region_step assume_role account_id) l st
               = fold_left (FinalReporter.region_step assume_role' account_id) l st).
    { induction l as [|region l IHl]; intros st; cbn [fold_left]; [reflexivity|].
      rewrite (region_step_ext assume_role assume_role' account_id region st).
      - apply IHl.
      - apply Hagree. now left. }
    now rewrite Hfold. }
  rewrite Hstep. apply IH. intros id region Hin. apply Hagree. now right.
Qed.

Lemma keep_active_flat (l : list ReporterHandler.OrgAccount) :
  forall accounts,
    fold_left ReporterHandler.keep_active l accounts
    = accounts
      ++ map (fun a => {| ReporterHandler.acc_Id := ReporterHandler.Id a;
                          ReporterHandler.acc_Name := ReporterHandler.Name a;
                          ReporterHandler.acc_Email := ReporterHandler.Email a |})
           (filter (fun a => String.eqb (ReporterHandler.Status a) "ACTIVE") l).
Proof.
  induction l as [|a l IH]; intros accounts; cbn [fold_left filter].
  - now rewrite app_nil_r.
  - rewrite IH. unfold ReporterHandler.keep_active.
    destruct (String.eqb (ReporterHandler.Status a) "ACTIVE"); cbn [map]; [|reflexivity].
    now rewrite <- app_assoc.
Qed.

End ReporterTotals.

(** X4.  In the data [collect_compliance_data] returns, the totals balance:
    the total number of EC2 instances is the number of managed instances plus
    the number of unmanaged ones, and neither the total nor the managed count
    is negative.  Every account stored is one of the accounts given and has
    at least one region; every region stored is one of the reporter's
    regions, listed at least one instance, and balances in the same way. *)
Theorem reporter_totals_balance :
  forall (assume_role : string -> string -> option FinalReporter.Session)
         (accts : list (string * string)),
    let d := FinalReporter.collect_compliance_data assume_role accts in
    Observed.balanced (FinalReporter.aws_dashboard_summary d)
      (FinalReporter.ctx_total_ec2_instances d) (FinalReporter.ctx_unmanaged_ec2_instances d)
    /\ forall account_id account_name rs,
         In (account_id, (account_name, rs)) (FinalReporter.accounts d) ->
         In (account_id, account_name) accts
         /\ rs <> []
         /\ forall region data, In (region, data) rs -> Observed.region_ok region data.
Proof.
  intros assume_role accts d. apply ReporterTotals.collect_ok.
Qed.

(** X5.  The handler raises when the account listing fails, whatever pages
    came before the failure and without producing a report.  Otherwise it
    collects the data of the ACTIVE accounts of the listing, in order, and
    hands it to the report: it answers 200 when the report is produced and
    raises what the report raises.  Its outcome does not depend on what
    assuming a role would give in an account that is not ACTIVE. *)
Theorem handler_reports_on_active_accounts :
  forall (list_accounts : paged (list ReporterHandler.OrgAccount))
         (assume_role : string -> string -> option FinalReporter.Session)
         (report : FinalReporter.AllData -> result unit),
    match failure list_accounts with
    | Some e => ReporterHandler.lambda_handler list_accounts assume_role report = Raise e
    | None =>
        let data :=
          FinalReporter.collect_compliance_data assume_role
            (Observed.active_accounts (List.concat (pages list_accounts))) in
        match report data with
        | Ok _ =>
            exists response,
              ReporterHandler.lambda_handler list_accounts assume_role report
              = Ok (data, response)
              /\ ReporterHandler.statusCode response = 200
        | Raise e => ReporterHandler.lambda_handler list_accounts assume_role report = Raise e
        end
        /\ forall assume_role',
             (forall account region,
                In account (List.concat (pages list_accounts)) ->
                ReporterHandler.Status account = "ACTIVE" ->
                assume_role (ReporterHandler.Id account) region
                = assume_role' (ReporterHandler.Id account) region) ->
             ReporterHandler.lambda_handler list_accounts assume_role report
             = ReporterHandler.lambda_handler list_accounts assume_role' report
    end.
Proof.
  intros list_accounts assume_role report.
  unfold ReporterHandler.lambda_handler, ReporterHandler.get_organization_accounts.
  destruct (failure list_accounts) as [e|]; [reflexivity|].
  rewrite (fold_left_concat ReporterHandler.keep_active).
  rewrite ReporterTotals.keep_active_flat. cbn [app].
  rewrite map_map. cbn [ReporterHandler.acc_Id ReporterHandler.acc_Name].
  fold (Observed.active_accounts (List.concat (pages list_accounts))).
  cbv zeta. split.
  - destruct (report _) as [[]|e]; [|reflexivity]. eexists. split; reflexivity.
  - intros assume_role' Hagree.
    rewrite (ReporterTotals.collect_ext assume_role assume_role'); [reflexivity|].
    intros account_id region Hin. unfold Observed.active_accounts in Hin.
    rewrite map_map in Hin. apply in_map_iff in Hin. destruct Hin as (a & <- & Ha).
    apply filter_In in Ha. destruct Ha as [Ha Hactive]. apply String.eqb_eq in Hactive.
    now apply Hagree.
Qed.

Module ExplorerFacts.
Import Observed.

Lemma add_item_raised (items : list ExplorerReporter.OpsItem) (e : string) :
  fold_left ExplorerReporter.add_item items (Raise e) = Raise e.
Proof.
  induction items as [|item items IH]; cbn [fold_left]; [reflexivity|exact IH].
Qed.

Lemma add_items_parseable (items : list ExplorerReporter.OpsItem) :
  Forall parseable items ->
  forall z, fold_left ExplorerReporter.add_item items (Ok z) = Ok (z + online_sum items).
Proof.
  induction 1 as [|item items Hitem _ IH]; intros z; cbn [fold_left online_sum fold_right].
  - f_equal. lia.
  - fold (online_sum items).
    unfold ExplorerReporter.add_item at 2. unfold count_of. cbv zeta.
    destruct (ExplorerReporter.int_of_count (ExplorerReporter.ops_Count item)) as [c|e] eqn:Hc.
    + destruct (String.eqb (get_or "" (ExplorerReporter.ops_PingStatus item)) "Online");
        rewrite IH; f_equal; lia.
    + exfalso. unfold ExplorerReporter.int_of_count in Hc.
      destruct (ExplorerReporter.ops_Count item) as [[c|text]|] eqn:Hcount; try discriminate.
      now apply (Hitem text).
Qed.

Lemma add_items_unparseable (items : list ExplorerReporter.OpsItem) :
  Exists (fun item => ~ parseable item) items ->
  forall acc, exists e, fold_left ExplorerReporter.add_item items acc = Raise e.
Proof.
  induction 1 as [item items Hbad|item items _ IH]; intros acc; cbn [fold_left].
  - assert (exists e, ExplorerReporter.add_item acc item = Raise e) as [e He].
    { unfold ExplorerReporter.add_item. destruct acc as [z|e]; [|now exists e].
      destruct (ExplorerReporter.ops_Count item) as [[c|text]|] eqn:Hcount; cbn.
      - exfalso. apply Hbad. intros text H. unfold parseable in *. congruence.
      - now exists text.
      - exfalso. apply Hbad. intros text H. congruence. }
    exists e. rewrite He. apply add_item_raised.
  - apply IH.
Qed.

Lemma total_nonneg (session : ExplorerReporter.Session) :
  0 <= ExplorerReporter.get_total_ec2_instances_from_ec2_api session.
Proof.
  unfold ExplorerReporter.get_total_ec2_instances_from_ec2_api.
  destruct (ExplorerReporter.client_ec2 session) as [ec2_client|e]; [|lia].
  destruct (failure _); [lia|].
  apply (fold_left_invariant (fun z => 0 <= z)); [|lia].
  intros z page Hz. apply (fold_left_invariant (fun z => 0 <= z)); [|exact Hz].
  intros z' reservation Hz'. lia.
Qed.

Lemma count_online_flat (pgs : list (list InstanceInformation)) :
  ExplorerReporter.count_online pgs
  = Z.of_nat (List.length (filter ExplorerReporter.is_online (List.concat pgs))).
Proof.
  unfold ExplorerReporter.count_online.
  rewrite (fold_left_concat
             (fun managed_count instance =>
                if ExplorerReporter.is_online instance then managed_count + 1
                else managed_count)).
  generalize (List.concat pgs). intros l.
  assert (H : forall z,
             fold_left (fun managed_count instance =>
                          if ExplorerReporter.is_online instance then managed_count + 1
                          else managed_count) l z
             = z + Z.of_nat (List.length (filter ExplorerReporter.is_online l))).
  { induction l as [|i l IH]; intros z; cbn [fold_left filter].
    - cbn. lia.
    - rewrite IH. destruct (ExplorerReporter.is_online i); cbn [List.length]; lia. }
  rewrite H. lia.
Qed.

Lemma read_items_last (items : list ExplorerReporter.ComplianceSummaryItem) :
  forall acc,
    fold_left ExplorerReporter.read_item items acc
    = match find_last is_patch items with
      | Some item => reading item
      | None => acc
      end.
Proof.
  unfold find_last. induction items as [|item items IH] using rev_ind; intros acc.
  - reflexivity.
  - rewrite fold_left_app, rev_app_distr. cbn [fold_left rev app find].
    unfold ExplorerReporter.read_item at 1. unfold is_patch at 1.
    destruct (ExplorerReporter.ComplianceType item) as [t|]; [|apply IH].
    destruct (String.eqb t "Patch"); [reflexivity|apply IH].
Qed.

End ExplorerFacts.

(** X6.  [get_instance_management_summary_from_explorer] applies [int] to
    the count of every item of the ops summary, whatever its ping status.
    When every count is accepted, the managed count is the sum of the counts
    of the Online items and the total is the EC2 count, unless the
    percentage cannot be computed: for a positive total, a managed count
    from [(2**1024 - 2**970) * total] on in absolute value makes the
    division raise, and the summary is then the one of the fallback.  When
    one count is rejected, even on an item that is not Online, the summary
    is the one of the fallback too. *)
Theorem explorer_summary_or_fallback :
  forall (session : ExplorerReporter.Session) (ssm_client : ExplorerReporter.SsmClient)
         (entities : list ExplorerReporter.Entity),
    ExplorerReporter.client_ssm session = Ok ssm_client ->
    ExplorerReporter.get_ops_summary ssm_client = Ok entities ->
    let total := ExplorerReporter.get_total_ec2_instances_from_ec2_api session in
    let managed := Observed.online_sum (List.concat entities) in
    (Forall Observed.parseable (List.concat entities) ->
     (total = 0 \/ Z.abs managed < (2 ^ 1024 - 2 ^ 970) * total ->
      ExplorerReporter.get_instance_management_summary_from_explorer session
      = {| ExplorerReporter.total_ec2_instances := total;
           ExplorerReporter.managed_instances := managed;
           ExplorerReporter.not_managed_instances := Z.max 0 (total - managed) |})
     /\ (0 < total -> (2 ^ 1024 - 2 ^ 970) * total <= Z.abs managed ->
         ExplorerReporter.get_instance_management_summary_from_explorer session
         = ExplorerReporter.get_instance_management_summary_fallback session))
    /\ (Exists (fun item => ~ Observed.parseable item) (List.concat entities) ->
        ExplorerReporter.get_instance_management_summary_from_explorer session
        = ExplorerReporter.get_instance_management_summary_fallback session).
Proof.
  intros session ssm_client entities Hssm Hops total managed.
  pose proof (ExplorerFacts.total_nonneg session) as Htotal. fold total in Htotal.
  unfold ExplorerReporter.get_instance_management_summary_from_explorer.
  rewrite Hssm, Hops. unfold ExplorerReporter.count_managed.
  rewrite (fold_left_concat ExplorerReporter.add_item). split.
  - intros Hall. cbv zeta.
    rewrite (ExplorerFacts.add_items_parseable _ Hall 0). rewrite Z.add_0_l.
    fold total. fold managed. unfold true_division_overflows. split.
    + intros Hfinite.
      destruct (Z.ltb_spec 0 total) as [Hpos|Hzero]; cbn [andb]; [|reflexivity].
      rewrite Z.max_r by lia.
      destruct (Z.leb_spec ((2 ^ 1024 - 2 ^ 970) * total) (Z.abs managed));
        [lia|reflexivity].
    + intros Hpos Hlarge.
      destruct (Z.ltb_spec 0 total); [|lia]. cbn [andb].
      rewrite Z.max_r by lia.
      destruct (Z.leb_spec ((2 ^ 1024 - 2 ^ 970) * total) (Z.abs managed));
        [reflexivity|lia].
  - intros Hbad.
    destruct (ExplorerFacts.add_items_unparseable _ Hbad (Ok 0)) as [e He].
    now rewrite He.
Qed.

(** A count rejected on a ConnectionLost item: the summary is the fallback's,
    two managed instances out of three, not the four the Online item says.
    An Online count of [2**1100] for one EC2 instance: the summary is the
    fallback's, one managed instance out of one. *)
Lemma explorer_summary_or_fallback_witness :
  ExplorerReporter.get_instance_management_summary_from_explorer Cases.unparseable_count
  = {| ExplorerReporter.total_ec2_instances := 3;
       ExplorerReporter.managed_instances := 2;
       ExplorerReporter.not_managed_instances := 1 |}
  /\ ExplorerReporter.get_instance_management_summary_from_explorer Cases.overflowing_count
     = {| ExplorerReporter.total_ec2_instances := 1;
          ExplorerReporter.managed_instances := 1;
          ExplorerReporter.not_managed_instances := 0 |}.
Proof.
  split.
  - destruct (explorer_summary_or_fallback Cases.unparseable_count _ _ eq_refl eq_refl)
      as [_ Hfallback].
    rewrite Hfallback.
    + reflexivity.
    + apply Exists_cons_tl. apply Exists_cons_hd. intros H. now apply (H "n/a").
  - destruct (explorer_summary_or_fallback Cases.overflowing_count _ _ eq_refl eq_refl)
      as [[_ Hoverflow] _].
    + constructor; [|constructor]. intros text H. discriminate H.
    + rewrite Hoverflow.
      * reflexivity.
      * reflexivity.
      * vm_compute. discriminate.
Defined.

(** X7.  [get_patch_compliance_summary_from_compliance_api] returns the
    counts of the last item of the response whose compliance type is Patch,
    a count that is absent being zero; it returns zeros when the response has
    no such item, when the call raises and when the client cannot be
    built. *)
Theorem compliance_summary_is_the_last_patch_item :
  forall (session : ExplorerReporter.Session),
    ExplorerReporter.get_patch_compliance_summary_from_compliance_api session
    = match ExplorerReporter.client_ssm session with
      | Ok ssm_client =>
          match ExplorerReporter.list_compliance_summaries ssm_client with
          | Ok items =>
              match Observed.find_last Observed.is_patch items with
              | Some item => Observed.reading item
              | None => ExplorerReporter.empty_compliance
              end
          | Raise _ => ExplorerReporter.empty_compliance
          end
      | Raise _ => ExplorerReporter.empty_compliance
      end.
Proof.
  intros session. unfold ExplorerReporter.get_patch_compliance_summary_from_compliance_api.
  destruct (ExplorerReporter.client_ssm session) as [ssm_client|e]; [|reflexivity].
  destruct (ExplorerReporter.list_compliance_summaries ssm_client) as [items|e];
    [|reflexivity].
  apply ExplorerFacts.read_items_last.
Qed.

(** X8.  Whatever the provider answers, the management summary of the
    Explorer-based reporter has a total that is not negative and never
    exceeds the managed count plus the not-managed count; the three balance
    when the managed count is between zero and the total.  The fallback
    counts the Online items of the pages the registry listing yielded, also
    when that listing then fails, whereas the detailed counts are all zero
    in that case. *)
Theorem management_summary_is_consistent :
  forall (session : ExplorerReporter.Session),
    let m := ExplorerReporter.get_instance_management_summary_from_explorer session in
    (0 <= ExplorerReporter.total_ec2_instances m
     /\ ExplorerReporter.total_ec2_instances m
        <= ExplorerReporter.managed_instances m + ExplorerReporter.not_managed_instances m
     /\ (0 <= ExplorerReporter.managed_instances m <= ExplorerReporter.total_ec2_instances m ->
         ExplorerReporter.total_ec2_instances m
         = ExplorerReporter.managed_instances m + ExplorerReporter.not_managed_instances m))
    /\ match ExplorerReporter.client_ssm session with
       | Ok ssm_client =>
           ExplorerReporter.managed_instances
             (ExplorerReporter.get_instance_management_summary_fallback session)
           = Z.of_nat (List.length
                         (filter (fun item => match PingStatus item with
                                              | Some s => String.eqb s "Online"
                                              | None => false
                                              end)
                            (List.concat
                               (pages (ExplorerReporter.describe_instance_information
                                         ssm_client)))))
           /\ (failure (ExplorerReporter.describe_instance_information ssm_client) <> None ->
               ExplorerReporter.get_detailed_noncompliance_counts_from_patch_states session
               = ExplorerReporter.get_empty_noncompliance_counts)
       | Raise _ =>
           ExplorerReporter.get_instance_management_summary_fallback session
           = {| ExplorerReporter.total_ec2_instances := 0;
                ExplorerReporter.managed_instances := 0;
                ExplorerReporter.not_managed_instances := 0 |}
       end.
Proof.
  intros session m. split.
  - assert (Hshape : forall total managed,
               0 <= total ->
               0 <= total /\ total <= managed + max0 (total - managed)
               /\ (0 <= managed <= total -> total = managed + max0 (total - managed))).
    { intros total managed Ht. unfold max0. lia. }
    assert (Hfallback :
              let f := ExplorerReporter.get_instance_management_summary_fallback session in
              0 <= ExplorerReporter.total_ec2_instances f
              /\ ExplorerReporter.total_ec2_instances f
                 <= ExplorerReporter.managed_instances f
                    + ExplorerReporter.not_managed_instances f
              /\ (0 <= ExplorerReporter.managed_instances f
                  <= ExplorerReporter.total_ec2_instances f ->
                  ExplorerReporter.total_ec2_instances f
                  = ExplorerReporter.managed_instances f
                    + ExplorerReporter.not_managed_instances f)).
    { unfold ExplorerReporter.get_instance_management_summary_fallback.
      destruct (ExplorerReporter.client_ssm session); cbv zeta;
        cbn [ExplorerReporter.total_ec2_instances ExplorerReporter.managed_instances
             ExplorerReporter.not_managed_instances].
      - apply Hshape, ExplorerFacts.total_nonneg.
      - lia. }
    subst m. unfold ExplorerReporter.get_instance_management_summary_from_explorer.
    destruct (ExplorerReporter.client_ssm session) as [ssm_client|e] eqn:Hc;
      [|exact Hfallback].
    destruct (ExplorerReporter.get_ops_summary ssm_client) as [entities|e];
      [|exact Hfallback].
    destruct (ExplorerReporter.count_managed entities) as [managed|e]; [|exact Hfallback].
    cbv zeta. destruct (_ && _); [exact Hfallback|].
    cbn [ExplorerReporter.total_ec2_instances ExplorerReporter.managed_instances
         ExplorerReporter.not_managed_instances].
    apply Hshape, ExplorerFacts.total_nonneg.
  - unfold ExplorerReporter.get_instance_management_summary_fallback,
      ExplorerReporter.get_detailed_noncompliance_counts_from_patch_states,
      ExplorerReporter.run_detailed_noncompliance_counts.
    destruct (ExplorerReporter.client_ssm session) as [ssm_client|e]; [|reflexivity].
    cbn [ExplorerReporter.managed_instances]. split.
    + apply ExplorerFacts.count_online_flat.
    + intros Hfail. destruct (failure _); [reflexivity|]. now contradiction Hfail.
Qed.

Module ExplorerTotals.
Import Observed.

Lemma dict_set_fresh {V : Type} (d : dict V) (k : string) (v : V) :
  ~ In k (keys d) -> dict_set d k v = d ++ [(k, v)].
Proof.
  induction d as [|[k' v'] d IH]; cbn [dict_set keys map fst In app]; intros Hout.
  - reflexivity.
  - destruct (String.eqb k' k) eqn:He.
    + apply String.eqb_eq in He. tauto.
    + rewrite IH; [reflexivity|]. unfold keys. tauto.
Qed.

(** The regions loop of one account adds to the totals the reports it
    stores, in the order it stores them. *)
Lemma regions_loop (assume_role : string -> string -> option ExplorerReporter.Session)
    (account_id : string) (org : ExplorerReporter.Report) :
  let st := fold_left (ExplorerReporter.region_step assume_role account_id)
              ExplorerReporter.regions ([], org) in
  snd st = fold_left ExplorerReporter.add_region (map snd (fst st)) org.
Proof.
  unfold ExplorerReporter.regions. cbn [fold_left].
  unfold ExplorerReporter.region_step.
  destruct (assume_role account_id "us-east-1") as [s1|];
    destruct (assume_role account_id "us-west-2") as [s2|];
    repeat match goal with
           | |- context [if ?b then _ else _] => destruct b
           end; reflexivity.
Qed.

Lemma stored_app (l1 l2 : dict (string * dict ExplorerReporter.Report)) :
  flat_map (fun entry : string * (string * dict ExplorerReporter.Report) =>
              map snd (snd (snd entry))) (l1 ++ l2)
  = flat_map (fun entry => map snd (snd (snd entry))) l1
    ++ flat_map (fun entry => map snd (snd (snd entry))) l2.
Proof. apply flat_map_app. Qed.

Lemma account_step_keys (assume_role : string -> string -> option ExplorerReporter.Session)
    (d : ExplorerReporter.AllData) (account : string * string) (k : string) :
  In k (keys (ExplorerReporter.accounts (ExplorerReporter.account_step assume_role d account))) ->
  In k (keys (ExplorerReporter.accounts d)) \/ k = fst account.
Proof.
  destruct account as [account_id account_name]. unfold ExplorerReporter.account_step.
  destruct (fold_left _ ExplorerReporter.regions _) as [[|r rs] org];
    cbn [ExplorerReporter.accounts fst].
  - now left.
  - rewrite DictFacts.keys_set. destruct (dict_mem _ account_id); [now left|].
    intros Hin. apply in_app_or in Hin. destruct Hin as [Hin|[<-|[]]]; auto.
Qed.

Lemma collect_from (assume_role : string -> string -> option ExplorerReporter.Session)
    (accts : list (string * string)) :
  forall d,
    NoDup (map fst accts) ->
    (forall k, In k (keys (ExplorerReporter.accounts d)) -> ~ In k (map fst accts)) ->
    ExplorerReporter.organization_summary d
    = fold_left ExplorerReporter.add_region (stored_reports d) ExplorerReporter.empty_report ->
    let d' := fold_left (ExplorerReporter.account_step assume_role) accts d in
    ExplorerReporter.organization_summary d'
    = fold_left ExplorerReporter.add_region (stored_reports d') ExplorerReporter.empty_report.
Proof.
  induction accts as [|[account_id account_name] accts IH]; intros d Hnd Hfresh Hd;
    cbn [fold_left]; [exact Hd|].
  cbn [map fst] in Hnd, Hfresh. inversion Hnd as [|? ? Hout Hnd']. subst.
  apply IH; [exact Hnd'| |].
  - intros k Hin Hk. apply account_step_keys in Hin. cbn [fst] in Hin.
    destruct Hin as [Hin | ->]; [|contradiction].
    apply (Hfresh k Hin). now right.
  - unfold ExplorerReporter.account_step.
    pose proof (regions_loop assume_role account_id (ExplorerReporter.organization_summary d))
      as Hloop. cbv zeta in Hloop.
    destruct (fold_left _ ExplorerReporter.regions _) as [[|r rs] org];
      cbn [fst snd map] in Hloop;
      cbn [ExplorerReporter.accounts ExplorerReporter.organization_summary].
    + cbn [fold_left] in Hloop. unfold stored_reports in *.
      cbn [ExplorerReporter.accounts]. now rewrite Hloop.
    + unfold stored_reports in *. cbn [ExplorerReporter.accounts].
      rewrite dict_set_fresh by (intros Hin; apply (Hfresh _ Hin); now left).
      rewrite stored_app, fold_left_app, <- Hd. cbn [flat_map snd map app].
      rewrite app_nil_r. exact Hloop.
Qed.


Lemma sum_clamped_app (f : InstancePatchState -> option Z) (l1 l2 : list InstancePatchState) :
  sum_clamped f (l1 ++ l2) = sum_clamped f l1 + sum_clamped f l2.
Proof.
  unfold sum_clamped. induction l1 as [|x l1 IH]; cbn [app fold_right]; lia.
Qed.

(** What the records [states] add to the counts [d]. *)
Lemma add_states (states : list InstancePatchState) :
  forall d,
    let d' := fold_left ExplorerReporter.add_state states d in
    ExplorerReporter.missing_count d'
    = ExplorerReporter.missing_count d + sum_clamped MissingCount states
    /\ ExplorerReporter.failed_count d'
       = ExplorerReporter.failed_count d + sum_clamped FailedCount states
    /\ ExplorerReporter.installed_pending_reboot_count d'
       = ExplorerReporter.installed_pending_reboot_count d
         + sum_clamped InstalledPendingRebootCount states
    /\ ExplorerReporter.installed_other_count d'
       = ExplorerReporter.installed_other_count d + sum_clamped InstalledOtherCount states
    /\ ExplorerReporter.installed_rejected_count d'
       = ExplorerReporter.installed_rejected_count d
         + sum_clamped InstalledRejectedCount states
    /\ ExplorerReporter.not_applicable_count d'
       = ExplorerReporter.not_applicable_count d + sum_clamped NotApplicableCount states.
Proof.
  induction states as [|st states IH]; intros d; cbn [fold_left]; cbv zeta.
  - unfold sum_clamped. cbn [fold_right]. repeat split; lia.
  - destruct (IH (ExplorerReporter.add_state d st)) as (H1 & H2 & H3 & H4 & H5 & H6).
    rewrite H1, H2, H3, H4, H5, H6. unfold sum_clamped. cbn [fold_right].
    unfold ExplorerReporter.add_state.
    cbn [ExplorerReporter.missing_count ExplorerReporter.failed_count
         ExplorerReporter.installed_pending_reboot_count
         ExplorerReporter.installed_other_count ExplorerReporter.installed_rejected_count
         ExplorerReporter.not_applicable_count].
    repeat split; lia.
Qed.

Lemma batches_add (ssm_client : ExplorerReporter.SsmClient) (bs : list (list string)) :
  forall calls d,
    let d' := snd (fold_left (ExplorerReporter.batch_step ssm_client) bs (calls, d)) in
    let states := received (ExplorerReporter.describe_instance_patch_states ssm_client) bs
                    (List.length calls) in
    ExplorerReporter.missing_count d'
    = ExplorerReporter.missing_count d + sum_clamped MissingCount states
    /\ ExplorerReporter.failed_count d'
       = ExplorerReporter.failed_count d + sum_clamped FailedCount states
    /\ ExplorerReporter.installed_pending_reboot_count d'
       = ExplorerReporter.installed_pending_reboot_count d
         + sum_clamped InstalledPendingRebootCount states
    /\ ExplorerReporter.installed_other_count d'
       = ExplorerReporter.installed_other_count d + sum_clamped InstalledOtherCount states
    /\ ExplorerReporter.installed_rejected_count d'
       = ExplorerReporter.installed_rejected_count d
         + sum_clamped InstalledRejectedCount states
    /\ ExplorerReporter.not_applicable_count d'
       = ExplorerReporter.not_applicable_count d + sum_clamped NotApplicableCount states.
Proof.
  induction bs as [|b bs IH]; intros calls d; cbn [fold_left received]; cbv zeta.
  - unfold sum_clamped. cbn [snd fold_right]. repeat split; lia.
  - unfold ExplorerReporter.batch_step at 2 4 6 8 10 12.
    rewrite !sum_clamped_app.
    destruct (ExplorerReporter.describe_instance_patch_states ssm_client (List.length calls) b)
      as [states|e].
    + destruct (IH (calls ++ [b]) (fold_left ExplorerReporter.add_state states d))
        as (H1 & H2 & H3 & H4 & H5 & H6).
      destruct (add_states states d) as (A1 & A2 & A3 & A4 & A5 & A6).
      rewrite length_app in H1, H2, H3, H4, H5, H6. cbn [List.length] in *.
      replace (List.length calls + 1)%nat with (S (List.length calls)) in * by lia.
      rewrite H1, H2, H3, H4, H5, H6, A1, A2, A3, A4, A5, A6. repeat split; lia.
    + destruct (IH (calls ++ [b]) d) as (H1 & H2 & H3 & H4 & H5 & H6).
      rewrite length_app in H1, H2, H3, H4, H5, H6. cbn [List.length] in *.
      replace (List.length calls + 1)%nat with (S (List.length calls)) in * by lia.
      rewrite H1, H2, H3, H4, H5, H6. unfold sum_clamped at 1 3 5 7 9 11.
      cbn [fold_right]. repeat split; lia.
Qed.

Lemma explorer_online_ids_flat (pgs : list (list InstanceInformation)) :
  ExplorerReporter.online_ids pgs
  = map info_InstanceId (filter ExplorerReporter.is_online (List.concat pgs)).
Proof.
  unfold ExplorerReporter.online_ids.
  rewrite (fold_left_concat
             (fun acc instance =>
                if ExplorerReporter.is_online instance then acc ++ [info_InstanceId instance]
                else acc)).
  generalize (List.concat pgs). intros l.
  assert (H : forall acc,
             fold_left (fun acc instance =>
                          if ExplorerReporter.is_online instance
                          then acc ++ [info_InstanceId instance] else acc) l acc
             = acc ++ map info_InstanceId (filter ExplorerReporter.is_online l)).
  { induction l as [|i l IH]; intros acc; cbn [fold_left filter map].
    - now rewrite app_nil_r.
    - rewrite IH. destruct (ExplorerReporter.is_online i); cbn [map]; [|reflexivity].
      now rewrite <- app_assoc. }
  apply (H []).
Qed.

End ExplorerTotals.

(** X9.  When the accounts given to the Explorer-based
    [collect_compliance_data] have distinct identifiers, the organisation
    summary is the sum of the region reports stored under the accounts,
    count by count: a region that is skipped (no session, or no EC2 instance)
    adds nothing to the totals and an account without any stored region is
    not stored. *)
Theorem organisation_summary_sums_the_stored_regions :
  forall (assume_role : string -> string -> option ExplorerReporter.Session)
         (accts : list (string * string)),
    NoDup (map fst accts) ->
    let d := ExplorerReporter.collect_compliance_data assume_role accts in
    ExplorerReporter.organization_summary d
    = fold_left ExplorerReporter.add_region (Observed.stored_reports d)
        ExplorerReporter.empty_report
    /\ (forall account_id account_name rs,
          In (account_id, (account_name, rs)) (ExplorerReporter.accounts d) ->
          rs <> []
          /\ forall region report,
               In (region, report) rs ->
               ExplorerReporter.total_ec2_instances (ExplorerReporter.management report) <> 0).
Proof.
  intros assume_role accts Hnd d. split.
  - apply (ExplorerTotals.collect_from assume_role accts); [exact Hnd| |reflexivity].
    intros k [].
  - subst d. unfold ExplorerReporter.collect_compliance_data.
    apply (fold_left_invariant
             (fun d : ExplorerReporter.AllData =>
                forall account_id account_name rs,
                  In (account_id, (account_name, rs)) (ExplorerReporter.accounts d) ->
                  rs <> []
                  /\ forall region report,
                       In (region, report) rs ->
                       ExplorerReporter.total_ec2_instances
                         (ExplorerReporter.management report) <> 0)).
    + intros d [account_id account_name] Hd aid aname rs.
      unfold ExplorerReporter.account_step.
      assert (Hloop :
                forall region report,
                  In (region, report)
                    (fst (fold_left (ExplorerReporter.region_step assume_role account_id)
                            ExplorerReporter.regions
                            ([], ExplorerReporter.organization_summary d))) ->
                  ExplorerReporter.total_ec2_instances
                    (ExplorerReporter.management report) <> 0).
      { apply (fold_left_invariant
                 (fun st : dict ExplorerReporter.Report * ExplorerReporter.Report =>
                    forall region report,
                      In (region, report) (fst st) ->
                      ExplorerReporter.total_ec2_instances
                        (ExplorerReporter.management report) <> 0)).
        - intros [rs0 org] region Hrs0 region' report.
          unfold ExplorerReporter.region_step.
          destruct (assume_role account_id region) as [session|]; [|apply Hrs0].
          destruct (Z.eqb_spec
                      (ExplorerReporter.total_ec2_instances
                         (ExplorerReporter.get_instance_management_summary_from_explorer
                            session)) 0) as [Hz|Hz]; [apply Hrs0|].
          cbn [fst]. intros Hin.
          apply ReporterTotals.in_dict_set in Hin. destruct Hin as [[_ ->]|Hin].
          + exact Hz.
          + now apply (Hrs0 region' report).
        - intros region report []. }
      destruct (fold_left _ ExplorerReporter.regions _) as [[|r rs0] org];
        cbn [ExplorerReporter.accounts]; [apply Hd|].
      intros Hin. apply ReporterTotals.in_dict_set in Hin.
      destruct Hin as [[_ Heq]|Hin]; [|now apply (Hd aid aname rs)].
      injection Heq as -> ->. split; [discriminate|exact Hloop].
    + intros account_id account_name rs [].
Qed.

(** X10.  [get_detailed_noncompliance_counts_from_patch_states] asks for the
    patch states of the Online registry items in batches and returns, for
    each of the six counts, the sum over the records received of the count
    clamped at zero; a batch whose call raises brings nothing and does not
    stop the later batches.  The counts are all zero when the registry
    listing fails, even after pages that list Online items, and when the
    client cannot be built. *)
Theorem detailed_counts_sum_the_received_records :
  forall (session : ExplorerReporter.Session),
    match ExplorerReporter.client_ssm session with
    | Ok ssm_client =>
        match failure (ExplorerReporter.describe_instance_information ssm_client) with
        | None =>
            Observed.details_tally
              (ExplorerReporter.get_detailed_noncompliance_counts_from_patch_states session)
              (Observed.received (ExplorerReporter.describe_instance_patch_states ssm_client)
                 (ExplorerReporter.batches
                    (map info_InstanceId
                       (filter (fun item => match PingStatus item with
                                            | Some s => String.eqb s "Online"
                                            | None => false
                                            end)
                          (List.concat
                             (pages (ExplorerReporter.describe_instance_information
                                       ssm_client)))))) 0)
        | Some _ =>
            ExplorerReporter.get_detailed_noncompliance_counts_from_patch_states session
            = ExplorerReporter.get_empty_noncompliance_counts
        end
    | Raise _ =>
        ExplorerReporter.get_detailed_noncompliance_counts_from_patch_states session
        = ExplorerReporter.get_empty_noncompliance_counts
    end.
Proof.
  intros session.
  unfold ExplorerReporter.get_detailed_noncompliance_counts_from_patch_states,
    ExplorerReporter.run_detailed_noncompliance_counts.
  destruct (ExplorerReporter.client_ssm session) as [ssm_client|e]; [|reflexivity].
  destruct (failure _); [reflexivity|].
  rewrite ExplorerTotals.explorer_online_ids_flat.
  change (fun item : InstanceInformation =>
            match PingStatus item with
            | Some s => String.eqb s "Online"
            | None => false
            end) with ExplorerReporter.is_online.
  destruct (map info_InstanceId _) as [|i ids] eqn:Hids.
  - unfold Observed.details_tally, Observed.sum_clamped. cbn. repeat split.
  - destruct (ExplorerTotals.batches_add ssm_client (ExplorerReporter.batches (i :: ids)) []
                ExplorerReporter.get_empty_noncompliance_counts)
      as (H1 & H2 & H3 & H4 & H5 & H6).
    unfold Observed.details_tally. cbn [List.length] in *.
    rewrite H1, H2, H3, H4, H5, H6. cbn. repeat split.
Qed.

(** The totals of the two accounts of [Cases.explorer_accounts] are those
    of the regions stored for them. *)
Lemma organisation_summary_sums_the_stored_regions_witness :
  NoDup (map fst Cases.explorer_accounts)
  /\ ExplorerReporter.organization_summary
       (ExplorerReporter.collect_compliance_data Cases.explorer_sessions
          Cases.explorer_accounts)
     = fold_left ExplorerReporter.add_region
         (Observed.stored_reports
            (ExplorerReporter.collect_compliance_data Cases.explorer_sessions
               Cases.explorer_accounts))
         ExplorerReporter.empty_report.
Proof.
  assert (Hnd : NoDup (map fst Cases.explorer_accounts)).
  { cbn. constructor; [|constructor; [|constructor]].
    - intros [H|[]]. discriminate.
    - intros []. }
  split; [exact Hnd|].
  exact (proj1 (organisation_summary_sums_the_stored_regions Cases.explorer_sessions
                  Cases.explorer_accounts Hnd)).
Defined.

(* ------------------------------------------------------------------ *)
(** * Further properties of the dashboard unit *)

Module UnitFacts.
Import PatchComplianceFinal Views DictFacts Observed.

Lemma find_last_app {A : Type} (p : A -> bool) (l : list A) (x : A) :
  find_last p (l ++ [x]) = if p x then Some x else find_last p l.
Proof.
  unfold find_last. rewrite rev_app_distr. reflexivity.
Qed.

(** The entry of the inventory for [k] is built from the last listing of
    [k]. *)
Lemma inventory_get (pgs : list (list Reservation)) (k : string) :
  dict_get (collect_instances pgs) k
  = option_map listed (find_last (names k) (List.concat (List.concat pgs))).
Proof.
  rewrite Reconcile.collect_instances_flat.
  generalize (List.concat (List.concat pgs)). intros l.
  induction l as [|inst l IH] using rev_ind; [reflexivity|].
  rewrite fold_left_app, find_last_app. cbn [fold_left].
  unfold record_instance at 1. rewrite get_set. unfold names at 1.
  destruct (String.eqb (InstanceId inst) k); [reflexivity|exact IH].
Qed.

Lemma touched_managed_fields (k : string) (l : list InstanceInformation) (i : InstanceInfo) :
  let i' := fold_left (touch_managed k) l i in
  name i' = name i /\ platform i' = platform i /\ state i' = state i
  /\ launch i' = launch i /\ processed i' = processed i
  /\ match find_last (registers k) l with
     | Some item =>
         ssm_managed i' = true /\ ssm_agent_status i' = get_or "Unknown" (PingStatus item)
     | None => ssm_managed i' = ssm_managed i /\ ssm_agent_status i' = ssm_agent_status i
     end.
Proof.
  induction l as [|item l IH] using rev_ind; cbv zeta.
  - cbn. repeat split.
  - rewrite fold_left_app, find_last_app. cbn [fold_left]. cbv zeta in IH.
    destruct IH as (H1 & H2 & H3 & H4 & H5 & H6).
    set (j := fold_left (touch_managed k) l i) in *.
    unfold touch_managed. unfold registers at 1.
    destruct (String.eqb (info_InstanceId item) k).
    + cbn [name platform state launch processed ssm_managed ssm_agent_status].
      repeat split; first [assumption|reflexivity].
    + repeat split; assumption.
Qed.

Lemma touched_summary_fields (k : string) (l : list ResourceComplianceSummaryItem) :
  forall i,
    let i' := fold_left (touch_summary k) l i in
    name i' = name i /\ platform i' = platform i /\ state i' = state i
    /\ launch i' = launch i /\ ssm_managed i' = ssm_managed i
    /\ ssm_agent_status i' = ssm_agent_status i.
Proof.
  induction l as [|s l IH]; intros i; cbn [fold_left]; cbv zeta.
  - repeat split.
  - destruct (IH (touch_summary k i s)) as (H1 & H2 & H3 & H4 & H5 & H6).
    rewrite H1, H2, H3, H4, H5, H6. unfold touch_summary.
    destruct (String.eqb _ k); repeat split.
Qed.

(** The run of a unit, pass by pass. *)
Lemma unit_run_explicit (account_name region : string) (c : Clients) (ssm : SsmClient)
    (ec2 : Ec2Client) :
  get_ssm c = Some ssm -> get_ec2 c = Some ec2 ->
  let r := run_unit account_name region c in
  let inv := collect_instances (pages (describe_instances ec2)) in
  let items := registry_items ssm in
  let sums := List.concat (pages (list_resource_compliance_summaries ssm)) in
  let m2 := fold_left record_managed items inv in
  run_instances r
  = snd (fold_left (patch_detail_step ssm (run_instance_map r)) (keys inv)
           ([], summary_rows account_name region m2 sums))
    ++ flat_map (unmanaged_row account_name region) (run_instance_map r)
  /\ keys (run_instance_map r) = keys inv
  /\ (forall k, dict_get (run_instance_map r) k
                = option_map (fun i => fold_left (touch_summary k) sums
                                         (fold_left (touch_managed k) items i))
                    (dict_get inv k))
  /\ (forall k, dict_get m2 k
                = option_map (fun i => fold_left (touch_managed k) items i) (dict_get inv k)).
Proof.
  intros Hssm Hec2. unfold run_unit, registry_items. rewrite Hssm, Hec2.
  set (inv := collect_instances (pages (describe_instances ec2))).
  unfold collect_managed. rewrite fold_left_concat.
  set (items := List.concat (pages (describe_instance_information ssm))).
  set (m2 := fold_left record_managed items inv).
  unfold collect_summaries. rewrite fold_left_concat.
  set (sums := List.concat (pages (list_resource_compliance_summaries ssm))).
  destruct (Reconcile.summaries_pass account_name region sums m2 []) as (Hk3 & Hg3 & Hr3).
  destruct (fold_left (record_summary account_name region) sums (m2, [])) as [m3 rows3].
  cbn [fst snd app] in Hk3, Hg3, Hr3.
  assert (Hk2 : keys m2 = keys inv) by apply Reconcile.managed_keys.
  unfold collect_patch_details. rewrite Hk3, Hk2, Hr3.
  destruct (fold_left (patch_detail_step ssm m3) (keys inv)
              ([], summary_rows account_name region m2 sums)) as [calls rows4] eqn:Hfold.
  cbv zeta. cbn [run_instances run_instance_map]. rewrite Hfold. cbn [snd].
  split; [|split; [|split]].
  - unfold add_unmanaged. apply fold_left_append.
  - now rewrite Hk3.
  - intros k. rewrite Hg3. unfold m2. rewrite Reconcile.managed_get.
    now destruct (dict_get inv k).
  - intros k. apply Reconcile.managed_get.
Qed.

Lemma in_rows_of (iid : string) (rows : list InstanceRow) (r : InstanceRow) :
  In r (rows_of iid rows) <-> In r rows /\ Instance_ID r = iid.
Proof.
  unfold rows_of. rewrite filter_In. now rewrite String.eqb_eq.
Qed.

(** Where a row of the unit comes from: the last EC2 listing of its
    instance, the registry items about it, and either a compliance summary
    or the unmanaged pass. *)
Lemma row_origin (account_name region : string) (c : Clients) (ssm : SsmClient)
    (ec2 : Ec2Client) :
  get_ssm c = Some ssm -> get_ec2 c = Some ec2 ->
  forall r, In r (run_instances (run_unit account_name region c)) ->
  exists inst info,
    find_last (names (Instance_ID r)) (listing ec2) = Some inst
    /\ info = fold_left (touch_managed (Instance_ID r)) (registry_items ssm) (listed inst)
    /\ ((exists s, strip_counts r = summary_row account_name region s info)
        \/ (ssm_managed info = false
            /\ unmanaged_row account_name region
                 (Instance_ID r,
                  fold_left (touch_summary (Instance_ID r))
                    (List.concat (pages (list_resource_compliance_summaries ssm))) info)
               = [r])).
Proof.
  intros Hssm Hec2 r Hin.
  destruct (unit_run_explicit account_name region c ssm ec2 Hssm Hec2)
    as (Hrows & Hkeys & Hget3 & Hget2).
  cbv zeta in Hrows, Hkeys, Hget3, Hget2.
  rewrite Hrows in Hin. apply in_app_or in Hin. destruct Hin as [Hin|Hin].
  - destruct (Reconcile.details_pass ssm
                (run_instance_map (run_unit account_name region c))
                (keys (collect_instances (pages (describe_instances ec2)))) []
                (summary_rows account_name region
                   (fold_left record_managed (registry_items ssm)
                      (collect_instances (pages (describe_instances ec2))))
                   (List.concat (pages (list_resource_compliance_summaries ssm)))))
      as [Hstrip _].
    cbv zeta in Hstrip. rewrite Reconcile.strip_summary_rows in Hstrip.
    apply (in_map strip_counts) in Hin. rewrite Hstrip in Hin.
    unfold summary_rows in Hin. apply in_flat_map in Hin. destruct Hin as (s & _ & Hs).
    destruct (dict_get _ (get_or "" (ResourceId s))) as [info|] eqn:Hinfo; [|contradiction].
    destruct Hs as [Hs|[]].
    assert (Hid : get_or "" (ResourceId s) = Instance_ID r).
    { change (Instance_ID r) with (Instance_ID (strip_counts r)). now rewrite <- Hs. }
    rewrite Hid, Hget2, inventory_get in Hinfo. unfold listing.
    destruct (find_last (names (Instance_ID r)) _) as [inst|]; [|discriminate].
    cbn [option_map] in Hinfo. injection Hinfo as Hinfo.
    exists inst, info. split; [reflexivity|]. split; [now symmetry|].
    left. exists s. now symmetry.
  - apply in_flat_map in Hin. destruct Hin as ([k info3] & Hentry & Hr).
    assert (Hnd : NoDup (keys (run_instance_map (run_unit account_name region c)))).
    { rewrite Hkeys. apply Reconcile.inventory_nodup. }
    pose proof (in_get _ _ _ Hnd Hentry) as Hget.
    assert (Hk : Instance_ID r = k /\ unmanaged_row account_name region (k, info3) = [r]
                 /\ ssm_managed info3 = false).
    { unfold unmanaged_row in *.
      destruct (processed info3); destruct (ssm_managed info3); cbn [negb andb] in *;
        try contradiction.
      destruct Hr as [<-|[]]. repeat split. }
    destruct Hk as (Hid & Hrow & Hunmanaged). subst k.
    rewrite Hget3, inventory_get in Hget. unfold listing.
    destruct (find_last (names (Instance_ID r)) _) as [inst|]; [|discriminate].
    cbn [option_map] in Hget. injection Hget as Hget.
    exists inst, (fold_left (touch_managed (Instance_ID r)) (registry_items ssm) (listed inst)).
    split; [reflexivity|]. split; [reflexivity|]. right.
    rewrite Hget. split; [|exact Hrow].
    destruct (touched_summary_fields (Instance_ID r)
                (List.concat (pages (list_resource_compliance_summaries ssm)))
                (fold_left (touch_managed (Instance_ID r)) (registry_items ssm) (listed inst)))
      as (_ & _ & _ & _ & Hm & _).
    rewrite Hget in Hm. now rewrite <- Hm.
Qed.

(** *** The patch-detail pass on the rows of one instance *)

Lemma add_patch_details_rows_of (iid : string) (st : InstancePatchState)
    (rows : list InstanceRow) :
  rows_of iid (add_patch_details iid st rows) = add_patch_details iid st (rows_of iid rows).
Proof.
  unfold rows_of. induction rows as [|r rows IH]; cbn [add_patch_details filter];
    [reflexivity|].
  destruct (String.eqb (Instance_ID r) iid) eqn:He;
    cbn [filter Instance_ID add_patch_details]; rewrite He; [reflexivity|exact IH].
Qed.

Lemma details_skip (ssm : SsmClient) (im : dict InstanceInfo) (iid : string)
    (ks : list string) :
  ~ In iid ks ->
  forall calls rows,
    rows_of iid (snd (fold_left (patch_detail_step ssm im) ks (calls, rows)))
    = rows_of iid rows.
Proof.
  induction ks as [|k ks IH]; intros Hout calls rows; cbn [fold_left]; [reflexivity|].
  assert (Hne : k <> iid) by (intros ->; apply Hout; now left).
  assert (Hout' : ~ In iid ks) by (intros H; apply Hout; now right).
  unfold patch_detail_step at 2.
  destruct (is_processed im k); [|now apply IH].
  destruct (describe_instance_patch_states ssm (List.length calls) [k]) as [[|s0 ss]|e];
    try now apply IH.
  rewrite (IH Hout'). now apply Reconcile.add_patch_details_other.
Qed.

Lemma details_hit (ssm : SsmClient) (im : dict InstanceInfo) (iid : string)
    (st : InstancePatchState) (ks : list string) :
  answers ssm iid st -> is_processed im iid = true -> NoDup ks -> In iid ks ->
  forall calls rows,
    rows_of iid (snd (fold_left (patch_detail_step ssm im) ks (calls, rows)))
    = add_patch_details iid st (rows_of iid rows).
Proof.
  intros Hanswer Hprocessed.
  induction ks as [|k ks IH]; intros Hnd Hin calls rows; [contradiction|].
  inversion Hnd as [|? ? Hout Hnd']. subst. cbn [fold_left].
  destruct (string_dec k iid) as [->|Hne].
  - unfold patch_detail_step at 2. rewrite Hprocessed.
    destruct (Hanswer (List.length calls)) as [more ->].
    rewrite (details_skip ssm im iid ks Hout). apply add_patch_details_rows_of.
  - destruct Hin as [Heq|Hin]; [contradiction|].
    unfold patch_detail_step at 2.
    destruct (is_processed im k); [|now apply IH].
    destruct (describe_instance_patch_states ssm (List.length calls) [k]) as [[|s0 ss]|e];
      try now apply IH.
    rewrite (IH Hnd' Hin). f_equal. now apply Reconcile.add_patch_details_other.
Qed.

Lemma summary_rows_no_counts (account_name region : string) (m : dict InstanceInfo)
    (l : list ResourceComplianceSummaryItem) :
  Forall no_counts (summary_rows account_name region m l).
Proof.
  apply Forall_forall. intros r Hin. unfold summary_rows in Hin.
  apply in_flat_map in Hin. destruct Hin as (s & _ & Hs).
  destruct (dict_get m _) as [info|]; [|contradiction].
  destruct Hs as [<-|[]]. unfold no_counts. cbn. repeat split.
Qed.

Lemma rows_of_app (iid : string) (l1 l2 : list InstanceRow) :
  rows_of iid (l1 ++ l2) = rows_of iid l1 ++ rows_of iid l2.
Proof. apply filter_app. Qed.

Lemma rows_of_summary_ids (account_name region iid : string) (m : dict InstanceInfo)
    (l : list ResourceComplianceSummaryItem) :
  dict_mem m iid = true ->
  map Instance_ID (rows_of iid (summary_rows account_name region m l))
  = filter (String.eqb iid) (map (fun s => get_or "" (ResourceId s)) l).
Proof.
  intros Hmem. unfold rows_of, summary_rows.
  induction l as [|s l IH]; [reflexivity|].
  cbn [flat_map map filter]. rewrite filter_app, map_app, IH.
  set (k := get_or "" (ResourceId s)).
  destruct (dict_get m k) as [info|] eqn:Hk.
  - cbn [filter]. change (Instance_ID (summary_row account_name region s info)) with k.
    rewrite (String.eqb_sym k iid). destruct (String.eqb iid k); reflexivity.
  - destruct (String.eqb iid k) eqn:He; [|reflexivity].
    apply String.eqb_eq in He. subst iid. unfold dict_mem in Hmem.
    rewrite Hk in Hmem. discriminate.
Qed.

End UnitFacts.

Module TextFacts.

Lemma prefix_chars (s : string) :
  forall n, chars (prefix n s) = Nat.min n (chars s).
Proof.
  induction s as [|c s IH]; intros n; cbn [prefix chars].
  - now rewrite Nat.min_0_r.
  - destruct (is_continuation c) eqn:Hc.
    + cbn [chars]. rewrite Hc. apply IH.
    + destruct n as [|n]; cbn [chars]; [reflexivity|].
      rewrite Hc, IH. reflexivity.
Qed.

Lemma prefix_split (s : string) :
  forall n, exists rest,
    s = (prefix n s ++ rest)%string
    /\ match rest with
       | EmptyString => True
       | String c _ => is_continuation c = false
       end.
Proof.
  induction s as [|c s IH]; intros n; cbn [prefix].
  - exists EmptyString. now split.
  - destruct (is_continuation c) eqn:Hc.
    + destruct (IH n) as (rest & Hs & Hrest). exists rest.
      split; [cbn; now rewrite <- Hs|exact Hrest].
    + destruct n as [|n].
      * exists (String c s). split; [reflexivity|exact Hc].
      * destruct (IH n) as (rest & Hs & Hrest). exists rest.
        split; [cbn; now rewrite <- Hs|exact Hrest].
Qed.

Lemma prefix_short (s : string) :
  forall n, (chars s <= n)%nat -> prefix n s = s.
Proof.
  induction s as [|c s IH]; intros n; cbn [prefix chars]; [reflexivity|].
  destruct (is_continuation c).
  - intros H. now rewrite IH.
  - destruct n as [|n]; intros H; [lia|]. rewrite IH; [reflexivity|lia].
Qed.

End TextFacts.

(** X11.  A unit of [fetch_account_region_data] that has both clients logs
    exactly one message for each of its five guarded listings that failed,
    in the order of the listings: the warning sign, the account name and the
    region, the label of the listing and the first 50 characters of the
    exception.  Failures of the per-instance patch-state calls and of the
    per-group calls leave no message, so the log is empty exactly when no
    listing failed.  A unit without one of its clients returns no data and
    the single message of the failed authentication.  The text kept of an
    exception is a whole number of characters from its start: all of it
    when it has 50 characters or fewer, 50 characters otherwise. *)
Theorem unit_logs_one_message_per_failed_listing :
  forall (account_name region : string) (c : PatchComplianceFinal.Clients),
    let errors := snd (PatchComplianceFinal.fetch_account_region_data account_name region c) in
    let message (label : string) (listing_failure : option string) : list string :=
      match listing_failure with
      | Some e =>
          [(warning_sign ++ " " ++ account_name ++ "/" ++ region ++ ": "
            ++ label ++ " - " ++ prefix 50 e)%string]
      | None => []
      end in
    match PatchComplianceFinal.get_ssm c, PatchComplianceFinal.get_ec2 c with
    | Some ssm, Some ec2 =>
        let ec2_failure := failure (PatchComplianceFinal.describe_instances ec2) in
        let registry_failure :=
          failure (PatchComplianceFinal.describe_instance_information ssm) in
        let summaries_failure :=
          failure (PatchComplianceFinal.list_resource_compliance_summaries ssm) in
        let groups_failure := failure (PatchComplianceFinal.describe_patch_groups ssm) in
        let patches_failure :=
          failure (PatchComplianceFinal.describe_available_patches ssm) in
        errors = message "EC2 error" ec2_failure
                 ++ message "SSM instances" registry_failure
                 ++ message "Compliance summaries" summaries_failure
                 ++ message "Patch groups" groups_failure
                 ++ message "Patches" patches_failure
        /\ (errors = [] <->
            ec2_failure = None /\ registry_failure = None /\ summaries_failure = None
            /\ groups_failure = None /\ patches_failure = None)
        /\ (List.length errors <= 5)%nat
    | _, _ =>
        PatchComplianceFinal.fetch_account_region_data account_name region c
        = ([], [], [],
           [(cross_mark ++ " " ++ account_name ++ "/" ++ region ++ ": Auth failed")%string])
    end
    /\ (forall e : string,
          chars (prefix 50 e) = Nat.min 50 (chars e)
          /\ ((chars e <= 50)%nat -> prefix 50 e = e)
          /\ exists rest,
               e = (prefix 50 e ++ rest)%string
               /\ match rest with
                  | EmptyString => True
                  | String c _ => is_continuation c = false
                  end).
Proof.
  intros account_name region c. cbv zeta. split.
  2:{ intros e. split; [apply TextFacts.prefix_chars|].
      split; [apply TextFacts.prefix_short|apply TextFacts.prefix_split]. }
  unfold PatchComplianceFinal.fetch_account_region_data, PatchComplianceFinal.run_unit.
  destruct (PatchComplianceFinal.get_ssm c) as [ssm|]; [|reflexivity].
  destruct (PatchComplianceFinal.get_ec2 c) as [ec2|]; [|reflexivity].
  destruct (PatchComplianceFinal.collect_summaries _ _ _ _) as [m3 rows3].
  destruct (PatchComplianceFinal.collect_patch_details _ _ _) as [calls rows4].
  cbv zeta. cbn [snd PatchComplianceFinal.run_errors].
  unfold PatchComplianceFinal.guard, PatchComplianceFinal.tagged.
  destruct (failure (PatchComplianceFinal.describe_instances ec2));
    destruct (failure (PatchComplianceFinal.describe_instance_information ssm));
    destruct (failure (PatchComplianceFinal.list_resource_compliance_summaries ssm));
    destruct (failure (PatchComplianceFinal.describe_patch_groups ssm));
    destruct (failure (PatchComplianceFinal.describe_available_patches ssm));
    cbn [app List.length];
    (split; [reflexivity|split; [|lia]]);
    (split;
     [intros H; try discriminate H; repeat split
     |intros (H1 & H2 & H3 & H4 & H5);
      first [reflexivity | discriminate H1 | discriminate H2 | discriminate H3
            | discriminate H4 | discriminate H5]]).
Qed.

(** X12.  Every instance row of a unit carries the unit's account name and
    region, and describes an instance the EC2 listing yielded: its name,
    platform, state and launch time are those of the last item the listing
    has for that identifier, the name being the value of the first tag whose
    key is Name, or the identifier when there is none, and the platform being
    linux when the item has none. *)
Theorem rows_describe_the_last_listing :
  forall (account_name region : string) (c : PatchComplianceFinal.Clients)
         (ec2 : PatchComplianceFinal.Ec2Client) (r : PatchComplianceFinal.InstanceRow),
    PatchComplianceFinal.get_ec2 c = Some ec2 ->
    In r (PatchComplianceFinal.run_instances
            (PatchComplianceFinal.run_unit account_name region c)) ->
    PatchComplianceFinal.Account_Name r = account_name
    /\ PatchComplianceFinal.Region r = region
    /\ exists inst,
         Observed.find_last (Observed.names (PatchComplianceFinal.Instance_ID r))
           (Observed.listing ec2) = Some inst
         /\ PatchComplianceFinal.Instance_Name r
            = PatchComplianceFinal.name_tag (Tags inst) (PatchComplianceFinal.Instance_ID r)
         /\ PatchComplianceFinal.row_Platform r = get_or "linux" (Platform inst)
         /\ PatchComplianceFinal.Instance_State r = State_Name inst
         /\ PatchComplianceFinal.Launch_Time r = LaunchTime inst.
Proof.
  intros account_name region c ec2 r Hec2 Hin.
  destruct (PatchComplianceFinal.get_ssm c) as [ssm|] eqn:Hssm.
  2:{ unfold PatchComplianceFinal.run_unit in Hin. rewrite Hssm in Hin. contradiction. }
  destruct (UnitFacts.row_origin account_name region c ssm ec2 Hssm Hec2 r Hin)
    as (inst & info & Hlast & Hinfo & Horigin).
  assert (Hnamed : InstanceId inst = PatchComplianceFinal.Instance_ID r).
  { unfold Observed.find_last in Hlast. apply find_some in Hlast.
    now apply String.eqb_eq. }
  destruct (UnitFacts.touched_managed_fields (PatchComplianceFinal.Instance_ID r)
              (Observed.registry_items ssm) (Observed.listed inst))
    as (H1 & H2 & H3 & H4 & _).
  cbv zeta in H1, H2, H3, H4. rewrite <- Hinfo in H1, H2, H3, H4.
  cbn [Observed.listed PatchComplianceFinal.name PatchComplianceFinal.platform
       PatchComplianceFinal.state PatchComplianceFinal.launch] in H1, H2, H3, H4.
  rewrite Hnamed in H1.
  destruct Horigin as [[s Hs]|[_ Hrow]].
  - assert (Hfields :
              PatchComplianceFinal.Account_Name r = account_name
              /\ PatchComplianceFinal.Region r = region
              /\ PatchComplianceFinal.Instance_Name r = PatchComplianceFinal.name info
              /\ PatchComplianceFinal.row_Platform r = PatchComplianceFinal.platform info
              /\ PatchComplianceFinal.Instance_State r = PatchComplianceFinal.state info
              /\ PatchComplianceFinal.Launch_Time r = PatchComplianceFinal.launch info).
    { change (PatchComplianceFinal.Account_Name r)
        with (PatchComplianceFinal.Account_Name (Views.strip_counts r)).
      change (PatchComplianceFinal.Region r)
        with (PatchComplianceFinal.Region (Views.strip_counts r)).
      change (PatchComplianceFinal.Instance_Name r)
        with (PatchComplianceFinal.Instance_Name (Views.strip_counts r)).
      change (PatchComplianceFinal.row_Platform r)
        with (PatchComplianceFinal.row_Platform (Views.strip_counts r)).
      change (PatchComplianceFinal.Instance_State r)
        with (PatchComplianceFinal.Instance_State (Views.strip_counts r)).
      change (PatchComplianceFinal.Launch_Time r)
        with (PatchComplianceFinal.Launch_Time (Views.strip_counts r)).
      rewrite Hs. cbn. repeat split. }
    destruct Hfields as (F1 & F2 & F3 & F4 & F5 & F6).
    split; [exact F1|]. split; [exact F2|]. exists inst.
    split; [exact Hlast|]. rewrite F3, F4, F5, F6, H1, H2, H3, H4. repeat split.
  - destruct (UnitFacts.touched_summary_fields (PatchComplianceFinal.Instance_ID r)
                (List.concat (pages (PatchComplianceFinal.list_resource_compliance_summaries
                                       ssm))) info)
      as (S1 & S2 & S3 & S4 & _).
    cbv zeta in S1, S2, S3, S4.
    unfold PatchComplianceFinal.unmanaged_row in Hrow.
    destruct (negb _ && negb _); [|discriminate].
    injection Hrow as Hrow.
    assert (Hfields :
              PatchComplianceFinal.Account_Name r = account_name
              /\ PatchComplianceFinal.Region r = region
              /\ PatchComplianceFinal.Instance_Name r = PatchComplianceFinal.name info
              /\ PatchComplianceFinal.row_Platform r = PatchComplianceFinal.platform info
              /\ PatchComplianceFinal.Instance_State r = PatchComplianceFinal.state info
              /\ PatchComplianceFinal.Launch_Time r = PatchComplianceFinal.launch info).
    { rewrite <- Hrow at 1 2 3 4 5 6. cbn. rewrite S1, S2, S3, S4. repeat split. }
    destruct Hfields as (F1 & F2 & F3 & F4 & F5 & F6).
    split; [exact F1|]. split; [exact F2|]. exists inst.
    split; [exact Hlast|]. rewrite F3, F4, F5, F6, H1, H2, H3, H4. repeat split.
Qed.

(** In the unit [Cases.relisted], the row of [i-1] shows the second
    listing of the instance: named by its tag and running. *)
Lemma rows_describe_the_last_listing_witness :
  In Cases.relisted_row
    (PatchComplianceFinal.run_instances
       (PatchComplianceFinal.run_unit "prod" "eu-west-1" Cases.relisted))
  /\ PatchComplianceFinal.Instance_Name Cases.relisted_row = "web-1"
  /\ PatchComplianceFinal.Instance_State Cases.relisted_row = "running".
Proof.
  assert (Hin : In Cases.relisted_row
                  (PatchComplianceFinal.run_instances
                     (PatchComplianceFinal.run_unit "prod" "eu-west-1" Cases.relisted))).
  { vm_compute. left. reflexivity. }
  split; [exact Hin|].
  destruct (rows_describe_the_last_listing "prod" "eu-west-1" Cases.relisted
              Cases.relisted_ec2 Cases.relisted_row eq_refl Hin)
    as (_ & _ & inst & Hlast & Hname & _ & Hstate & _).
  vm_compute in Hlast. injection Hlast as <-.
  split; [exact Hname|exact Hstate].
Defined.

(** X13.  The Managed flag and the agent status of a row come from the
    registry: when the registry lists the instance, the row is flagged as
    managed and shows the ping status of the last registry item about it
    (Unknown when the item has none); when it does not, the row is flagged as
    not managed and shows either Unknown, on a row built from a compliance
    summary, or Not Installed, on an UNMANAGED row with zero counts. *)
Theorem agent_status_is_the_last_ping :
  forall (account_name region : string) (c : PatchComplianceFinal.Clients)
         (ssm : PatchComplianceFinal.SsmClient) (r : PatchComplianceFinal.InstanceRow),
    PatchComplianceFinal.get_ssm c = Some ssm ->
    In r (PatchComplianceFinal.run_instances
            (PatchComplianceFinal.run_unit account_name region c)) ->
    match Observed.find_last (Observed.registers (PatchComplianceFinal.Instance_ID r))
            (Observed.registry_items ssm) with
    | Some item =>
        PatchComplianceFinal.Managed r = true
        /\ PatchComplianceFinal.SSM_Agent_Status r = get_or "Unknown" (PingStatus item)
    | None =>
        PatchComplianceFinal.Managed r = false
        /\ (PatchComplianceFinal.SSM_Agent_Status r = "Unknown"
            \/ (PatchComplianceFinal.SSM_Agent_Status r = "Not Installed"
                /\ PatchComplianceFinal.Compliance_Status r = "UNMANAGED"
                /\ Views.zero_counts r))
    end.
Proof.
  intros account_name region c ssm r Hssm Hin.
  destruct (PatchComplianceFinal.get_ec2 c) as [ec2|] eqn:Hec2.
  2:{ unfold PatchComplianceFinal.run_unit in Hin. rewrite Hssm, Hec2 in Hin.
      contradiction. }
  destruct (UnitFacts.row_origin account_name region c ssm ec2 Hssm Hec2 r Hin)
    as (inst & info & _ & Hinfo & Horigin).
  destruct (UnitFacts.touched_managed_fields (PatchComplianceFinal.Instance_ID r)
              (Observed.registry_items ssm) (Observed.listed inst))
    as (_ & _ & _ & _ & _ & Hreg).
  cbv zeta in Hreg. rewrite <- Hinfo in Hreg.
  cbn [Observed.listed PatchComplianceFinal.ssm_managed
       PatchComplianceFinal.ssm_agent_status] in Hreg.
  destruct Horigin as [[s Hs]|[Hunmanaged Hrow]].
  - assert (Hfields :
              PatchComplianceFinal.Managed r = PatchComplianceFinal.ssm_managed info
              /\ PatchComplianceFinal.SSM_Agent_Status r
                 = PatchComplianceFinal.ssm_agent_status info).
    { change (PatchComplianceFinal.Managed r)
        with (PatchComplianceFinal.Managed (Views.strip_counts r)).
      change (PatchComplianceFinal.SSM_Agent_Status r)
        with (PatchComplianceFinal.SSM_Agent_Status (Views.strip_counts r)).
      rewrite Hs. now split. }
    destruct Hfields as [F1 F2]. rewrite F1, F2.
    destruct (Observed.find_last _ (Observed.registry_items ssm)) as [item|].
    + exact Hreg.
    + destruct Hreg as [Hm Hs']. split; [exact Hm|]. now left.
  - destruct (Observed.find_last _ (Observed.registry_items ssm)) as [item|].
    + destruct Hreg as [Hm _]. congruence.
    + unfold PatchComplianceFinal.unmanaged_row in Hrow.
      destruct (negb _ && negb _); [|discriminate].
      injection Hrow as <-. cbn. split; [reflexivity|]. right.
      unfold Views.zero_counts. cbn. repeat split.
Qed.

(** In the unit [Cases.relisted], the registry lists [i-1] with a lost
    connection and then Online: its row shows Online. *)
Lemma agent_status_is_the_last_ping_witness :
  In Cases.relisted_row
    (PatchComplianceFinal.run_instances
       (PatchComplianceFinal.run_unit "prod" "eu-west-1" Cases.relisted))
  /\ PatchComplianceFinal.Managed Cases.relisted_row = true
  /\ PatchComplianceFinal.SSM_Agent_Status Cases.relisted_row = "Online".
Proof.
  assert (Hin : In Cases.relisted_row
                  (PatchComplianceFinal.run_instances
                     (PatchComplianceFinal.run_unit "prod" "eu-west-1" Cases.relisted))).
  { vm_compute. left. reflexivity. }
  split; [exact Hin|].
  exact (agent_status_is_the_last_ping "prod" "eu-west-1" Cases.relisted Cases.relisted_ssm
           Cases.relisted_row eq_refl Hin).
Defined.

(** X14.  The patch-detail pass gives the four patch counts to one row per
    instance only: for an instance of the inventory that has compliance
    summaries and for which the provider answers the patch-state request
    with a record, the first row of the instance carries the installed,
    missing and failed counts of that record (zero when absent) and, as
    unspecified, the sum of its two not-applicable counts, while every later
    row of the same instance has none of the four counts. *)
Theorem patch_counts_go_to_the_first_row :
  forall (account_name region : string) (c : PatchComplianceFinal.Clients)
         (ssm : PatchComplianceFinal.SsmClient) (iid : string) (st : InstancePatchState),
    PatchComplianceFinal.get_ssm c = Some ssm ->
    In iid (keys (PatchComplianceFinal.inventory c)) ->
    In iid (PatchComplianceFinal.summary_ids c) ->
    Observed.answers ssm iid st ->
    exists first rest,
      Views.rows_of iid
        (PatchComplianceFinal.run_instances
           (PatchComplianceFinal.run_unit account_name region c))
      = first :: rest
      /\ Observed.with_counts st first
      /\ Forall Views.no_counts rest
      /\ S (List.length rest)
         = List.length (filter (String.eqb iid) (PatchComplianceFinal.summary_ids c)).
Proof.
  intros account_name region c ssm iid st Hssm Hinv Hsum Hanswer.
  destruct (PatchComplianceFinal.get_ec2 c) as [ec2|] eqn:Hec2.
  2:{ unfold PatchComplianceFinal.inventory in Hinv. rewrite Hssm, Hec2 in Hinv.
      contradiction. }
  destruct (UnitFacts.unit_run_explicit account_name region c ssm ec2 Hssm Hec2)
    as (Hrows & Hkeys & Hget3 & Hget2).
  cbv zeta in Hrows, Hkeys, Hget3, Hget2.
  assert (Hinv' : PatchComplianceFinal.inventory c
                  = PatchComplianceFinal.collect_instances
                      (pages (PatchComplianceFinal.describe_instances ec2))).
  { unfold PatchComplianceFinal.inventory. now rewrite Hssm, Hec2. }
  assert (Hsids : PatchComplianceFinal.summary_ids c
                  = map (fun s => get_or "" (ResourceId s))
                      (List.concat
                         (pages (PatchComplianceFinal.list_resource_compliance_summaries ssm)))).
  { unfold PatchComplianceFinal.summary_ids. now rewrite Hssm. }
  rewrite Hinv' in Hinv. rewrite Hsids in Hsum |- *.
  set (inv := PatchComplianceFinal.collect_instances
                (pages (PatchComplianceFinal.describe_instances ec2))) in *.
  set (sums := List.concat
                 (pages (PatchComplianceFinal.list_resource_compliance_summaries ssm))) in *.
  set (m2 := fold_left PatchComplianceFinal.record_managed (Observed.registry_items ssm) inv)
    in *.
  set (m3 := PatchComplianceFinal.run_instance_map
               (PatchComplianceFinal.run_unit account_name region c)) in *.
  assert (Hnd : NoDup (keys inv)) by apply Reconcile.inventory_nodup.
  (* the entry of the instance is marked as processed *)
  destruct (dict_get inv iid) as [i0|] eqn:Hi0.
  2:{ apply DictFacts.get_none in Hi0. contradiction. }
  assert (Hentry : exists info, dict_get m3 iid = Some info
                                /\ PatchComplianceFinal.processed info = true).
  { eexists. split; [rewrite Hget3, Hi0; reflexivity|].
    destruct (Reconcile.touched_summary iid sums
                (fold_left (Views.touch_managed iid) (Observed.registry_items ssm) i0))
      as [_ Hp].
    rewrite Hp. apply orb_true_iff. right.
    apply DictFacts.mem_str_in. exact Hsum. }
  destruct Hentry as (info & Hinfo & Hprocessed).
  assert (Hmem2 : dict_mem m2 iid = true).
  { unfold dict_mem. now rewrite Hget2, Hi0. }
  (* no unmanaged row for it *)
  assert (Hnone : Views.rows_of iid
                    (flat_map (PatchComplianceFinal.unmanaged_row account_name region) m3)
                  = []).
  { rewrite (Reconcile.unmanaged_rows_of account_name region iid m3 info).
    - unfold PatchComplianceFinal.unmanaged_row. now rewrite Hprocessed.
    - now rewrite Hkeys.
    - exact Hinfo. }
  (* its summary rows *)
  assert (Hids : map PatchComplianceFinal.Instance_ID
                   (Views.rows_of iid (Views.summary_rows account_name region m2 sums))
                 = filter (String.eqb iid) (map (fun s => get_or "" (ResourceId s)) sums)).
  { now apply UnitFacts.rows_of_summary_ids. }
  rewrite Hrows, UnitFacts.rows_of_app, Hnone, app_nil_r.
  rewrite (UnitFacts.details_hit ssm m3 iid st (keys inv) Hanswer).
  - pose proof (UnitFacts.summary_rows_no_counts account_name region m2 sums) as Hno.
    assert (Hno' : Forall Views.no_counts
                     (Views.rows_of iid (Views.summary_rows account_name region m2 sums))).
    { apply Forall_forall. intros r Hr. apply UnitFacts.in_rows_of in Hr.
      now apply (proj1 (Forall_forall _ _) Hno). }
    assert (Hfirst : forall r,
               In r (Views.rows_of iid (Views.summary_rows account_name region m2 sums)) ->
               PatchComplianceFinal.Instance_ID r = iid).
    { intros r Hr. now apply UnitFacts.in_rows_of in Hr. }
    destruct (Views.rows_of iid (Views.summary_rows account_name region m2 sums))
      as [|first0 rest0] eqn:Hsummary.
    + exfalso. cbn [map] in Hids.
      clear - Hids Hsum.
      assert (Hin : In iid (filter (String.eqb iid)
                              (map (fun s => get_or "" (ResourceId s)) sums))).
      { apply filter_In. split; [exact Hsum|apply String.eqb_refl]. }
      rewrite <- Hids in Hin. contradiction.
    + cbn [PatchComplianceFinal.add_patch_details].
      rewrite (proj2 (String.eqb_eq _ _) (Hfirst first0 (or_introl eq_refl))).
      eexists. exists rest0. split; [reflexivity|]. split; [|split].
      * unfold Observed.with_counts. cbn. repeat split.
      * now inversion Hno'.
      * rewrite <- Hids. cbn [map List.length]. now rewrite length_map.
  - unfold PatchComplianceFinal.is_processed. now rewrite Hinfo.
  - exact Hnd.
  - exact Hinv.
Qed.

(** In the unit [Cases.relisted] the provider has two compliance summaries
    for [i-1]: the first row of [i-1] gets the counts of its patch state, the
    second none. *)
Lemma patch_counts_go_to_the_first_row_witness :
  exists first rest,
    Views.rows_of "i-1"
      (PatchComplianceFinal.run_instances
         (PatchComplianceFinal.run_unit "prod" "eu-west-1" Cases.relisted))
    = first :: rest
    /\ Observed.with_counts Cases.relisted_state first
    /\ Forall Views.no_counts rest
    /\ S (List.length rest)
       = List.length (filter (String.eqb "i-1")
                        (PatchComplianceFinal.summary_ids Cases.relisted)).
Proof.
  apply (patch_counts_go_to_the_first_row "prod" "eu-west-1" Cases.relisted
           Cases.relisted_ssm "i-1" Cases.relisted_state eq_refl).
  - vm_compute. left. reflexivity.
  - vm_compute. left. reflexivity.
  - intros n. exists []. reflexivity.
Defined.

(* ------------------------------------------------------------------ *)
(** * Further properties of the aggregate and of the catalog *)

Module CatalogFacts.
Import PatchComplianceFinal.

Lemma kept_first (rows : list PatchRow) :
  forall seen r,
    In r (drop_duplicates_from seen rows) ->
    find (fun x => String.eqb (Patch_ID x) (Patch_ID r)) rows = Some r.
Proof.
  induction rows as [|r0 rows IH]; intros seen r Hin; cbn [drop_duplicates_from] in Hin;
    [contradiction|].
  cbn [find].
  destruct (existsb (String.eqb (Patch_ID r0)) seen) eqn:Hseen.
  - assert (Hnew : ~ In (Patch_ID r) seen).
    { apply (Catalog.kept_are_new rows seen). now apply in_map. }
    destruct (String.eqb (Patch_ID r0) (Patch_ID r)) eqn:He.
    + apply String.eqb_eq in He. rewrite He in Hseen.
      apply DictFacts.mem_str_in in Hseen. contradiction.
    + now apply IH with (seen := seen).
  - destruct Hin as [->|Hin]; [now rewrite String.eqb_refl|].
    assert (Hnew : ~ In (Patch_ID r) (Patch_ID r0 :: seen)).
    { apply (Catalog.kept_are_new rows (Patch_ID r0 :: seen)). now apply in_map. }
    destruct (String.eqb (Patch_ID r0) (Patch_ID r)) eqn:He.
    + apply String.eqb_eq in He. exfalso. apply Hnew. now left.
    + now apply IH with (seen := Patch_ID r0 :: seen).
Qed.

Lemma distinct_kept (rows : list PatchRow) :
  forall seen,
    NoDup (map Patch_ID rows) ->
    (forall id, In id (map Patch_ID rows) -> ~ In id seen) ->
    drop_duplicates_from seen rows = rows.
Proof.
  induction rows as [|r rows IH]; intros seen Hnd Hnew; [reflexivity|].
  cbn [drop_duplicates_from]. cbn [map] in Hnd, Hnew.
  inversion Hnd as [|? ? Hout Hnd']. subst.
  destruct (existsb (String.eqb (Patch_ID r)) seen) eqn:Hseen.
  - apply DictFacts.mem_str_in in Hseen. exfalso. apply (Hnew (Patch_ID r)); [now left|exact Hseen].
  - f_equal. apply IH; [exact Hnd'|].
    intros id Hid [<-|Hin]; [contradiction|].
    apply (Hnew id); [now right|exact Hin].
Qed.

End CatalogFacts.

(** X15.  [unique_patches] keeps, for each patch identifier, the first row
    of the collection that has it, so the account and region shown for a
    patch are those of the first unit that listed it; applying it twice
    changes nothing more, and a collection without repeated identifier is
    returned as it is. *)
Theorem unique_patches_keeps_the_first_row :
  forall pat : list PatchComplianceFinal.PatchRow,
    (forall r, In r (PatchComplianceFinal.unique_patches pat) ->
       find (fun x => String.eqb (PatchComplianceFinal.Patch_ID x)
                        (PatchComplianceFinal.Patch_ID r)) pat = Some r)
    /\ PatchComplianceFinal.unique_patches (PatchComplianceFinal.unique_patches pat)
       = PatchComplianceFinal.unique_patches pat
    /\ (NoDup (map PatchComplianceFinal.Patch_ID pat) ->
        PatchComplianceFinal.unique_patches pat = pat).
Proof.
  intros pat. unfold PatchComplianceFinal.unique_patches. split; [|split].
  - intros r. apply CatalogFacts.kept_first.
  - apply CatalogFacts.distinct_kept; [apply Catalog.kept_distinct|].
    intros id _ [].
  - intros Hnd. apply CatalogFacts.distinct_kept; [exact Hnd|]. intros id _ [].
Qed.

Module AggregateFacts.
Import PatchComplianceFinal Observed.


Lemma row_tagged (account_name region : string) (c : Clients) (r : InstanceRow) :
  In r (run_instances (run_unit account_name region c)) ->
  Account_Name r = account_name /\ Region r = region.
Proof.
  intros Hin.
  destruct (get_ssm c) as [ssm|] eqn:Hssm.
  2:{ unfold run_unit in Hin. rewrite Hssm in Hin. contradiction. }
  destruct (get_ec2 c) as [ec2|] eqn:Hec2.
  2:{ unfold run_unit in Hin. rewrite Hssm, Hec2 in Hin. contradiction. }
  destruct (UnitFacts.row_origin account_name region c ssm ec2 Hssm Hec2 r Hin)
    as (inst & info & _ & _ & [[s Hs]|[_ Hrow]]).
  - change (Account_Name r) with (Account_Name (Views.strip_counts r)).
    change (Region r) with (Region (Views.strip_counts r)).
    rewrite Hs. now split.
  - unfold unmanaged_row in Hrow. destruct (negb _ && negb _); [|discriminate].
    injection Hrow as <-. now split.
Qed.

Lemma group_tagged (account_name region : string) (c : Clients) (g : GroupRow) :
  In g (run_groups (run_unit account_name region c)) ->
  grp_Account_Name g = account_name /\ grp_Region g = region /\ 0 < Instances_Count g.
Proof.
  unfold run_unit.
  destruct (get_ssm c) as [ssm|]; [|intros []].
  destruct (get_ec2 c) as [ec2|]; [|intros []].
  destruct (collect_summaries _ _ _ _) as [m3 rows3].
  destruct (collect_patch_details _ _ _) as [calls rows4].
  cbv zeta. cbn [run_groups]. unfold collect_groups. rewrite fold_left_concat.
  revert g. apply Forall_forall.
  apply (fold_left_invariant
           (fun st : nat * list GroupRow =>
              Forall (fun g => grp_Account_Name g = account_name /\ grp_Region g = region
                               /\ 0 < Instances_Count g) (snd st))).
  - intros [n groups] m Hst. cbn [snd] in Hst. unfold record_group.
    destruct (describe_patch_group_state ssm n _) as [resp|e]; [|exact Hst].
    destruct (0 <? get_or 0 (Instances resp)) eqn:Hc; cbn [snd]; [|exact Hst].
    apply Forall_app. split; [exact Hst|]. constructor; [|constructor].
    cbn. split; [reflexivity|]. split; [reflexivity|]. now apply Z.ltb_lt.
  - constructor.
Qed.

Lemma patch_tagged (account_name region : string) (c : Clients) (p : PatchRow) :
  In p (run_patches (run_unit account_name region c)) ->
  pat_Account_Name p = account_name /\ pat_Region p = region.
Proof.
  unfold run_unit.
  destruct (get_ssm c) as [ssm|]; [|intros []].
  destruct (get_ec2 c) as [ec2|]; [|intros []].
  destruct (collect_summaries _ _ _ _) as [m3 rows3].
  destruct (collect_patch_details _ _ _) as [calls rows4].
  cbv zeta. cbn [run_patches]. unfold collect_patches.
  rewrite (fold_left_concat (fun acc patch => acc ++ [patch_row account_name region patch])).
  rewrite fold_left_append. cbn [app]. intros Hin.
  apply in_flat_map in Hin. destruct Hin as (patch & _ & [<-|[]]). now split.
Qed.

(** The futures of a selection carry the labels of the selection. *)
Lemma submitted (account_ids : list string) (all_accounts : list Account)
    (regions : list string) (task : string -> string -> string -> outcome) (f : Future) :
  In f (submit account_ids all_accounts regions task) ->
  exists aid rgn,
    In aid account_ids /\ In rgn regions
    /\ f = {| fut_aname := get_account_name_by_id aid all_accounts;
              fut_rgn := rgn;
              fut_result := task aid (get_account_name_by_id aid all_accounts) rgn |}.
Proof.
  unfold submit. intros Hin. apply in_flat_map in Hin. destruct Hin as (aid & Haid & Hin).
  apply in_map_iff in Hin. destruct Hin as (rgn & <- & Hrgn).
  exists aid, rgn. now repeat split.
Qed.

Lemma name_by_id (aid : string) (all_accounts : list Account) :
  get_account_name_by_id aid all_accounts
  = match find (fun account => String.eqb (acc_Id account) aid) all_accounts with
    | Some account => acc_Name account
    | None => aid
    end.
Proof.
  induction all_accounts as [|account rest IH]; [reflexivity|].
  cbn [get_account_name_by_id find].
  destruct (String.eqb (acc_Id account) aid); [reflexivity|exact IH].
Qed.

End AggregateFacts.

(** X16.  When every task of [fetch_all_data] runs
    [fetch_account_region_data] for its account and region, then, whatever
    the order of completion, every instance row, patch-group row and catalog
    row of the aggregate is labelled with the name the directory gives to a
    selected account and with a selected region, and every patch-group row of
    the aggregate has an instance count above zero.  An account that the
    directory does not list is labelled with its identifier
    ([get_account_name_by_id]), and otherwise with the name of the first
    directory entry that has its identifier. *)
Theorem aggregate_rows_belong_to_the_selection :
  forall (account_ids : list string) (all_accounts : list PatchComplianceFinal.Account)
         (regions : list string) (clients : string -> string -> PatchComplianceFinal.Clients)
         (completed : list PatchComplianceFinal.Future),
    Permutation completed
      (PatchComplianceFinal.submit account_ids all_accounts regions
         (fun aid aname rgn =>
            PatchComplianceFinal.Returned
              (PatchComplianceFinal.fetch_account_region_data aname rgn (clients aid rgn)))) ->
    (exists a,
       PatchComplianceFinal.fetch_all_data completed = Ok a
       /\ (forall r, In r (PatchComplianceFinal.all_inst a) ->
             Observed.selected account_ids all_accounts regions
               (PatchComplianceFinal.Account_Name r) (PatchComplianceFinal.Region r))
       /\ (forall g, In g (PatchComplianceFinal.all_grp a) ->
             Observed.selected account_ids all_accounts regions
               (PatchComplianceFinal.grp_Account_Name g) (PatchComplianceFinal.grp_Region g)
             /\ 0 < PatchComplianceFinal.Instances_Count g)
       /\ (forall p, In p (PatchComplianceFinal.all_pat a) ->
             Observed.selected account_ids all_accounts regions
               (PatchComplianceFinal.pat_Account_Name p) (PatchComplianceFinal.pat_Region p)))
    /\ (forall aid,
          PatchComplianceFinal.get_account_name_by_id aid all_accounts
          = match find (fun account => String.eqb (PatchComplianceFinal.acc_Id account) aid)
                    all_accounts with
            | Some account => PatchComplianceFinal.acc_Name account
            | None => aid
            end).
Proof.
  intros account_ids all_accounts regions clients completed Hperm.
  split; [|intros aid; apply AggregateFacts.name_by_id].
  assert (Hunit : forall f, In f completed ->
            exists aid rgn,
              In aid account_ids /\ In rgn regions
              /\ PatchComplianceFinal.fut_result f
                 = PatchComplianceFinal.Returned
                     (PatchComplianceFinal.fetch_account_region_data
                        (PatchComplianceFinal.get_account_name_by_id aid all_accounts) rgn
                        (clients aid rgn))).
  { intros f Hf. apply (Permutation_in _ Hperm) in Hf.
    apply AggregateFacts.submitted in Hf. destruct Hf as (aid & rgn & Haid & Hrgn & ->).
    exists aid, rgn. now repeat split. }
  assert (Hhandled : Forall Outcome.handled completed).
  { apply Forall_forall. intros f Hf. destruct (Hunit f Hf) as (aid & rgn & _ & _ & Hres).
    unfold Outcome.handled. intros ex. rewrite Hres. discriminate. }
  destruct (Aggregator.drain_spec completed Hhandled
              {| PatchComplianceFinal.done := 0%nat; PatchComplianceFinal.all_inst := [];
                 PatchComplianceFinal.all_grp := []; PatchComplianceFinal.all_pat := [];
                 PatchComplianceFinal.all_err := [] |})
    as (a & Hrun & _ & Hinst & Hgrp & Hpat & _).
  cbn [PatchComplianceFinal.all_inst PatchComplianceFinal.all_grp
       PatchComplianceFinal.all_pat app] in Hinst, Hgrp, Hpat.
  exists a. split; [exact Hrun|]. rewrite Hinst, Hgrp, Hpat.
  split; [|split].
  - intros r Hr. apply in_flat_map in Hr. destruct Hr as (f & Hf & Hr).
    destruct (Hunit f Hf) as (aid & rgn & Haid & Hrgn & Hres).
    unfold Outcome.instances_of in Hr. rewrite Hres in Hr.
    unfold PatchComplianceFinal.fetch_account_region_data in Hr.
    apply AggregateFacts.row_tagged in Hr. destruct Hr as [-> ->].
    split; [now exists aid|exact Hrgn].
  - intros g Hg. apply in_flat_map in Hg. destruct Hg as (f & Hf & Hg).
    destruct (Hunit f Hf) as (aid & rgn & Haid & Hrgn & Hres).
    unfold Outcome.groups_of in Hg. rewrite Hres in Hg.
    unfold PatchComplianceFinal.fetch_account_region_data in Hg.
    apply AggregateFacts.group_tagged in Hg. destruct Hg as (-> & -> & Hpos).
    split; [|exact Hpos]. split; [now exists aid|exact Hrgn].
  - intros p Hp. apply in_flat_map in Hp. destruct Hp as (f & Hf & Hp).
    destruct (Hunit f Hf) as (aid & rgn & Haid & Hrgn & Hres).
    unfold Outcome.patches_of in Hp. rewrite Hres in Hp.
    unfold PatchComplianceFinal.fetch_account_region_data in Hp.
    apply AggregateFacts.patch_tagged in Hp. destruct Hp as [-> ->].
    split; [now exists aid|exact Hrgn].
Qed.

(** Two selected accounts completing in the reverse of the submission
    order: the row of [i-1] of the first account is in the aggregate under
    the name the directory gives, and the account the directory does not list
    goes by its identifier. *)
Lemma aggregate_rows_belong_to_the_selection_witness :
  (exists a,
     PatchComplianceFinal.fetch_all_data (rev Cases.selected_units) = Ok a
     /\ In Cases.relisted_row (PatchComplianceFinal.all_inst a))
  /\ Observed.selected ["111111111111"; "999999999999"] Cases.directory ["eu-west-1"]
       "prod" "eu-west-1"
  /\ PatchComplianceFinal.get_account_name_by_id "999999999999" Cases.directory
     = "999999999999".
Proof.
  destruct (aggregate_rows_belong_to_the_selection
              ["111111111111"; "999999999999"] Cases.directory ["eu-west-1"]
              (fun _ _ => Cases.relisted) (rev Cases.selected_units)
              (Permutation_sym (Permutation_rev Cases.selected_units)))
    as ((a & Hrun & Hinst & _) & Hname).
  assert (Hin : In Cases.relisted_row (PatchComplianceFinal.all_inst a)).
  { vm_compute in Hrun. injection Hrun as <-.
    cbn [PatchComplianceFinal.all_inst]. do 3 right. left. reflexivity. }
  split; [exists a; now split|].
  split; [exact (Hinst _ Hin)|exact (Hname "999999999999")].
Defined.

(* ------------------------------------------------------------------ *)
(** * Further properties of "Patch_Compliance (3)" *)

Module Variant3Facts.
Import PatchCompliance3 DictFacts Views Observed.

Lemma collect_flat (pgs : list (list Reservation)) :
  collect_instances pgs = fold_left record_instance (List.concat (List.concat pgs)) [].
Proof.
  unfold collect_instances.
  rewrite <- (fold_left_concat record_instance (List.concat pgs) []).
  now rewrite (fold_left_concat (fun m res => fold_left record_instance res m)).
Qed.

Lemma variant3_inventory_nodup (pgs : list (list Reservation)) :
  NoDup (keys (collect_instances pgs)).
Proof.
  rewrite collect_flat.
  apply (fold_left_invariant (fun m : dict InstanceInfo => NoDup (keys m))).
  - intros m inst Hm. now apply nodup_set.
  - constructor.
Qed.

Lemma inventory_unflagged (pgs : list (list Reservation)) (k : string) :
  flagged (collect_instances pgs) k = false.
Proof.
  rewrite collect_flat. revert k.
  apply (fold_left_invariant (fun m : dict InstanceInfo => forall k, flagged m k = false)).
  - intros m inst Hm k. unfold flagged, record_instance. rewrite get_set.
    destruct (String.eqb (InstanceId inst) k); [reflexivity|apply Hm].
  - reflexivity.
Qed.

(** Setting the flag of a present key. *)
Lemma flag_update (m : dict InstanceInfo) (iid k : string) :
  dict_mem m k = true ->
  flagged (dict_update m iid set_managed) k = flagged m k || String.eqb k iid.
Proof.
  unfold flagged, dict_mem. rewrite get_update. rewrite (String.eqb_sym k iid).
  destruct (String.eqb iid k) eqn:He.
  - apply String.eqb_eq in He. subst k.
    destruct (dict_get m iid); [|discriminate]. intros _. cbn. now rewrite orb_true_r.
  - intros _. now rewrite orb_false_r.
Qed.

Lemma mem_update (m : dict InstanceInfo) (iid k : string) :
  dict_mem (dict_update m iid set_managed) k = dict_mem m k.
Proof.
  unfold dict_mem. rewrite get_update.
  destruct (String.eqb iid k) eqn:He; [|reflexivity].
  apply String.eqb_eq in He. subst k. now destruct (dict_get m iid).
Qed.

Lemma registry_flags (l : list InstanceInformation) :
  forall ids m,
    let st := fold_left record_managed l (ids, m) in
    keys (snd st) = keys m
    /\ (forall k, dict_mem (snd st) k = dict_mem m k)
    /\ (forall k, dict_mem m k = true ->
          flagged (snd st) k = flagged m k || mem_str k (map info_InstanceId l)).
Proof.
  induction l as [|inst l IH]; intros ids m; cbn [fold_left]; cbv zeta.
  - cbn [snd map mem_str existsb]. split; [reflexivity|]. split; [reflexivity|].
    intros k _. now rewrite orb_false_r.
  - unfold record_managed at 2 4 6.
    set (m' := if dict_mem m (info_InstanceId inst)
               then dict_update m (info_InstanceId inst) set_managed else m).
    destruct (IH (ids ++ [info_InstanceId inst]) m') as (Hk & Hmem & Hflag).
    assert (Hmem' : forall k, dict_mem m' k = dict_mem m k).
    { intros k. unfold m'. destruct (dict_mem m (info_InstanceId inst)); [|reflexivity].
      apply mem_update. }
    split; [|split].
    + rewrite Hk. unfold m'. destruct (dict_mem m _); [apply keys_update|reflexivity].
    + intros k. now rewrite Hmem.
    + intros k Hin. rewrite Hflag by now rewrite Hmem'.
      cbn [map]. unfold mem_str. cbn [existsb]. rewrite orb_assoc. f_equal.
      unfold m'. destruct (dict_mem m (info_InstanceId inst)) eqn:Hm.
      * now apply flag_update.
      * destruct (String.eqb k (info_InstanceId inst)) eqn:He; [|now rewrite orb_false_r].
        apply String.eqb_eq in He. subst k. congruence.
Qed.

Section States.
Variables (account_name account_id region : string).

Local Abbreviation step := (record_patch_state account_name account_id region).

Lemma states_pass (l : list InstancePatchState) :
  forall m rows,
    let st := fold_left step l (m, rows) in
    keys (fst st) = keys m
    /\ (forall k, dict_mem m k = true ->
          flagged (fst st) k = flagged m k || mem_str k (map state_id l))
    /\ map Instance_ID (snd st)
       = map Instance_ID rows ++ filter (dict_mem m) (map state_id l).
Proof.
  induction l as [|ps l IH]; intros m rows; cbn [fold_left]; cbv zeta.
  - cbn [fst snd map filter mem_str existsb]. split; [reflexivity|]. split.
    + intros k _. now rewrite orb_false_r.
    + now rewrite app_nil_r.
  - pose proof (Classification.step_mem account_name account_id region m rows ps) as Hmem.
    assert (Hstep :
              keys (fst (step (m, rows) ps)) = keys m
              /\ (forall k, dict_mem m k = true ->
                    flagged (fst (step (m, rows) ps)) k
                    = flagged m k || String.eqb k (state_id ps))
              /\ map Instance_ID (snd (step (m, rows) ps))
                 = map Instance_ID rows ++ filter (dict_mem m) [state_id ps]).
    { unfold record_patch_state, state_id, dict_mem. cbn [filter].
      destruct (dict_get m (get_or "" (ps_InstanceId ps))) as [info|] eqn:Hinfo;
        cbn [fst snd].
      - split; [apply keys_update|]. split.
        + intros k Hk. now apply flag_update.
        + rewrite map_app. reflexivity.
      - split; [reflexivity|]. split.
        + intros k Hk.
          destruct (String.eqb k (get_or "" (ps_InstanceId ps))) eqn:He;
            [|now rewrite orb_false_r].
          apply String.eqb_eq in He. subst k. rewrite Hinfo in Hk. discriminate.
        + now rewrite app_nil_r. }
    destruct (step (m, rows) ps) as [m' rows']. cbn [fst snd] in Hmem, Hstep.
    destruct Hstep as (Hk1 & Hf1 & Hr1).
    destruct (IH m' rows') as (Hk & Hf & Hr).
    split; [now rewrite Hk|]. split.
    + intros k Hin. rewrite Hf by now rewrite Hmem. rewrite (Hf1 k Hin).
      cbn [map]. unfold mem_str. cbn [existsb]. now rewrite orb_assoc.
    + rewrite Hr, Hr1, <- app_assoc. f_equal. cbn [map filter].
      rewrite (filter_ext _ _ Hmem).
      now destruct (dict_mem m (state_id ps)).
Qed.

Lemma variant3_unmanaged_ids (m : dict InstanceInfo) :
  NoDup (keys m) ->
  map Instance_ID (flat_map (unmanaged_row account_name account_id region) m)
  = filter (fun k => negb (flagged m k)) (keys m).
Proof.
  intros Hnd.
  assert (H : map Instance_ID (flat_map (unmanaged_row account_name account_id region) m)
              = map fst (filter (fun kv => negb (info_Managed (snd kv))) m)).
  { clear Hnd. induction m as [|[k i] m IH]; cbn [flat_map filter map snd]; [reflexivity|].
    rewrite map_app, IH. unfold unmanaged_row at 1.
    now destruct (negb (info_Managed i)). }
  rewrite H, (filter_entries m (fun v => negb (info_Managed v)) Hnd).
  apply filter_ext_in. intros k Hk. unfold flagged.
  destruct (dict_get m k) eqn:Hget; [reflexivity|].
  apply get_none in Hget. contradiction.
Qed.

Lemma unmanaged_status (m : dict InstanceInfo) :
  Forall (fun r => Compliance_Status r = "UNMANAGED")
    (flat_map (unmanaged_row account_name account_id region) m).
Proof.
  apply Forall_forall. intros r Hin. apply in_flat_map in Hin.
  destruct Hin as ([k i] & _ & Hr). unfold unmanaged_row in Hr.
  destruct (negb (info_Managed i)); [|contradiction].
  now destruct Hr as [<-|[]].
Qed.

End States.
End Variant3Facts.

(** X17.  In "Patch_Compliance (3)", [get_patch_compliance] emits one
    instance row per patch-state record whose instance is in the inventory,
    in listing order, followed by one UNMANAGED row per inventory instance
    that the registry does not list and that has no patch-state record.  The
    patch states are read only when the registry lists at least one
    instance: with an empty registry every inventory instance gets exactly
    one row, UNMANAGED, whatever patch states the provider holds.  So an
    instance that the registry lists and that has no patch-state record gets
    no row. *)
Theorem variant3_rows_follow_the_patch_states :
  forall (account_id account_name region : string)
         (ssm : PatchCompliance3.SsmClient) (ec2 : PatchCompliance3.Ec2Client),
    let rows := PatchCompliance3.instance_data account_id account_name region ssm ec2 in
    let inv := PatchCompliance3.collect_instances
                 (pages (PatchCompliance3.describe_instances ec2)) in
    let reg := map info_InstanceId
                 (List.concat (pages (PatchCompliance3.describe_instance_information ssm))) in
    let states :=
      match reg with
      | [] => []
      | _ :: _ =>
          map Observed.state_id
            (List.concat (pages (PatchCompliance3.describe_instance_patch_states ssm)))
      end in
    map PatchCompliance3.Instance_ID rows
    = filter (dict_mem inv) states
      ++ filter (fun k => negb (Views.mem_str k reg) && negb (Views.mem_str k states))
           (keys inv)
    /\ (reg = [] ->
        map PatchCompliance3.Instance_ID rows = keys inv
        /\ Forall (fun r => PatchCompliance3.Compliance_Status r = "UNMANAGED") rows)
    /\ (forall k, In k reg -> ~ In k states ->
          ~ In k (map PatchCompliance3.Instance_ID rows)).
Proof.
  intros account_id account_name region ssm ec2 rows inv reg states.
  assert (Hids : map PatchCompliance3.Instance_ID rows
                 = filter (dict_mem inv) states
                   ++ filter (fun k => negb (Views.mem_str k reg)
                                       && negb (Views.mem_str k states)) (keys inv)
                 /\ (reg = [] ->
                     Forall (fun r => PatchCompliance3.Compliance_Status r = "UNMANAGED")
                       rows)).
  { subst rows. unfold PatchCompliance3.instance_data.
    rewrite (fold_left_concat PatchCompliance3.record_managed).
    fold inv.
    destruct (Variant3Facts.registry_flags
                (List.concat (pages (PatchCompliance3.describe_instance_information ssm)))
                [] inv) as (Hk2 & Hmem2 & Hflag2).
    pose proof (Classification.registry_pass
                  (List.concat (pages (PatchCompliance3.describe_instance_information ssm)))
                  [] inv) as [Hreg _].
    destruct (fold_left PatchCompliance3.record_managed _ ([], inv)) as [ids m2].
    cbn [fst snd app] in Hk2, Hmem2, Hflag2, Hreg. fold reg in Hreg, Hflag2.
    assert (Hnd : NoDup (keys inv)) by apply Variant3Facts.variant3_inventory_nodup.
    assert (Hunflagged : forall k, Observed.flagged inv k = false)
      by (intros k; apply Variant3Facts.inventory_unflagged).
    assert (Hpresent : forall k, In k (keys inv) -> dict_mem inv k = true).
    { intros k Hk. now apply DictFacts.mem_keys. }
    subst ids. subst states. destruct reg as [|k0 reg'] eqn:Hregistry.
    - rewrite fold_left_append. cbn [app filter].
      split; [|intros _; apply Variant3Facts.unmanaged_status].
      rewrite Variant3Facts.variant3_unmanaged_ids by (rewrite Hk2; exact Hnd).
      rewrite Hk2. apply filter_ext_in. intros k Hk.
      rewrite (Hflag2 k (Hpresent k Hk)), Hunflagged.
      reflexivity.
    - rewrite (fold_left_concat
                 (PatchCompliance3.record_patch_state account_name account_id region)).
      destruct (Variant3Facts.states_pass account_name account_id region
                  (List.concat (pages (PatchCompliance3.describe_instance_patch_states ssm)))
                  m2 []) as (Hk3 & Hflag3 & Hrows3).
      destruct (fold_left _ (List.concat _) (m2, [])) as [m3 rows3].
      cbn [fst snd map app] in Hk3, Hflag3, Hrows3.
      split; [|discriminate].
      rewrite fold_left_append, map_app, Hrows3. f_equal.
      + apply filter_ext. exact Hmem2.
      + rewrite Variant3Facts.variant3_unmanaged_ids by (rewrite Hk3, Hk2; exact Hnd).
        rewrite Hk3, Hk2. apply filter_ext_in. intros k Hk.
        rewrite Hflag3 by (rewrite Hmem2; now apply Hpresent).
        rewrite (Hflag2 k (Hpresent k Hk)), Hunflagged.
        cbn [orb]. now rewrite negb_orb. }
  destruct Hids as [Hids Hstatus]. split; [exact Hids|]. split.
  - intros Hempty. split; [|now apply Hstatus].
    rewrite Hids. subst states. rewrite Hempty. cbn [filter app Views.mem_str existsb negb andb].
    clear. induction (keys inv) as [|k l IH]; [reflexivity|]. cbn [filter]. now rewrite IH.
  - intros k Hreg Hstates Hin. rewrite Hids in Hin. apply in_app_or in Hin.
    destruct Hin as [Hin|Hin]; apply filter_In in Hin; destruct Hin as [Hin Hcond].
    + contradiction.
    + apply DictFacts.mem_str_in in Hreg. unfold Views.mem_str in Hcond.
      rewrite Hreg in Hcond. discriminate.
Qed.

(* ------------------------------------------------------------------ *)
(** * The summary metrics *)

Module DashboardFacts.
Import PatchComplianceFinal Dashboard Observed.

Lemma len_where_cons (p : InstanceRow -> bool) (r : InstanceRow) (l : list InstanceRow) :
  len_where p (r :: l) = (if p r then 1 else 0) + len_where p l.
Proof.
  unfold len_where. cbn [filter]. destruct (p r); cbn [List.length]; lia.
Qed.

Lemma len_where_nonneg (p : InstanceRow -> bool) (l : list InstanceRow) :
  0 <= len_where p l.
Proof. unfold len_where. lia. Qed.

(** What one row adds to the counts. *)
Lemma one_row (r : InstanceRow) :
  let c := if String.eqb (Compliance_Status r) "COMPLIANT" then 1 else 0 in
  let n := if String.eqb (Compliance_Status r) "NON_COMPLIANT" then 1 else 0 in
  let u := if Bool.eqb (Managed r) false then 1 else 0 in
  let m := if Managed r then 1 else 0 in
  let t := if counted_twice r then 1 else 0 in
  let z := if not_counted r then 1 else 0 in
  c + n <= 1 /\ m + u = 1 /\ c + n + u + z = 1 + t.
Proof.
  unfold counted_twice, not_counted, in_status_slice.
  destruct (String.eqb (Compliance_Status r) "COMPLIANT") eqn:Hc.
  - apply String.eqb_eq in Hc. rewrite Hc. cbn [String.eqb Ascii.eqb Bool.eqb orb].
    destruct (Managed r); cbn; lia.
  - destruct (String.eqb (Compliance_Status r) "NON_COMPLIANT");
      destruct (Managed r); cbn; lia.
Qed.

Lemma counts (inst_df : list InstanceRow) :
  comp inst_df + non_comp inst_df <= total inst_df
  /\ len_where Managed inst_df + unmg inst_df = total inst_df
  /\ comp inst_df + non_comp inst_df + unmg inst_df + len_where not_counted inst_df
     = total inst_df + len_where counted_twice inst_df.
Proof.
  unfold comp, non_comp, unmg, total.
  induction inst_df as [|r l IH].
  - unfold len_where. cbn. lia.
  - rewrite !len_where_cons. destruct (one_row r) as (H1 & H2 & H3).
    cbv zeta in H1, H2, H3. cbn [List.length]. lia.
Qed.

End DashboardFacts.

(** X18.  The summary metrics of the dashboard: the managed slice
    [total - unmg] is the number of rows flagged as managed and is never
    negative; the compliant and non-compliant counts never exceed the total,
    but the three slices of the "Compliance Summary" pie need not add up to
    it: a row that is not flagged as managed and whose status is COMPLIANT or
    NON_COMPLIANT is counted in two slices, and a managed row with any other
    status in none.  The pie shows only slices above zero. *)
Theorem summary_slices_reconcile :
  forall inst_df : list PatchComplianceFinal.InstanceRow,
    Dashboard.mng inst_df = Dashboard.len_where PatchComplianceFinal.Managed inst_df
    /\ 0 <= Dashboard.mng inst_df <= Dashboard.total inst_df
    /\ Dashboard.comp inst_df + Dashboard.non_comp inst_df <= Dashboard.total inst_df
    /\ Dashboard.comp inst_df + Dashboard.non_comp inst_df + Dashboard.unmg inst_df
       + Dashboard.len_where Observed.not_counted inst_df
       = Dashboard.total inst_df + Dashboard.len_where Observed.counted_twice inst_df
    /\ Forall (fun v => 0 < v) (Dashboard.comp_data_flt inst_df)
    /\ incl (Dashboard.comp_data_flt inst_df) (Dashboard.comp_data inst_df).
Proof.
  intros inst_df. destruct (DashboardFacts.counts inst_df) as (H1 & H2 & H3).
  pose proof (DashboardFacts.len_where_nonneg PatchComplianceFinal.Managed inst_df) as Hm.
  pose proof (DashboardFacts.len_where_nonneg
                (fun r => Bool.eqb (PatchComplianceFinal.Managed r) false) inst_df) as Hu.
  fold (Dashboard.unmg inst_df) in Hu. unfold Dashboard.mng.
  split; [lia|]. split; [lia|]. split; [exact H1|]. split; [exact H3|]. split.
  - unfold Dashboard.comp_data_flt. apply Forall_forall. intros v Hv.
    apply filter_In in Hv. destruct Hv as [_ Hv]. now apply Z.ltb_lt.
  - intros v Hv. unfold Dashboard.comp_data_flt in Hv. now apply filter_In in Hv.
Qed.
